(** * create_skill.py: the name sanitizer and the skill materializer

    A shallow embedding of [sanitize_name] and [create_skill] from
    [src/create_skill.py].

    Python strings are sequences of Unicode code points: a [str] is modelled
    as a [list N] of code points, so [len] is [length] and the limits of 64
    and 1024 count code points, as in the source.  The ASCII string
    literals of the source are written with [lit]; the few code points above
    ASCII, all in what is printed, are written as numbers. *)

From Stdlib Require Import String Ascii NArith List Lia Bool.
From stdpp Require Import base numbers list gmap.

Local Open Scope N_scope.

(** ** Python values *)

Abbreviation char := N (only parsing).
Abbreviation str := (list N) (only parsing).

(** The type of the lowercase table of [str.lower] (see [Sanitizer]). *)
Abbreviation lower_table := (list N -> N -> list N -> list N) (only parsing).

(** The code points of an ASCII literal of the source. *)
Definition lit (s : string) : str :=
  List.map N_of_ascii (list_ascii_of_string s).

(** Exceptions the two functions can end with: [ValueError] carries its
    message; the other four are the subclasses of [OSError] the file
    operations raise.  [UnicodeEncodeError], which an encoder raises on a
    text it does not take, is a subclass of [ValueError]: [except ValueError]
    catches it, and it is modelled as a [ValueError] with its message. *)
Inductive exn : Type :=
  | ValueError (msg : str)
  | FileNotFoundError
  | FileExistsError
  | NotADirectoryError
  | IsADirectoryError.

Definition is_os_error (x : exn) : bool :=
  match x with
  | ValueError _ => false
  | _ => true
  end.

Inductive result (A : Type) : Type :=
  | Return (a : A)
  | Raise (e : exn).
Arguments Return {A} a.
Arguments Raise {A} e.

(** ** String primitives used by [sanitize_name] *)

Definition hyphen : char := 45.
Definition space : char := 32.

Definition is_hyphen (c : char) : bool := c =? hyphen.

(** The character class [[a-z0-9-]] of the first regular expression. *)
Definition in_class (c : char) : bool :=
  ((97 <=? c) && (c <=? 122)) || ((48 <=? c) && (c <=? 57)) || (c =? hyphen).

(** [str.lower] on an ASCII code point: [A-Z] move to [a-z]. *)
Definition ascii_lower (c : char) : char :=
  if (65 <=? c) && (c <=? 90) then c + 32 else c.

(** [s.replace(' ', '-')]. *)
Definition replace_space (s : str) : str :=
  List.map (fun c => if c =? space then hyphen else c) s.

(** [re.sub(r'[^a-z0-9-]', '', s)]: every code point outside the class is
    deleted. *)
Definition re_sub_outside_class (s : str) : str :=
  List.filter in_class s.

(** [re.sub(r'-+', '-', s)].  The scanner goes left to right; a match of
    [-+] starts at the first hyphen it meets and is greedy, so it takes the
    whole run.  [in_match] tells that the scanner is inside a match whose
    replacement, one hyphen, has been emitted already. *)
Fixpoint sub_hyphen_runs (in_match : bool) (s : str) : str :=
  match s with
  | [] => []
  | c :: r =>
      if is_hyphen c
      then (if in_match then sub_hyphen_runs true r
            else hyphen :: sub_hyphen_runs true r)
      else c :: sub_hyphen_runs false r
  end.

Definition re_sub_hyphen_runs (s : str) : str := sub_hyphen_runs false s.

(** [s.lstrip('-')], [s.rstrip('-')] and [s.strip('-')]. *)
Fixpoint lstrip_hyphen (s : str) : str :=
  match s with
  | [] => []
  | c :: r => if is_hyphen c then lstrip_hyphen r else s
  end.

Definition rstrip_hyphen (s : str) : str := rev (lstrip_hyphen (rev s)).

Definition strip_hyphen (s : str) : str := rstrip_hyphen (lstrip_hyphen s).

(** [s.startswith(p)] and the substring test [p in s]. *)
Fixpoint starts_with (p s : str) : bool :=
  match p, s with
  | [], _ => true
  | _ :: _, [] => false
  | a :: p', b :: s' => (a =? b) && starts_with p' s'
  end.

Fixpoint contains (p s : str) : bool :=
  starts_with p s ||
  match s with
  | [] => false
  | _ :: r => contains p r
  end.

(** [s.endswith(p)]. *)
Definition ends_with (p s : str) : bool := starts_with (rev p) (rev s).

(** ** The name sanitizer *)

Definition msg_reserved : str :=
  lit "Skill name cannot contain 'anthropic' or 'claude'".
Definition msg_name_length : str :=
  lit "Skill name must be 64 characters or less".

Section Sanitizer.

(** [str.lower] follows the Unicode character database, which is not part
    of the repository: the lowercase form of a code point above ASCII, in
    its context (the code points before and after it, which the database's
    rule for the final sigma reads), is a parameter. *)
Variable unicode_lower : str -> char -> str -> str.

Definition lower_at (before : str) (c : char) (after : str) : str :=
  if c <? 128 then [ascii_lower c] else unicode_lower before c after.

Fixpoint lower_from (before s : str) : str :=
  match s with
  | [] => []
  | c :: r => lower_at before c r ++ lower_from (before ++ [c]) r
  end.

(** [s.lower()]. *)
Definition str_lower (s : str) : str := lower_from [] s.

(** The three assignments to [clean]. *)
Definition normalize (name : str) : str :=
  let clean := re_sub_outside_class (replace_space (str_lower name)) in
  let clean := re_sub_hyphen_runs clean in
  strip_hyphen clean.

Definition sanitize_name (name : str) : result str :=
  let clean := normalize name in
  if contains (lit "anthropic") clean || contains (lit "claude") clean
  then Raise (ValueError msg_reserved)
  else if (64 <? length clean)%nat
  then Raise (ValueError msg_name_length)
  else Return clean.

End Sanitizer.

(** ** Whitespace and [str.strip()]

    The code points [str.strip()] removes when it is given no argument:
    those for which [str.isspace] holds. *)
Definition is_space (c : char) : bool :=
  ((9 <=? c) && (c <=? 13)) || ((28 <=? c) && (c <=? 32))
  || (c =? 133) || (c =? 160) || (c =? 5760)
  || ((8192 <=? c) && (c <=? 8202))
  || (c =? 8232) || (c =? 8233) || (c =? 8239) || (c =? 8287) || (c =? 12288).

Fixpoint lstrip_space (s : str) : str :=
  match s with
  | [] => []
  | c :: r => if is_space c then lstrip_space r else s
  end.

Definition str_strip (s : str) : str := rev (lstrip_space (rev (lstrip_space s))).

(** Truth value of a string: [not s] holds of the empty string only. *)
Definition is_empty (s : str) : bool :=
  match s with
  | [] => true
  | _ :: _ => false
  end.

(** ** The clock

    [datetime.now()] read through [strftime('%Y-%m-%d')]: a year of four
    digits, a month and a day of two.  The fields are those of a date; the
    padding of the year shows below the year 1000 only, where the C library
    decides on it. *)
Record datetime : Type := { year : N; month : N; day : N }.

Fixpoint uint_chars (u : Decimal.uint) : str :=
  match u with
  | Decimal.Nil => []
  | Decimal.D0 r => 48 :: uint_chars r
  | Decimal.D1 r => 49 :: uint_chars r
  | Decimal.D2 r => 50 :: uint_chars r
  | Decimal.D3 r => 51 :: uint_chars r
  | Decimal.D4 r => 52 :: uint_chars r
  | Decimal.D5 r => 53 :: uint_chars r
  | Decimal.D6 r => 54 :: uint_chars r
  | Decimal.D7 r => 55 :: uint_chars r
  | Decimal.D8 r => 56 :: uint_chars r
  | Decimal.D9 r => 57 :: uint_chars r
  end.

Definition zero_pad (width : nat) (n : N) : str :=
  let d := uint_chars (N.to_uint n) in
  List.repeat 48 (width - length d) ++ d.

Definition strftime_ymd (now : datetime) : str :=
  zero_pad 4 (year now) ++ [hyphen] ++ zero_pad 2 (month now) ++ [hyphen]
  ++ zero_pad 2 (day now).

(** ** Encoders

    Text leaves the program through an encoder in three places: a path given
    to the system goes through the encoding of the file system, the text
    given to [write_text] through the encoding of the locale, and what
    [print] writes through the encoding of the standard output.  Which code
    points an encoder takes is a matter of the process and not of the
    source, so an encoder is a parameter: [accepts] says which code points
    above ASCII it takes (ASCII it takes: Python runs with encodings of the
    locale and of the file system that hold ASCII), and [refusal] gives the
    message of the [UnicodeEncodeError] raised for a text it does not
    take. *)
Definition is_ascii (c : char) : bool := c <? 128.

Record codec : Type := { accepts : char -> bool; refusal : str -> str }.

Definition encodes (k : codec) (s : str) : bool :=
  forallb (fun c => is_ascii c || accepts k c) s.

(** ** Paths ([pathlib.PurePosixPath])

    A path is its parts and whether it starts at the root.  Parsing drops
    empty parts and single dots and keeps [..], as [pathlib] does. *)
Definition slash : char := 47.
Definition dquote : char := 34.
Definition nl : str := [10].
Definition line (s : string) : str := lit s ++ nl.

Fixpoint split_slash (s : str) : list str :=
  match s with
  | [] => [[]]
  | c :: r =>
      if c =? slash then [] :: split_slash r
      else match split_slash r with
           | [] => [[c]]
           | w :: ws => (c :: w) :: ws
           end
  end.

Record Path : Type := { anchored : bool; parts : list str }.

Definition keep_part (p : str) : bool :=
  negb (bool_decide (p = []) || bool_decide (p = lit ".")).

(** [Path(s)]. *)
Definition path_of_str (s : str) : Path :=
  {| anchored := starts_with [slash] s;
     parts := List.filter keep_part (split_slash s) |}.

(** [p / s]: an absolute [s] replaces [p]. *)
Definition path_join (p : Path) (s : str) : Path :=
  let q := path_of_str s in
  if anchored q then q
  else {| anchored := anchored p; parts := parts p ++ parts q |}.

Definition is_absolute (p : Path) : bool := anchored p.

(** ['/'.join(ps)]. *)
Fixpoint join_slash (ps : list str) : str :=
  match ps with
  | [] => []
  | p :: rest =>
      match rest with
      | [] => p
      | _ :: _ => p ++ slash :: join_slash rest
      end
  end.

(** [str(p)]. *)
Definition path_str (p : Path) : str :=
  if anchored p then slash :: join_slash (parts p)
  else match parts p with
       | [] => lit "."
       | _ :: _ => join_slash (parts p)
       end.

(** ** The file system

    A location is the list of names from the root to an entry; the file
    system maps the locations that exist to a directory or to a regular file
    with its text.  The root is a directory.  Symbolic links, permissions
    and the space left on the device are outside the model. *)
Inductive node : Type :=
  | Dir
  | File (content : str).

Abbreviation loc := (list (list N)) (only parsing).
Abbreviation filesystem := (gmap (list (list N)) node) (only parsing).

Definition node_at (fs : filesystem) (l : loc) : option node :=
  match l with
  | [] => Some Dir
  | _ :: _ => fs !! l
  end.

(** What the process sees besides its arguments: the working directory, the
    two readings of the clock, the first for [SKILL.md] and the second for
    [REFERENCE.md], and the three encoders. *)
Record env : Type :=
  { cwd : loc;
    now_skill : datetime;
    now_reference : datetime;
    file_codec : codec;
    path_codec : codec;
    stdout_codec : codec }.

(** One part of a path taken from a directory: [..] goes to the parent. *)
Definition step (cur : loc) (c : str) : loc :=
  if bool_decide (c = lit "..") then removelast cur else cur ++ [c].

Definition start (e : env) (p : Path) : loc :=
  if anchored p then [] else cwd e.

(** Path resolution of the kernel: every part but the last has to name a
    directory that exists; the result is the location the last part names,
    which may or may not exist. *)
Fixpoint namei (fs : filesystem) (cur : loc) (ps : list str) : result loc :=
  match ps with
  | [] => Return cur
  | c :: rest =>
      match rest with
      | [] => Return (step cur c)
      | _ :: _ =>
          match node_at fs (step cur c) with
          | Some Dir => namei fs (step cur c) rest
          | Some (File _) => Raise NotADirectoryError
          | None => Raise FileNotFoundError
          end
      end
  end.

(** ** Computations on the file system that may raise *)

Definition M (A : Type) : Type := filesystem -> result A * filesystem.

Definition ret {A} (a : A) : M A := fun fs => (Return a, fs).
Definition raise {A} (x : exn) : M A := fun fs => (Raise x, fs).
Definition bind {A B} (m : M A) (k : A -> M B) : M B :=
  fun fs =>
    match m fs with
    | (Return a, fs') => k a fs'
    | (Raise x, fs') => (Raise x, fs')
    end.

Notation "m ;;; k" := (bind m (fun _ => k))
  (at level 100, k at level 200, right associativity).

(** What [os.mkdir], [os.stat] and [open] do with a path before they call
    the system: the path is encoded, which raises [UnicodeEncodeError] when
    the encoding of the file system does not take it, and a path that holds
    the code point 0 is refused with a [ValueError].  Neither depends on the
    separators, so the test is on the parts. *)
Definition has_nul (s : str) : bool := existsb (fun c => c =? 0) s.

Definition msg_null_byte : str := lit "embedded null byte".

Definition path_error (e : env) (p : Path) : option exn :=
  if negb (forallb (encodes (path_codec e)) (parts p))
  then Some (ValueError (refusal (path_codec e) (path_str p)))
  else if existsb has_nul (parts p)
  then Some (ValueError msg_null_byte)
  else None.

(** The location a path names for the system: the path has to pass
    [path_error], the directory the resolution starts from, the root or the
    working directory, has to be there, and then [namei] walks the parts. *)
Definition resolve (e : env) (p : Path) (fs : filesystem) : result loc :=
  match path_error e p with
  | Some x => Raise x
  | None =>
      match node_at fs (start e p) with
      | Some Dir => namei fs (start e p) (parts p)
      | _ => Raise FileNotFoundError
      end
  end.

(** [os.mkdir(p)]. *)
Definition os_mkdir (e : env) (p : Path) : M unit :=
  fun fs =>
    match resolve e p fs with
    | Raise x => (Raise x, fs)
    | Return l =>
        match node_at fs l with
        | Some _ => (Raise FileExistsError, fs)
        | None => (Return tt, <[l := Dir]> fs)
        end
    end.

(** [p.is_dir()]: [False] also where [os.stat] raises. *)
Definition is_dir (e : env) (p : Path) (fs : filesystem) : bool :=
  match resolve e p fs with
  | Return l =>
      match node_at fs l with
      | Some Dir => true
      | _ => false
      end
  | Raise _ => false
  end.

(** [p.mkdir(exist_ok=True)]: [pathlib] calls [os.mkdir]; it passes
    [FileNotFoundError] on, lets any other [OSError] go when the path is a
    directory, and does not catch a [ValueError]. *)
Definition path_mkdir (e : env) (p : Path) : M unit :=
  fun fs =>
    match os_mkdir e p fs with
    | (Return _, fs') => (Return tt, fs')
    | (Raise FileNotFoundError, _) => (Raise FileNotFoundError, fs)
    | (Raise (ValueError msg), _) => (Raise (ValueError msg), fs)
    | (Raise x, _) => if is_dir e p fs then (Return tt, fs) else (Raise x, fs)
    end.

(** [p.mkdir(parents=True, exist_ok=True)]: as above, but on
    [FileNotFoundError] the parent is made first, in the same way, and then
    the path itself.  The parts come last one first, so the parent is the
    tail; the path without parts is its own parent. *)
Fixpoint mkdir_parents (e : env) (anch : bool) (rparts : list str) : M unit :=
  fun fs =>
    let p := {| anchored := anch; parts := rev rparts |} in
    match os_mkdir e p fs with
    | (Return _, fs') => (Return tt, fs')
    | (Raise FileNotFoundError, _) =>
        match rparts with
        | [] => (Raise FileNotFoundError, fs)
        | _ :: rparent =>
            match mkdir_parents e anch rparent fs with
            | (Return _, fs1) => path_mkdir e p fs1
            | (Raise x, fs1) => (Raise x, fs1)
            end
        end
    | (Raise (ValueError msg), _) => (Raise (ValueError msg), fs)
    | (Raise x, _) => if is_dir e p fs then (Return tt, fs) else (Raise x, fs)
    end.

Definition path_mkdir_parents (e : env) (p : Path) : M unit :=
  mkdir_parents e (anchored p) (rev (parts p)).

(** [p.write_text(data)]: the file is opened for writing, which creates it
    or empties it; then [data] is encoded and becomes its text.  When the
    encoder does not take [data], nothing is written and the file stays
    empty. *)
Definition write_text (e : env) (p : Path) (data : str) : M unit :=
  fun fs =>
    match resolve e p fs with
    | Raise x => (Raise x, fs)
    | Return l =>
        match node_at fs l with
        | Some Dir => (Raise IsADirectoryError, fs)
        | _ =>
            if encodes (file_codec e) data
            then (Return tt, <[l := File data]> fs)
            else (Raise (ValueError (refusal (file_codec e) data)),
                  <[l := File []]> fs)
        end
    end.

(** [print(text)]: the text is encoded for the standard output.  What has
    been printed is not part of the state. *)
Definition print (e : env) (text : str) : M unit :=
  fun fs =>
    if encodes (stdout_codec e) text then (Return tt, fs)
    else (Raise (ValueError (refusal (stdout_codec e) text)), fs).

Fixpoint print_lines (e : env) (texts : list str) : M unit :=
  match texts with
  | [] => ret tt
  | t :: rest => print e t ;;; print_lines e rest
  end.

(** [str(p.absolute())]: a relative path is joined to the working
    directory. *)
Definition absolute_str (e : env) (p : Path) : str :=
  if anchored p then path_str p else slash :: join_slash (cwd e ++ parts p).

(** ** The texts of the five files *)

(** The last line of [SKILL.md]:
    [f'*Dependencies: {dependencies}*' if dependencies else '']. *)
Definition dependencies_line (dependencies : str) : str :=
  if is_empty dependencies then []
  else lit "*Dependencies: " ++ dependencies ++ lit "*".

Definition skill_header (safe_name description : str) : str :=
  concat
    [ line "---";
      lit "name: " ++ safe_name ++ nl;
      lit "description: " ++ description ++ nl;
      line "---" ].

Definition skill_body (skill_name description purpose instructions examples : str) : str :=
  concat
    [ nl;
      lit "# " ++ skill_name ++ nl;
      nl;
      line "## Overview";
      nl;
      purpose ++ nl;
      nl;
      line "## When to Use This Skill";
      nl;
      line "Claude should activate this skill when:";
      lit "- " ++ description ++ nl;
      nl;
      line "## Instructions";
      nl;
      instructions ++ nl;
      nl;
      line "## Examples";
      nl;
      examples ++ nl;
      nl;
      line "## Best Practices";
      nl;
      line "- Follow all instructions in sequence";
      line "- Reference additional files in resources/ when needed";
      line "- Use scripts/ for executable code that doesn't need to be in context";
      line "- Keep responses focused and actionable";
      nl;
      line "## Additional Resources";
      nl;
      line "- See REFERENCE.md for detailed documentation";
      line "- Check resources/ folder for templates and reference materials";
      line "- Review scripts/ for utility code";
      nl ].

Definition skill_footer (now : datetime) (dependencies : str) : str :=
  concat
    [ line "---";
      lit "*Created: " ++ strftime_ymd now ++ lit "*" ++ nl;
      line "*Version: 1.0.0*";
      dependencies_line dependencies ++ nl ].

Definition reference_content (skill_name : str) (now : datetime) : str :=
  concat
    [ lit "# " ++ skill_name ++ lit " - Reference Documentation" ++ nl;
      nl;
      line "This file contains detailed information that doesn't need to be loaded immediately";
      line "but can be referenced when needed.";
      nl;
      line "## Detailed Context";
      nl;
      line "[Add comprehensive background information here]";
      nl;
      line "## Advanced Usage";
      nl;
      line "[Document edge cases, advanced scenarios, and complex workflows]";
      nl;
      line "## Troubleshooting";
      nl;
      line "[Common issues and their solutions]";
      nl;
      line "## Related Resources";
      nl;
      line "- Additional documentation in resources/";
      line "- Utility scripts in scripts/";
      line "- External references: [Add relevant links]";
      nl;
      line "## Version History";
      nl;
      lit "- v1.0.0 (" ++ strftime_ymd now ++ lit "): Initial release" ++ nl ].

Definition resources_readme (skill_name : str) : str :=
  concat
    [ lit "# Resources for " ++ skill_name ++ nl;
      nl;
      line "This directory contains supplemental files for the skill:";
      nl;
      line "- Templates";
      line "- Reference data";
      line "- Example files";
      line "- Configuration samples";
      nl;
      line "Files here are loaded on-demand, so they don't count against the initial context budget." ].

Definition scripts_readme (skill_name : str) : str :=
  concat
    [ lit "# Scripts for " ++ skill_name ++ nl;
      nl;
      line "Executable code goes here. Scripts are run via bash, so only their output";
      line "(not their code) consumes tokens.";
      nl;
      line "## Adding Scripts";
      nl;
      line "1. Create Python/shell scripts here";
      line "2. Make them executable: `chmod +x script.py`";
      line "3. Reference them in SKILL.md instructions";
      line "4. Document their purpose and usage";
      nl;
      line "## Example";
      nl;
      line "```python";
      line "#!/usr/bin/env python3";
      line "# Description: What this script does";
      nl;
      line "def main():";
      line "    # Your code here";
      line "    pass";
      nl;
      lit "if __name__ == " ++ [dquote] ++ lit "__main__" ++ [dquote] ++ lit ":" ++ nl;
      line "    main()";
      line "```" ].

Definition gitignore_content : str :=
  concat
    [ line "# Python";
      line "__pycache__/";
      line "*.py[cod]";
      line "*$py.class";
      line "*.so";
      line ".Python";
      nl;
      line "# Virtual environments";
      line "venv/";
      line "env/";
      nl;
      line "# IDE";
      line ".vscode/";
      line ".idea/";
      nl;
      line "# OS";
      line ".DS_Store";
      line "Thumbs.db" ].

(** The text of [SKILL.md]: header, sections and footer in one string. *)
Definition skill_content (safe_name skill_name description purpose instructions
                            examples dependencies : str) (now : datetime) : str :=
  skill_header safe_name description
  ++ skill_body skill_name description purpose instructions examples
  ++ skill_footer now dependencies.

(** ** The report

    What [create_skill] prints once the files are written, one text for each
    [print] of lines 212 to 239, in their order; [location] is
    [skill_dir.absolute()].  The check mark is U+2713 and the lines of the
    tree are drawn with U+251C, U+2500, U+2502 and U+2514. *)
Definition rule : str := List.repeat 61 60.

Definition check_mark : char := 10003.
Definition tee : str := [9500; 9472; 9472].
Definition elbow : str := [9492; 9472; 9472].
Definition bar : str := [9474].

Definition report_lines (location safe_name : str) : list str :=
  [ nl ++ rule;
    check_mark :: lit " Skill created successfully!";
    rule;
    nl ++ lit "Location: " ++ location;
    lit "Safe name: " ++ safe_name;
    nl ++ lit "Structure created:";
    lit "  " ++ tee ++ lit " SKILL.md           (Main skill file with YAML)";
    lit "  " ++ tee ++ lit " REFERENCE.md       (Detailed documentation)";
    lit "  " ++ tee ++ lit " .gitignore         (Git ignore rules)";
    lit "  " ++ tee ++ lit " resources/";
    lit "  " ++ bar ++ lit "   " ++ elbow ++ lit " README.md      (Resource directory info)";
    lit "  " ++ elbow ++ lit " scripts/";
    lit "      " ++ elbow ++ lit " README.md      (Scripts directory info)";
    nl ++ rule;
    lit "Next Steps:";
    rule;
    lit "1. Review and edit " ++ safe_name ++ lit "/SKILL.md";
    lit "2. Add templates/resources to " ++ safe_name ++ lit "/resources/";
    lit "3. Add executable scripts to " ++ safe_name ++ lit "/scripts/";
    lit "4. Test the skill:";
    lit "   cd " ++ safe_name;
    lit "   zip -r ../" ++ safe_name ++ lit ".zip .";
    nl ++ lit "5. Install to Claude Code:";
    lit "   cp -r " ++ safe_name ++ lit " ~/.claude/skills/";
    nl ++ lit "6. Or upload to Claude.ai:";
    lit "   Settings > Capabilities > Skills > Upload";
    rule ++ nl ].

(** ** The materializer *)

Definition msg_description_length : str :=
  lit "Description must be 1024 characters or less".
Definition msg_description_empty : str :=
  lit "Description cannot be empty".

(** The target directory: [Path(install_path) / safe_name] when
    [install_path] is given and not empty, else [Path(f"./{safe_name}")]. *)
Definition target_dir (install_path : option str) (safe_name : str) : Path :=
  match install_path with
  | Some ip =>
      if is_empty ip then path_of_str (lit "./" ++ safe_name)
      else path_join (path_of_str ip) safe_name
  | None => path_of_str (lit "./" ++ safe_name)
  end.

Section Materializer.

Variable unicode_lower : str -> char -> str -> str.

Definition create_skill (e : env)
    (skill_name description purpose instructions examples dependencies : str)
    (install_path : option str) : M Path :=
  fun fs0 =>
    match sanitize_name unicode_lower skill_name with
    | Raise x => (Raise x, fs0)
    | Return safe_name =>
        if (1024 <? length description)%nat
        then (Raise (ValueError msg_description_length), fs0)
        else if is_empty (str_strip description)
        then (Raise (ValueError msg_description_empty), fs0)
        else
          let skill_dir := target_dir install_path safe_name in
          (path_mkdir_parents e skill_dir ;;;
           path_mkdir e (path_join skill_dir (lit "resources")) ;;;
           path_mkdir e (path_join skill_dir (lit "scripts")) ;;;
           write_text e (path_join skill_dir (lit "SKILL.md"))
             (skill_content safe_name skill_name description purpose
                instructions examples dependencies (now_skill e)) ;;;
           write_text e (path_join skill_dir (lit "REFERENCE.md"))
             (reference_content skill_name (now_reference e)) ;;;
           write_text e
             (path_join (path_join skill_dir (lit "resources")) (lit "README.md"))
             (resources_readme skill_name) ;;;
           write_text e
             (path_join (path_join skill_dir (lit "scripts")) (lit "README.md"))
             (scripts_readme skill_name) ;;;
           write_text e (path_join skill_dir (lit ".gitignore"))
             gitignore_content ;;;
           print_lines e (report_lines (absolute_str e skill_dir) safe_name) ;;;
           ret skill_dir) fs0
    end.

End Materializer.

(** A lowercase table for closed examples: the two code points above ASCII
    whose lowercase form holds an ASCII letter (U+0130, U+212A); any other
    code point is left as it is.  The examples are ASCII, where no table is
    read. *)
Definition sample_lower (before : str) (c : char) (after : str) : str :=
  if c =? 304 then [105; 775]
  else if c =? 8490 then [107]
  else [c].

(** ** The sanitizer as the specification words it

    Steps 1 to 4 of the specification, each written from its sentence and
    not from the regular expressions of the source. *)

(** Step 2: strip every character not in [[a-z0-9-]]. *)
Fixpoint spec_strip_outside (s : str) : str :=
  match s with
  | [] => []
  | c :: r => if in_class c then c :: spec_strip_outside r else spec_strip_outside r
  end.

(** Step 3: collapse any run of two or more consecutive hyphens into a single
    hyphen: a hyphen that is followed by a hyphen goes. *)
Fixpoint spec_collapse (s : str) : str :=
  match s with
  | [] => []
  | c :: r =>
      match r with
      | d :: _ => if is_hyphen c && is_hyphen d then spec_collapse r else c :: spec_collapse r
      | [] => [c]
      end
  end.

(** Step 4: trim leading and trailing hyphens. *)
Fixpoint spec_trim_leading (s : str) : str :=
  match s with
  | c :: r => if is_hyphen c then spec_trim_leading r else s
  | [] => []
  end.

Definition spec_trim_trailing (s : str) : str :=
  fold_right (fun c acc => match acc with
                           | [] => if is_hyphen c then [] else [c]
                           | _ :: _ => c :: acc
                           end) [] s.

Section SanitizerSpec.

Variable unicode_lower : str -> char -> str -> str.

(** Step 1: lowercase the input; replace each space with a hyphen. *)
Definition spec_step1 (s : str) : str :=
  List.map (fun c => if c =? space then hyphen else c) (str_lower unicode_lower s).

Definition spec_normalize (s : str) : str :=
  spec_trim_trailing (spec_trim_leading (spec_collapse (spec_strip_outside (spec_step1 s)))).

End SanitizerSpec.

(** Re-sanitizing: [sanitize_name] applied to its own result, an exception of
    the first call passing through. *)
Definition sanitize_twice (unicode_lower : lower_table) (name : str) : result str :=
  match sanitize_name unicode_lower name with
  | Return clean => sanitize_name unicode_lower clean
  | Raise e => Raise e
  end.

(** ** Predicates on file systems used in the statements *)

(** [fs'] has everything [fs] has and, besides, new directories only. *)
Definition extends (fs fs' : filesystem) : Prop :=
  forall l : loc, fs' !! l = fs !! l \/ (fs !! l = None /\ fs' !! l = Some Dir).

(** The parts [ps], taken from [cur], name the directory [l]. *)
Definition dir_at (fs : filesystem) (cur : loc) (ps : list str) (l : loc) : Prop :=
  namei fs cur ps = Return l /\ node_at fs l = Some Dir.

(** The path [p] names the directory [l] for the system. *)
Definition dir_of (e : env) (p : Path) (fs : filesystem) (l : loc) : Prop :=
  resolve e p fs = Return l /\ node_at fs l = Some Dir.

(** The directory [l] made unless something is there. *)
Definition ensure_dir (fs : filesystem) (l : loc) : filesystem :=
  match node_at fs l with
  | None => <[l := Dir]> fs
  | Some _ => fs
  end.

Definition is_file (fs : filesystem) (l : loc) : bool :=
  match node_at fs l with
  | Some (File _) => true
  | _ => false
  end.

(** The locations on the way from [cur] down the parts [ps], the last one
    being the location of [ps] itself. *)
Fixpoint prefixes (cur : loc) (ps : list str) : list loc :=
  match ps with
  | [] => []
  | c :: r => (cur ++ [c]) :: prefixes (cur ++ [c]) r
  end.

(** The same with [..] going up: the locations the parts [ps] lead through
    from [cur], one for each part, and the location they end at. *)
Fixpoint walk (cur : loc) (ps : list str) : list loc :=
  match ps with
  | [] => []
  | c :: r => step cur c :: walk (step cur c) r
  end.

Definition target_loc (e : env) (p : Path) : loc :=
  fold_left step (parts p) (start e p).

(** The locations of the five files and of the two directories of a skill
    whose directory is [T]. *)
Definition loc_skill_md (T : loc) : loc := T ++ [lit "SKILL.md"].
Definition loc_reference_md (T : loc) : loc := T ++ [lit "REFERENCE.md"].
Definition loc_gitignore (T : loc) : loc := T ++ [lit ".gitignore"].
Definition loc_resources (T : loc) : loc := T ++ [lit "resources"].
Definition loc_scripts (T : loc) : loc := T ++ [lit "scripts"].
Definition loc_resources_readme (T : loc) : loc := T ++ [lit "resources"; lit "README.md"].
Definition loc_scripts_readme (T : loc) : loc := T ++ [lit "scripts"; lit "README.md"].

Definition skill_file_locs (T : loc) : list loc :=
  [loc_skill_md T; loc_reference_md T; loc_resources_readme T;
   loc_scripts_readme T; loc_gitignore T].

(** The file system after the two [mkdir] of the subdirectories, and after
    the five [write_text]. *)
Definition skill_dirs (T : loc) (fs : filesystem) : filesystem :=
  ensure_dir (ensure_dir fs (loc_resources T)) (loc_scripts T).

Definition skill_written (T : loc) (c_skill c_reference c_resources c_scripts c_gitignore : str)
    (fs : filesystem) : filesystem :=
  <[loc_gitignore T := File c_gitignore]>
    (<[loc_scripts_readme T := File c_scripts]>
       (<[loc_resources_readme T := File c_resources]>
          (<[loc_reference_md T := File c_reference]>
             (<[loc_skill_md T := File c_skill]> fs)))).

Definition dir_here (fs : filesystem) (l : loc) : bool :=
  match node_at fs l with
  | Some Dir => true
  | _ => false
  end.

(** A name the source gives to an entry of the target directory: ASCII
    without the code point 0, and not [..]. *)
Definition entry_name (c : str) : bool :=
  forallb is_ascii c && negb (has_nul c) && negb (bool_decide (c = lit "..")).

(** What [create_skill] does once the target directory is made: the two
    subdirectories, the five files, the report, and the path as the
    result. *)
Definition write_tree (e : env) (skill_dir : Path)
    (c_skill c_reference c_resources c_scripts c_gitignore : str)
    (report : list str) : M Path :=
  path_mkdir e (path_join skill_dir (lit "resources")) ;;;
  path_mkdir e (path_join skill_dir (lit "scripts")) ;;;
  write_text e (path_join skill_dir (lit "SKILL.md")) c_skill ;;;
  write_text e (path_join skill_dir (lit "REFERENCE.md")) c_reference ;;;
  write_text e (path_join (path_join skill_dir (lit "resources")) (lit "README.md"))
    c_resources ;;;
  write_text e (path_join (path_join skill_dir (lit "scripts")) (lit "README.md"))
    c_scripts ;;;
  write_text e (path_join skill_dir (lit ".gitignore")) c_gitignore ;;;
  print_lines e report ;;;
  ret skill_dir.

(** No regular file where the two subdirectories go, no directory where the
    five files go. *)
Definition can_write (fs : filesystem) (T : loc) : bool :=
  negb (is_file fs (loc_resources T)) && negb (is_file fs (loc_scripts T))
  && forallb (fun l => negb (dir_here fs l)) (skill_file_locs T).

(** The error of the first text the encoder does not take. *)
Fixpoint print_error (k : codec) (texts : list str) : option exn :=
  match texts with
  | [] => None
  | t :: rest =>
      if encodes k t then print_error k rest
      else Some (ValueError (refusal k t))
  end.

(** What the steps of [write_tree] come to when the target directory [T] is
    there: the first step that finds an entry of the wrong kind, or a text
    its encoder does not take, raises, and what the steps before it did
    stays; a text that is not taken leaves its file empty. *)
Definition tree_outcome (e : env) (p : Path) (T : loc) (c1 c2 c3 c4 c5 : str)
    (report : list str) (fs : filesystem) : result Path * filesystem :=
  let k := file_codec e in
  if is_file fs (loc_resources T) then (Raise FileExistsError, fs)
  else if is_file fs (loc_scripts T)
  then (Raise FileExistsError, ensure_dir fs (loc_resources T))
  else
    let s2 := skill_dirs T fs in
    if dir_here fs (loc_skill_md T) then (Raise IsADirectoryError, s2)
    else if negb (encodes k c1)
    then (Raise (ValueError (refusal k c1)), <[loc_skill_md T := File []]> s2)
    else
      let s3 := <[loc_skill_md T := File c1]> s2 in
      if dir_here fs (loc_reference_md T) then (Raise IsADirectoryError, s3)
      else if negb (encodes k c2)
      then (Raise (ValueError (refusal k c2)), <[loc_reference_md T := File []]> s3)
      else
        let s4 := <[loc_reference_md T := File c2]> s3 in
        if dir_here fs (loc_resources_readme T) then (Raise IsADirectoryError, s4)
        else if negb (encodes k c3)
        then (Raise (ValueError (refusal k c3)),
              <[loc_resources_readme T := File []]> s4)
        else
          let s5 := <[loc_resources_readme T := File c3]> s4 in
          if dir_here fs (loc_scripts_readme T) then (Raise IsADirectoryError, s5)
          else if negb (encodes k c4)
          then (Raise (ValueError (refusal k c4)),
                <[loc_scripts_readme T := File []]> s5)
          else
            let s6 := <[loc_scripts_readme T := File c4]> s5 in
            if dir_here fs (loc_gitignore T) then (Raise IsADirectoryError, s6)
            else if negb (encodes k c5)
            then (Raise (ValueError (refusal k c5)),
                  <[loc_gitignore T := File []]> s6)
            else
              let s7 := <[loc_gitignore T := File c5]> s6 in
              match print_error (stdout_codec e) report with
              | Some x => (Raise x, s7)
              | None => (Return p, s7)
              end.

(** ** A process and a file system for closed examples

    The encoder of the examples takes, as UTF-8 does, every code point but
    the surrogates.  The working directory is [/home/user], which exists;
    nothing else does. *)
Definition is_surrogate (c : char) : bool := (55296 <=? c) && (c <=? 57343).

Definition sample_codec : codec :=
  {| accepts := fun c => negb (is_surrogate c);
     refusal := fun _ => lit "surrogates not allowed" |}.

Definition env0 : env :=
  {| cwd := [lit "home"; lit "user"];
     now_skill := {| year := 2025; month := 3; day := 9 |};
     now_reference := {| year := 2025; month := 3; day := 10 |};
     file_codec := sample_codec;
     path_codec := sample_codec;
     stdout_codec := sample_codec |}.

Definition fs0 : filesystem :=
  <[ [lit "home"; lit "user"] := Dir ]> (<[ [lit "home"] := Dir ]> ∅).



(** The entries of a skill by their location in its directory. *)
Definition skill_tree (c_skill c_reference c_resources c_scripts c_gitignore : str)
    (rel : loc) : option node :=
  if bool_decide (rel = [lit "resources"]) then Some Dir
  else if bool_decide (rel = [lit "scripts"]) then Some Dir
  else if bool_decide (rel = [lit "SKILL.md"]) then Some (File c_skill)
  else if bool_decide (rel = [lit "REFERENCE.md"]) then Some (File c_reference)
  else if bool_decide (rel = [lit "resources"; lit "README.md"]) then Some (File c_resources)
  else if bool_decide (rel = [lit "scripts"; lit "README.md"]) then Some (File c_scripts)
  else if bool_decide (rel = [lit ".gitignore"]) then Some (File c_gitignore)
  else None.

(** A first run for the closed examples. *)
Definition run0 : result Path * filesystem :=
  create_skill sample_lower env0 (lit "My Cool Skill!!") (lit "Does things")
    (lit "P") (lit "I") (lit "E") (lit "numpy") None fs0.

(** The same process at another time. *)
Definition at_time (e : env) (t_skill t_reference : datetime) : env :=
  {| cwd := cwd e;
     now_skill := t_skill;
     now_reference := t_reference;
     file_codec := file_codec e;
     path_codec := path_codec e;
     stdout_codec := stdout_codec e |}.

Definition env1 : env :=
  at_time env0 {| year := 2025; month := 11; day := 30 |}
    {| year := 2025; month := 12; day := 1 |}.


(** * The rest of the program

    Definitions for the properties that go beyond the sanitizer's and the
    materializer's contracts, and the two callers, [interactive_mode] and
    [main]. *)

(** ** Names the sanitizer accepts as they are *)

(** A name of the form the sanitizer produces and accepts: characters of
    [[a-z0-9-]] only, no two hyphens in a row, no hyphen at either end, at
    most 64 code points, neither reserved word. *)
Definition valid_slug (s : str) : bool :=
  forallb in_class s
  && negb (contains (lit "--") s)
  && negb (starts_with (lit "-") s)
  && negb (ends_with (lit "-") s)
  && (length s <=? 64)%nat
  && negb (contains (lit "anthropic") s)
  && negb (contains (lit "claude") s).

(** What is left of an ASCII character once the case of letters and the
    difference between a space and a hyphen are forgotten. *)
Definition fold_case_space (c : char) : char :=
  if ascii_lower c =? space then hyphen else ascii_lower c.

(** ** What a run may change *)

(** The names of the files [create_skill] writes. *)
Definition skill_file_names : list str :=
  [lit "SKILL.md"; lit "REFERENCE.md"; lit "README.md"; lit ".gitignore"].

(** A location whose last name is one of them. *)
Definition overwritable (l : loc) : Prop :=
  exists c, last l = Some c /\ In c skill_file_names.

(** Every entry of [fs] is still there in [fs'], a directory as a directory
    and a regular file as a regular file; the text of a file may differ only
    at an overwritable location. *)
Definition keeps (fs fs' : filesystem) : Prop :=
  forall (l : loc) (n : node),
    fs !! l = Some n ->
    fs' !! l = Some n
    \/ (overwritable l /\ exists c c', n = File c /\ fs' !! l = Some (File c')).

(** The seven locations of a skill whose directory is [T]. *)
Definition skill_locs (T : loc) : list loc :=
  loc_resources T :: loc_scripts T :: skill_file_locs T.

(** ** What the encoders are given *)

(** The encoders take what a call gives them: the target path, the fields
    the texts of the files are made of, and the report. *)
Definition encoders_accept (e : env)
    (safe_name skill_name description purpose instructions examples dependencies : str)
    (install_path : option str) : bool :=
  let p := target_dir install_path safe_name in
  match path_error e p with
  | None => true
  | Some _ => false
  end
  && forallb (encodes (file_codec e))
       [skill_name; description; purpose; instructions; examples; dependencies]
  && forallb (encodes (stdout_codec e)) (report_lines (absolute_str e p) safe_name).

(** ** Where the target directory is *)

(** The directory a skill goes into: the install path when one is given and
    not empty, else the working directory, which is the path without
    parts. *)
Definition base_dir (install_path : option str) : Path :=
  match install_path with
  | Some (c :: ip) => path_of_str (c :: ip)
  | _ => {| anchored := false; parts := [] |}
  end.

(** A file system in which the skill of [run0] cannot be completed: its
    directory is there and holds a directory named [.gitignore]. *)
Definition fs_blocked : filesystem :=
  <[ [lit "home"; lit "user"; lit "my-cool-skill"; lit ".gitignore"] := Dir ]>
    (<[ [lit "home"; lit "user"; lit "my-cool-skill"] := Dir ]> fs0).

(** ** The interactive caller

    [interactive_mode] and [main] read lines from the standard input and end
    by returning, by [sys.exit] or by an exception nobody catches.  The
    standard input is the list of the lines still to be read, each without
    its newline, as [input()] returns them: lines the decoder of the
    standard input takes.  What is printed is not part of the state, here
    as in [create_skill], and the [print] of the two callers are not steps
    of their own: their texts are ASCII, which every encoder takes, but for
    the check mark of the two lines printed once [create_skill] has
    returned, which [create_skill] has printed before. *)

Inductive outcome : Type :=
  | Finished
  | SystemExit (status : N)
  | Uncaught (x : exn)
  | EOFError.

(** What the process has besides the standard input and the file system:
    the working directory and the clock, the home directory of the user as
    [os.path.expanduser] finds it, if it does, and the command line. *)
Record process : Type :=
  { proc_env : env; proc_home : option str; proc_argv : list str }.

(** [input()]: the next line, or nothing at the end of the input, where
    Python raises [EOFError]. *)
Definition input (stdin : list str) : option (str * list str) :=
  match stdin with
  | [] => None
  | l :: rest => Some (l, rest)
  end.

(** The loop that reads a block:
    [while True: line = input(); if line == 'DONE': break; lines.append(line)]. *)
Fixpoint read_lines (stdin : list str) (lines : list str) : option (list str * list str) :=
  match stdin with
  | [] => None
  | l :: rest =>
      if bool_decide (l = lit "DONE") then Some (lines, rest)
      else read_lines rest (lines ++ [l])
  end.

(** ['\n'.join(lines)]. *)
Fixpoint join_lines (lines : list str) : str :=
  match lines with
  | [] => []
  | l :: rest =>
      match rest with
      | [] => l
      | _ :: _ => l ++ nl ++ join_lines rest
      end
  end.

(** [s.rstrip('/')]. *)
Fixpoint lstrip_slash (s : str) : str :=
  match s with
  | [] => []
  | c :: r => if c =? slash then lstrip_slash r else s
  end.

Definition rstrip_slash (s : str) : str := rev (lstrip_slash (rev s)).

(** [os.path.expanduser("~/.claude/skills")]: the home directory without the
    slashes at its end, then the rest of the path; the path as it is when no
    home directory is found. *)
Definition expanduser_skills (home : option str) : str :=
  match home with
  | Some h => rstrip_slash h ++ lit "/.claude/skills"
  | None => lit "~/.claude/skills"
  end.

Section Interactive.

Variable unicode_lower : lower_table.

(** The install path chosen by the answer to the last prompt:
    [install_choice = input(...).strip().lower()], then
    [expanduser(...) if install_choice == 'y' else None]. *)
Definition install_path_of (home : option str) (answer : str) : option str :=
  let install_choice := str_lower unicode_lower (str_strip answer) in
  if bool_decide (install_choice = lit "y") then Some (expanduser_skills home)
  else None.

Definition interactive_mode (pr : process) (stdin : list str) (fs : filesystem)
  : outcome * list str * filesystem :=
  match input stdin with
  | None => (EOFError, [], fs)
  | Some (l1, stdin1) =>
  let skill_name := str_strip l1 in
  if is_empty skill_name then (SystemExit 1, stdin1, fs) else
  match input stdin1 with
  | None => (EOFError, [], fs)
  | Some (l2, stdin2) =>
  let description := str_strip l2 in
  if is_empty description then (SystemExit 1, stdin2, fs) else
  match input stdin2 with
  | None => (EOFError, [], fs)
  | Some (l3, stdin3) =>
  let purpose := str_strip l3 in
  match read_lines stdin3 [] with
  | None => (EOFError, [], fs)
  | Some (lines4, stdin4) =>
  let instructions := join_lines lines4 in
  match read_lines stdin4 [] with
  | None => (EOFError, [], fs)
  | Some (lines5, stdin5) =>
  let examples := join_lines lines5 in
  match input stdin5 with
  | None => (EOFError, [], fs)
  | Some (l6, stdin6) =>
  let dependencies := str_strip l6 in
  match input stdin6 with
  | None => (EOFError, [], fs)
  | Some (l7, stdin7) =>
  let install_path := install_path_of (proc_home pr) l7 in
  match create_skill unicode_lower (proc_env pr) skill_name description purpose
          instructions examples dependencies install_path fs with
  | (Return _, fs') => (Finished, stdin7, fs')
  | (Raise (ValueError _), fs') => (SystemExit 1, stdin7, fs')
  | (Raise x, fs') => (Uncaught x, stdin7, fs')
  end end end end end end end end.

(** [main]: [--help] as the first argument prints the usage and exits with
    status 0; anything else goes to [interactive_mode]. *)
Definition main (pr : process) (stdin : list str) (fs : filesystem)
  : outcome * list str * filesystem :=
  match proc_argv pr with
  | _ :: a1 :: _ =>
      if bool_decide (a1 = lit "--help") then (SystemExit 0, stdin, fs)
      else interactive_mode pr stdin fs
  | _ => interactive_mode pr stdin fs
  end.

End Interactive.

(** A process and a session for closed examples. *)
Definition process0 : process :=
  {| proc_env := env0; proc_home := Some (lit "/home/user/");
     proc_argv := [lit "create_skill.py"] |}.

Definition session0 : list str :=
  [lit "  My Cool Skill!! "; lit "Does things"; lit "P";
   lit "step 1"; lit "step 2"; lit "DONE";
   lit "example"; lit "DONE";
   lit "numpy"; lit " Y "; lit "left over"].

(** * Properties *)

(** ** Lists of code points *)

Lemma is_hyphen_true c : is_hyphen c = true -> c = hyphen.
Proof. unfold is_hyphen. intros H. apply N.eqb_eq in H. exact H. Qed.

Lemma is_hyphen_hyphen : is_hyphen hyphen = true.
Proof. reflexivity. Qed.

Lemma in_class_hyphen : in_class hyphen = true.
Proof. reflexivity. Qed.

(** A code point of the class is ASCII, is no capital letter and no space. *)
Lemma in_class_plain c :
  in_class c = true ->
  (c <? 128) = true /\ ascii_lower c = c /\ (c =? space) = false.
Proof.
  unfold in_class, ascii_lower, space, hyphen. intros H.
  assert (Hc : 97 <= c <= 122 \/ 48 <= c <= 57 \/ c = 45).
  { repeat (apply orb_true_iff in H; destruct H as [H|H]).
    - apply andb_true_iff in H. destruct H as [H1 H2].
      apply N.leb_le in H1. apply N.leb_le in H2. lia.
    - apply andb_true_iff in H. destruct H as [H1 H2].
      apply N.leb_le in H1. apply N.leb_le in H2. lia.
    - apply N.eqb_eq in H. lia. }
  split; [apply N.ltb_lt; lia|].
  split; [|apply N.eqb_neq; lia].
  destruct (65 <=? c) eqn:A; [|reflexivity].
  destruct (c <=? 90) eqn:B; [|reflexivity].
  apply N.leb_le in A. apply N.leb_le in B. lia.
Qed.

Lemma forallb_cons_true {A} (f : A -> bool) a l :
  forallb f (a :: l) = true -> f a = true /\ forallb f l = true.
Proof. simpl. intros H. apply andb_true_iff in H. exact H. Qed.

Lemma forallb_rev {A} (f : A -> bool) l :
  forallb f l = true -> forallb f (rev l) = true.
Proof.
  intros H. apply forallb_forall. intros x Hx.
  apply in_rev in Hx. revert x Hx. apply forallb_forall. exact H.
Qed.

(** ** The steps of the normalization on a string of the class *)

Lemma lower_from_class ul s :
  forallb in_class s = true -> forall before, lower_from ul before s = s.
Proof.
  induction s as [|c r IH]; intros H before; [reflexivity|].
  apply forallb_cons_true in H. destruct H as [Hc Hr].
  destruct (in_class_plain c Hc) as (Hlt & Hlow & _).
  simpl. unfold lower_at. rewrite Hlt, Hlow. simpl. f_equal. apply IH. exact Hr.
Qed.

Lemma replace_space_class s :
  forallb in_class s = true -> replace_space s = s.
Proof.
  induction s as [|c r IH]; intros H; [reflexivity|].
  apply forallb_cons_true in H. destruct H as [Hc Hr].
  destruct (in_class_plain c Hc) as (_ & _ & Hsp).
  unfold replace_space in *. simpl. rewrite Hsp. f_equal. apply IH. exact Hr.
Qed.

Lemma re_sub_outside_class_class s :
  forallb in_class s = true -> re_sub_outside_class s = s.
Proof.
  induction s as [|c r IH]; intros H; [reflexivity|].
  apply forallb_cons_true in H. destruct H as [Hc Hr].
  unfold re_sub_outside_class in *. simpl. rewrite Hc. f_equal. apply IH. exact Hr.
Qed.

Lemma re_sub_outside_class_forallb s :
  forallb in_class (re_sub_outside_class s) = true.
Proof.
  apply forallb_forall. intros x Hx. apply filter_In in Hx. tauto.
Qed.

(** ** Runs of hyphens *)

Lemma starts_with_cons a p b s :
  starts_with (a :: p) (b :: s) = (a =? b) && starts_with p s.
Proof. reflexivity. Qed.

Lemma contains_cons p c r :
  contains p (c :: r) = starts_with p (c :: r) || contains p r.
Proof. destruct p; reflexivity. Qed.

Lemma hyphen_eqb c : (hyphen =? c) = is_hyphen c.
Proof. unfold is_hyphen. apply N.eqb_sym. Qed.

Lemma sub_hyphen_runs_forallb s :
  forallb in_class s = true ->
  forall b, forallb in_class (sub_hyphen_runs b s) = true.
Proof.
  induction s as [|c r IH]; intros H b; [reflexivity|].
  apply forallb_cons_true in H. destruct H as [Hc Hr].
  simpl. destruct (is_hyphen c); [destruct b|]; simpl; rewrite ?Hc, ?IH; auto.
Qed.

(** Inside a match the output does not start with a hyphen, and no output
    has two hyphens in a row. *)
Lemma sub_hyphen_runs_head s :
  starts_with [hyphen] (sub_hyphen_runs true s) = false.
Proof.
  induction s as [|c r IH]; [reflexivity|].
  cbn [sub_hyphen_runs]. destruct (is_hyphen c) eqn:E; [exact IH|].
  rewrite starts_with_cons, hyphen_eqb, E. reflexivity.
Qed.

Lemma sub_hyphen_runs_no_pair s :
  forall b, contains [hyphen; hyphen] (sub_hyphen_runs b s) = false.
Proof.
  induction s as [|c r IH]; intros b; [reflexivity|].
  cbn [sub_hyphen_runs]. destruct (is_hyphen c) eqn:E.
  - destruct b; [apply IH|].
    rewrite contains_cons, IH, orb_false_r, starts_with_cons.
    rewrite sub_hyphen_runs_head. apply andb_false_r.
  - rewrite contains_cons, IH, orb_false_r, starts_with_cons, hyphen_eqb, E.
    reflexivity.
Qed.

(** A string without two hyphens in a row is left as it is. *)
Lemma sub_hyphen_runs_fixed s :
  contains [hyphen; hyphen] s = false ->
  sub_hyphen_runs false s = s /\
  (starts_with [hyphen] s = false -> sub_hyphen_runs true s = s).
Proof.
  induction s as [|c r IH]; intros H; [split; reflexivity|].
  rewrite contains_cons in H.
  apply orb_false_iff in H. destruct H as [Hs Hr].
  rewrite starts_with_cons, hyphen_eqb in Hs.
  destruct (IH Hr) as [IH1 IH2]. cbn [sub_hyphen_runs].
  destruct (is_hyphen c) eqn:E.
  - pose proof (is_hyphen_true c E) as ->.
    cbn [andb] in Hs.
    split.
    + f_equal. apply IH2. exact Hs.
    + intros Hh. rewrite starts_with_cons, hyphen_eqb, is_hyphen_hyphen in Hh.
      discriminate.
  - split; intros; f_equal; exact IH1.
Qed.

(** ** Substrings *)

Lemma starts_with_app p a b :
  starts_with p a = true -> starts_with p (a ++ b) = true.
Proof.
  revert a. induction p as [|x p IH]; intros a H; [reflexivity|].
  destruct a as [|y a]; [discriminate|].
  rewrite starts_with_cons in H. apply andb_true_iff in H. destruct H as [H1 H2].
  rewrite <- app_comm_cons, starts_with_cons, H1. simpl. apply IH. exact H2.
Qed.

Lemma contains_app_l p a b :
  contains p a = true -> contains p (a ++ b) = true.
Proof.
  induction a as [|y a IH]; intros H.
  - simpl in H. rewrite orb_false_r in H.
    destruct p; [destruct b; reflexivity | discriminate].
  - rewrite contains_cons in H. rewrite <- app_comm_cons, contains_cons.
    apply orb_true_iff in H. apply orb_true_iff. destruct H as [H|H].
    + left. rewrite app_comm_cons. apply starts_with_app. exact H.
    + right. apply IH. exact H.
Qed.

Lemma contains_app_r p a b :
  contains p b = true -> contains p (a ++ b) = true.
Proof.
  induction a as [|y a IH]; intros H; [exact H|].
  rewrite <- app_comm_cons, contains_cons. rewrite (IH H). apply orb_true_r.
Qed.

Lemma contains_infix p a s b :
  contains p (a ++ s ++ b) = false -> contains p s = false.
Proof.
  intros H. destruct (contains p s) eqn:E; [|reflexivity].
  rewrite (contains_app_r p a (s ++ b) (contains_app_l p s b E)) in H.
  discriminate.
Qed.

Lemma starts_with_one_app c a b :
  starts_with [c] (a ++ b) = false -> starts_with [c] a = false.
Proof.
  destruct a as [|y a]; [reflexivity|].
  rewrite <- app_comm_cons, !starts_with_cons. simpl. intros H. exact H.
Qed.

(** ** Stripping hyphens at both ends *)

Lemma lstrip_hyphen_suffix s :
  exists t, s = t ++ lstrip_hyphen s.
Proof.
  induction s as [|c r [t IH]]; [exists []; reflexivity|].
  cbn [lstrip_hyphen]. destruct (is_hyphen c).
  - exists (c :: t). simpl. f_equal. exact IH.
  - exists []. reflexivity.
Qed.

Lemma lstrip_hyphen_head s :
  starts_with [hyphen] (lstrip_hyphen s) = false.
Proof.
  induction s as [|c r IH]; [reflexivity|].
  cbn [lstrip_hyphen]. destruct (is_hyphen c) eqn:E; [exact IH|].
  rewrite starts_with_cons, hyphen_eqb, E. reflexivity.
Qed.

Lemma lstrip_hyphen_fixed s :
  starts_with [hyphen] s = false -> lstrip_hyphen s = s.
Proof.
  destruct s as [|c r]; [reflexivity|].
  rewrite starts_with_cons, hyphen_eqb, andb_true_r. intros E.
  cbn [lstrip_hyphen]. rewrite E. reflexivity.
Qed.

Lemma rstrip_hyphen_prefix s :
  exists t, s = rstrip_hyphen s ++ t.
Proof.
  unfold rstrip_hyphen. destruct (lstrip_hyphen_suffix (rev s)) as [t Ht].
  exists (rev t). rewrite <- rev_app_distr, <- Ht. symmetry. apply rev_involutive.
Qed.

Lemma rstrip_hyphen_last s :
  starts_with [hyphen] (rev (rstrip_hyphen s)) = false.
Proof.
  unfold rstrip_hyphen. rewrite rev_involutive. apply lstrip_hyphen_head.
Qed.

Lemma rstrip_hyphen_fixed s :
  starts_with [hyphen] (rev s) = false -> rstrip_hyphen s = s.
Proof.
  intros H. unfold rstrip_hyphen. rewrite (lstrip_hyphen_fixed _ H).
  apply rev_involutive.
Qed.

Lemma strip_hyphen_infix s :
  exists a b, s = a ++ strip_hyphen s ++ b.
Proof.
  unfold strip_hyphen.
  destruct (lstrip_hyphen_suffix s) as [a Ha].
  destruct (rstrip_hyphen_prefix (lstrip_hyphen s)) as [b Hb].
  exists a, b. rewrite <- Hb. exact Ha.
Qed.

Lemma strip_hyphen_head s :
  starts_with [hyphen] (strip_hyphen s) = false.
Proof.
  unfold strip_hyphen.
  destruct (rstrip_hyphen_prefix (lstrip_hyphen s)) as [b Hb].
  apply (starts_with_one_app hyphen _ b). rewrite <- Hb. apply lstrip_hyphen_head.
Qed.

Lemma strip_hyphen_last s :
  starts_with [hyphen] (rev (strip_hyphen s)) = false.
Proof. apply rstrip_hyphen_last. Qed.

Lemma strip_hyphen_fixed s :
  starts_with [hyphen] s = false ->
  starts_with [hyphen] (rev s) = false ->
  strip_hyphen s = s.
Proof.
  intros H1 H2. unfold strip_hyphen.
  rewrite (lstrip_hyphen_fixed s H1). apply rstrip_hyphen_fixed. exact H2.
Qed.

Lemma strip_hyphen_forallb f s :
  forallb f s = true -> forallb f (strip_hyphen s) = true.
Proof.
  intros H. destruct (strip_hyphen_infix s) as (a & b & E).
  rewrite E in H. rewrite !forallb_app in H.
  apply andb_true_iff in H. destruct H as [_ H].
  apply andb_true_iff in H. tauto.
Qed.

Lemma strip_hyphen_contains p s :
  contains p s = false -> contains p (strip_hyphen s) = false.
Proof.
  intros H. destruct (strip_hyphen_infix s) as (a & b & E).
  rewrite E in H. apply (contains_infix p a _ b). exact H.
Qed.

(** ** The sanitizer *)

(** The shape of every normalized name, whatever the checks say next. *)
Lemma normalize_structure ul name :
  forallb in_class (normalize ul name) = true /\
  contains (lit "--") (normalize ul name) = false /\
  starts_with (lit "-") (normalize ul name) = false /\
  ends_with (lit "-") (normalize ul name) = false.
Proof.
  unfold normalize, re_sub_hyphen_runs, ends_with. cbv zeta.
  split; [|split; [|split]].
  - apply strip_hyphen_forallb, sub_hyphen_runs_forallb, re_sub_outside_class_forallb.
  - apply strip_hyphen_contains. apply (sub_hyphen_runs_no_pair _ false).
  - apply strip_hyphen_head.
  - apply strip_hyphen_last.
Qed.

(** A name that has the shape is left as it is by the normalization. *)
Lemma normalize_fixed ul s :
  forallb in_class s = true ->
  contains (lit "--") s = false ->
  starts_with (lit "-") s = false ->
  ends_with (lit "-") s = false ->
  normalize ul s = s.
Proof.
  intros Hc Hp Hh Hl. unfold normalize, str_lower, re_sub_hyphen_runs. cbv zeta.
  rewrite (lower_from_class ul s Hc), (replace_space_class s Hc),
    (re_sub_outside_class_class s Hc).
  rewrite (proj1 (sub_hyphen_runs_fixed s Hp)).
  apply strip_hyphen_fixed; assumption.
Qed.

Lemma sanitize_name_return ul name clean :
  sanitize_name ul name = Return clean ->
  clean = normalize ul name /\
  contains (lit "anthropic") clean = false /\
  contains (lit "claude") clean = false /\
  (length clean <= 64)%nat.
Proof.
  unfold sanitize_name. cbv zeta.
  destruct (contains (lit "anthropic") (normalize ul name)) eqn:Ha; [discriminate|].
  destruct (contains (lit "claude") (normalize ul name)) eqn:Hb; [discriminate|].
  cbn [orb].
  destruct (64 <? length (normalize ul name))%nat eqn:Hl; [discriminate|].
  intros [= <-]. apply Nat.ltb_ge in Hl. auto.
Qed.

Lemma sanitize_name_shape ul name clean :
  sanitize_name ul name = Return clean ->
  forallb in_class clean = true /\
  contains (lit "--") clean = false /\
  starts_with (lit "-") clean = false /\
  ends_with (lit "-") clean = false.
Proof.
  intros H. apply sanitize_name_return in H. destruct H as (-> & _).
  apply normalize_structure.
Qed.

(** C9: a name that [sanitize_name] returns holds only characters of
    [[a-z0-9-]], has no two hyphens in a row, neither starts nor ends with a
    hyphen, is at most 64 code points long and contains neither reserved
    word. *)
Theorem sanitize_name_structure ul name clean :
  sanitize_name ul name = Return clean ->
  forallb in_class clean = true /\
  contains (lit "--") clean = false /\
  starts_with (lit "-") clean = false /\
  ends_with (lit "-") clean = false /\
  (length clean <= 64)%nat /\
  contains (lit "anthropic") clean = false /\
  contains (lit "claude") clean = false.
Proof.
  intros H. destruct (sanitize_name_shape ul name clean H) as (H1 & H2 & H3 & H4).
  apply sanitize_name_return in H. destruct H as (_ & Ha & Hb & Hl).
  repeat split; assumption.
Qed.

Lemma sanitize_name_structure_witness :
  let clean := lit "my-cool-skill" in
  forallb in_class clean = true /\
  contains (lit "--") clean = false /\
  starts_with (lit "-") clean = false /\
  ends_with (lit "-") clean = false /\
  (length clean <= 64)%nat /\
  contains (lit "anthropic") clean = false /\
  contains (lit "claude") clean = false.
Proof.
  apply (sanitize_name_structure sample_lower (lit "My Cool Skill!!")).
  vm_compute. reflexivity.
Defined.

(** C2: sanitizing a sanitized name gives the same name: the second call
    fails only where the first one did, and otherwise returns what the first
    returned. *)
Theorem sanitize_name_idempotent ul name :
  sanitize_twice ul name = sanitize_name ul name.
Proof.
  unfold sanitize_twice. destruct (sanitize_name ul name) as [clean|e] eqn:E;
    [|reflexivity].
  destruct (sanitize_name_shape ul name clean E) as (Hc & Hp & Hh & Hl).
  destruct (sanitize_name_return ul name clean E) as (_ & Ha & Hb & Hlen).
  unfold sanitize_name. cbv zeta.
  rewrite (normalize_fixed ul clean Hc Hp Hh Hl), Ha, Hb. cbn [orb].
  apply Nat.ltb_ge in Hlen. rewrite Hlen. reflexivity.
Qed.

(** C8: [sanitize_name] raises its [ValueError] whenever the normalized name
    contains a reserved word or is longer than 64; the check reads the
    normalized name, so capitals in the raw name do not escape it. *)
Theorem sanitize_name_rejects ul :
  (forall name,
      contains (lit "anthropic") (normalize ul name)
      || contains (lit "claude") (normalize ul name) = true ->
      sanitize_name ul name = Raise (ValueError msg_reserved)) /\
  (forall name,
      (64 < length (normalize ul name))%nat ->
      exists msg, sanitize_name ul name = Raise (ValueError msg)) /\
  sanitize_name ul (lit "Claude Helper") = Raise (ValueError msg_reserved) /\
  sanitize_name ul (lit "ANTHROPIC tools") = Raise (ValueError msg_reserved) /\
  sanitize_name ul (List.repeat 97 70) = Raise (ValueError msg_name_length).
Proof.
  split; [|split; [|split; [|split]]].
  - intros name H. unfold sanitize_name. cbv zeta. rewrite H. reflexivity.
  - intros name H. unfold sanitize_name. cbv zeta.
    destruct (_ || _); [eexists; reflexivity|].
    apply Nat.ltb_lt in H. rewrite H. eexists; reflexivity.
  - vm_compute. reflexivity.
  - vm_compute. reflexivity.
  - vm_compute. reflexivity.
Qed.

Lemma sanitize_name_rejects_witness :
  sanitize_name sample_lower (lit "The Claude Toolbox") = Raise (ValueError msg_reserved) /\
  exists msg, sanitize_name sample_lower (List.repeat 122 65) = Raise (ValueError msg).
Proof.
  split.
  - apply (proj1 (sanitize_name_rejects sample_lower)). vm_compute. reflexivity.
  - apply (proj1 (proj2 (sanitize_name_rejects sample_lower))). vm_compute. lia.
Defined.

(** C1: on a name that normalizes to the empty string the source has no
    check: [sanitize_name] returns the empty name. *)
Theorem sanitize_name_empty ul :
  sanitize_name ul (lit "---") = Return [] /\
  sanitize_name ul (lit "!!!") = Return [] /\
  sanitize_name ul (lit " - ") = Return [] /\
  (forall name, normalize ul name = [] -> sanitize_name ul name = Return []).
Proof.
  repeat split; try (vm_compute; reflexivity).
  intros name H. unfold sanitize_name. cbv zeta. rewrite H. reflexivity.
Qed.

(** ** The source against the steps of the specification *)

Lemma spec_strip_outside_eq s : spec_strip_outside s = re_sub_outside_class s.
Proof.
  unfold re_sub_outside_class.
  induction s as [|c r IH]; [reflexivity|]. simpl. rewrite IH. reflexivity.
Qed.

(** The scanner keeps the first hyphen of a run, the specification's reading
    keeps the last one; the strings are the same. *)
Lemma spec_collapse_scan s :
  sub_hyphen_runs false s = spec_collapse s /\
  sub_hyphen_runs true s =
    (if starts_with [hyphen] s then tl (spec_collapse s) else spec_collapse s) /\
  (starts_with [hyphen] s = true -> spec_collapse s = hyphen :: tl (spec_collapse s)).
Proof.
  induction s as [|c r (IH1 & IH2 & IH3)]; [repeat split; discriminate|].
  rewrite starts_with_cons, hyphen_eqb, andb_true_r.
  cbn [sub_hyphen_runs spec_collapse].
  destruct r as [|d r'].
  - destruct (is_hyphen c) eqn:E.
    + pose proof (is_hyphen_true c E) as ->. repeat split; reflexivity.
    + repeat split; try reflexivity. discriminate.
  - rewrite starts_with_cons, hyphen_eqb, andb_true_r in IH2, IH3.
    destruct (is_hyphen c) eqn:E.
    + pose proof (is_hyphen_true c E) as ->. cbn [andb].
      destruct (is_hyphen d) eqn:D.
      * rewrite IH2. repeat split; try reflexivity.
        -- symmetry. apply IH3. reflexivity.
        -- intros _. apply IH3. reflexivity.
      * rewrite IH2. repeat split; reflexivity.
    + cbn [andb]. rewrite IH1. repeat split; try reflexivity. discriminate.
Qed.

Lemma spec_collapse_eq s : spec_collapse s = re_sub_hyphen_runs s.
Proof. symmetry. apply spec_collapse_scan. Qed.

Lemma spec_trim_leading_eq s : spec_trim_leading s = lstrip_hyphen s.
Proof.
  induction s as [|c r IH]; [reflexivity|]. simpl. rewrite IH. reflexivity.
Qed.

Lemma lstrip_hyphen_snoc a c :
  lstrip_hyphen (a ++ [c]) =
    match lstrip_hyphen a with
    | [] => if is_hyphen c then [] else [c]
    | _ :: _ => lstrip_hyphen a ++ [c]
    end.
Proof.
  induction a as [|x a IH]; [reflexivity|].
  rewrite <- app_comm_cons. cbn [lstrip_hyphen].
  destruct (is_hyphen x); [exact IH | reflexivity].
Qed.

Lemma spec_trim_trailing_eq s : spec_trim_trailing s = rstrip_hyphen s.
Proof.
  unfold spec_trim_trailing, rstrip_hyphen.
  induction s as [|c r IH]; [reflexivity|].
  cbn [fold_right rev]. rewrite IH, lstrip_hyphen_snoc.
  destruct (lstrip_hyphen (rev r)) as [|x t].
  - destruct (is_hyphen c); reflexivity.
  - rewrite rev_app_distr.
    change (rev [c] ++ rev (x :: t)) with (c :: rev (x :: t)).
    destruct (rev (x :: t)) as [|y l] eqn:El; [|reflexivity].
    cbn [rev] in El. destruct (rev t); discriminate.
Qed.

(** C5: the source carries out steps 1 to 4 of the specification in their
    order: the name it normalizes, and so any name it returns, is the one
    the four steps give; on "My Cool Skill!!" that is "my-cool-skill". *)
Theorem sanitize_name_steps ul :
  (forall name, normalize ul name = spec_normalize ul name) /\
  (forall name,
      match sanitize_name ul name with
      | Return clean => clean = spec_normalize ul name
      | Raise _ => True
      end) /\
  sanitize_name ul (lit "My Cool Skill!!") = Return (lit "my-cool-skill").
Proof.
  assert (E : forall name, normalize ul name = spec_normalize ul name).
  { intros name. unfold normalize, spec_normalize, strip_hyphen.
    cbv zeta.
    etransitivity; [|symmetry; apply spec_trim_trailing_eq]. f_equal.
    etransitivity; [|symmetry; apply spec_trim_leading_eq]. f_equal.
    etransitivity; [|symmetry; apply spec_collapse_eq].
    rewrite (spec_strip_outside_eq (spec_step1 ul name)). reflexivity. }
  split; [exact E|]. split.
  - intros name. destruct (sanitize_name ul name) as [clean|e] eqn:H; [|exact I].
    apply sanitize_name_return in H. destruct H as [-> _]. apply E.
  - vm_compute. reflexivity.
Qed.

(** ** The file system: growing by directories *)

Lemma extends_refl (fs : gmap (list (list N)) node) : extends fs fs.
Proof. intros l. left. reflexivity. Qed.

Lemma extends_trans (a b c : gmap (list (list N)) node) :
  extends a b -> extends b c -> extends a c.
Proof.
  intros Hab Hbc l. destruct (Hab l) as [E1|[E1 E1']], (Hbc l) as [E2|[E2 E2']].
  - left. congruence.
  - right. split; congruence.
  - right. split; congruence.
  - congruence.
Qed.

Lemma node_at_lookup (fs : gmap (list (list N)) node) l :
  node_at fs l = None -> fs !! l = None /\ l <> [].
Proof. destruct l; [discriminate|]. simpl. intros H. split; [exact H|discriminate]. Qed.

Lemma extends_insert_dir (fs : gmap (list (list N)) node) l :
  node_at fs l = None -> extends fs (<[l := Dir]> fs).
Proof.
  intros H l'. apply node_at_lookup in H. destruct H as [H _].
  destruct (decide (l = l')) as [<-|Hne].
  - right. split; [exact H|]. apply lookup_insert_eq.
  - left. apply lookup_insert_ne. exact Hne.
Qed.

Lemma extends_node (fs fs' : gmap (list (list N)) node) l n :
  extends fs fs' -> node_at fs l = Some n -> node_at fs' l = Some n.
Proof.
  intros H. destruct l as [|c r]; [trivial|]. simpl.
  destruct (H (c :: r)) as [E|[E _]]; congruence.
Qed.

Lemma extends_file (fs fs' : gmap (list (list N)) node) l d :
  extends fs fs' -> node_at fs' l = Some (File d) -> node_at fs l = Some (File d).
Proof.
  intros H. destruct l as [|c r]; [trivial|]. simpl.
  destruct (H (c :: r)) as [E|[_ E]]; congruence.
Qed.

(** Resolution goes through directories only, so it survives whatever keeps
    the directories. *)
Lemma namei_mono (fs fs' : gmap (list (list N)) node) :
  (forall l, node_at fs l = Some Dir -> node_at fs' l = Some Dir) ->
  forall ps cur l, namei fs cur ps = Return l -> namei fs' cur ps = Return l.
Proof.
  intros H ps. induction ps as [|c rest IH]; intros cur l; [trivial|].
  cbn [namei]. destruct rest as [|d rest']; [trivial|].
  destruct (node_at fs (step cur c)) as [[|f]|] eqn:E; try discriminate.
  rewrite (H _ E). apply IH.
Qed.

Lemma dir_at_mono (fs fs' : gmap (list (list N)) node) cur ps l :
  (forall l, node_at fs l = Some Dir -> node_at fs' l = Some Dir) ->
  dir_at fs cur ps l -> dir_at fs' cur ps l.
Proof.
  intros H [H1 H2]. split; [eapply namei_mono; eassumption | apply H, H2].
Qed.

Lemma dir_at_extends (fs fs' : gmap (list (list N)) node) cur ps l :
  extends fs fs' -> dir_at fs cur ps l -> dir_at fs' cur ps l.
Proof. intros H. apply dir_at_mono. intros l'. apply extends_node, H. Qed.

(** One more part after a directory. *)
Lemma namei_snoc (fs : gmap (list (list N)) node) ps c :
  forall cur d, dir_at fs cur ps d -> namei fs cur (ps ++ [c]) = Return (step d c).
Proof.
  induction ps as [|x rest IH]; intros cur d [H1 H2].
  - simpl in H1. injection H1 as <-. reflexivity.
  - cbn [namei] in H1. rewrite <- app_comm_cons. cbn [namei].
    destruct rest as [|y rest'].
    + injection H1 as <-. simpl. rewrite H2. reflexivity.
    + rewrite <- app_comm_cons.
      destruct (node_at fs (step cur x)) as [[|f]|]; try discriminate.
      rewrite app_comm_cons. apply IH. split; assumption.
Qed.

(** Writing where no directory is keeps the directories. *)
Lemma insert_keeps_dirs (fs : gmap (list (list N)) node) l n :
  node_at fs l <> Some Dir ->
  forall l', node_at fs l' = Some Dir -> node_at (<[l := n]> fs) l' = Some Dir.
Proof.
  intros H l' H'. destruct l' as [|c r]; [reflexivity|]. simpl in *.
  rewrite lookup_insert_ne; [exact H'|]. intros ->. apply H. exact H'.
Qed.


(** ** Encoders and paths *)

Lemma encodes_app (k : codec) (a b : list N) :
  encodes k (a ++ b) = encodes k a && encodes k b.
Proof. apply forallb_app. Qed.

Lemma encodes_ascii (k : codec) (s : list N) :
  forallb is_ascii s = true -> encodes k s = true.
Proof.
  unfold encodes. induction s as [|c r IH]; [reflexivity|]. intros H.
  apply forallb_cons_true in H. destruct H as [Hc Hr].
  cbn [forallb]. rewrite Hc, (IH Hr). reflexivity.
Qed.

Lemma entry_name_inv (c : list N) :
  entry_name c = true ->
  forallb is_ascii c = true /\ has_nul c = false /\ c <> lit "..".
Proof.
  unfold entry_name. rewrite !andb_true_iff, !negb_true_iff.
  intros [[H1 H2] H3]. split; [exact H1|]. split; [exact H2|].
  intros ->. rewrite bool_decide_eq_true_2 in H3 by reflexivity. discriminate H3.
Qed.

Lemma path_error_none (e : env) (p : Path) :
  path_error e p = None <->
  forallb (encodes (path_codec e)) (parts p) = true /\
  existsb has_nul (parts p) = false.
Proof.
  unfold path_error. destruct (forallb _ _); cbn [negb].
  - destruct (existsb _ _); split; try discriminate; auto.
    intros [_ H]. discriminate H.
  - split; [discriminate|]. intros [H _]. discriminate H.
Qed.

Lemma path_error_value (e : env) (p : Path) x :
  path_error e p = Some x -> exists msg, x = ValueError msg.
Proof.
  unfold path_error. destruct (negb _); [intros [= <-]; eexists; reflexivity|].
  destruct (existsb _ _); [intros [= <-]; eexists; reflexivity|discriminate].
Qed.

Lemma path_error_snoc (e : env) (a : bool) (ps : list (list N)) (c : list N) :
  path_error e {| anchored := a; parts := ps ++ [c] |} = None <->
  path_error e {| anchored := a; parts := ps |} = None /\
  encodes (path_codec e) c = true /\ has_nul c = false.
Proof.
  rewrite !path_error_none. cbn [parts]. rewrite forallb_app, existsb_app.
  cbn [forallb existsb]. rewrite andb_true_r, orb_false_r.
  rewrite andb_true_iff, orb_false_iff. tauto.
Qed.

Lemma path_error_child (e : env) (p : Path) (c : list N) :
  entry_name c = true ->
  path_error e p = None ->
  path_error e {| anchored := anchored p; parts := parts p ++ [c] |} = None.
Proof.
  intros Hc H. apply entry_name_inv in Hc. destruct Hc as (Ha & Hn & _).
  apply path_error_snoc. split; [destruct p; exact H|].
  split; [apply encodes_ascii, Ha|exact Hn].
Qed.

(** ** Resolution *)

Lemma namei_raise (fs : gmap (list (list N)) node) ps :
  forall cur x, namei fs cur ps = Raise x ->
                x = FileNotFoundError \/ x = NotADirectoryError.
Proof.
  induction ps as [|c rest IH]; intros cur x; [discriminate|].
  cbn [namei]. destruct rest as [|d rest']; [discriminate|].
  destruct (node_at fs (step cur c)) as [[|f]|].
  - apply IH.
  - intros [= <-]. right. reflexivity.
  - intros [= <-]. left. reflexivity.
Qed.

Lemma resolve_return (e : env) (p : Path) (fs : gmap (list (list N)) node) l :
  resolve e p fs = Return l <->
  path_error e p = None /\ node_at fs (start e p) = Some Dir /\
  namei fs (start e p) (parts p) = Return l.
Proof.
  unfold resolve. destruct (path_error e p) as [x|].
  - split; [discriminate|]. intros [H _]. discriminate H.
  - destruct (node_at fs (start e p)) as [[|f]|].
    + split; [intros H; auto|]. intros (_ & _ & H). exact H.
    + split; [discriminate|]. intros (_ & H & _). discriminate H.
    + split; [discriminate|]. intros (_ & H & _). discriminate H.
Qed.

(** What the resolution raises: the [ValueError] of the path, or one of two
    errors of the file system. *)
Lemma resolve_raise (e : env) (p : Path) (fs : gmap (list (list N)) node) x :
  resolve e p fs = Raise x ->
  path_error e p = Some x
  \/ path_error e p = None /\ (x = FileNotFoundError \/ x = NotADirectoryError).
Proof.
  unfold resolve. destruct (path_error e p) as [y|].
  - intros [= <-]. left. reflexivity.
  - right. split; [reflexivity|].
    destruct (node_at fs (start e p)) as [[|f]|].
    + apply (namei_raise fs _ _ _ H).
    + injection H as <-. left. reflexivity.
    + injection H as <-. left. reflexivity.
Qed.

Lemma dir_of_iff (e : env) (p : Path) (fs : gmap (list (list N)) node) l :
  dir_of e p fs l <->
  path_error e p = None /\ node_at fs (start e p) = Some Dir /\
  dir_at fs (start e p) (parts p) l.
Proof. unfold dir_of, dir_at. rewrite resolve_return. tauto. Qed.

Lemma dir_of_mono (e : env) (p : Path) (fs fs' : gmap (list (list N)) node) l :
  (forall l, node_at fs l = Some Dir -> node_at fs' l = Some Dir) ->
  dir_of e p fs l -> dir_of e p fs' l.
Proof.
  intros H. rewrite !dir_of_iff. intros (H1 & H2 & H3).
  split; [exact H1|]. split; [apply H, H2|].
  apply (dir_at_mono fs fs' _ _ _ H H3).
Qed.

Lemma dir_of_extends (e : env) (p : Path) (fs fs' : gmap (list (list N)) node) l :
  extends fs fs' -> dir_of e p fs l -> dir_of e p fs' l.
Proof. intros H. apply dir_of_mono. intros l'. apply extends_node, H. Qed.

(** One more part after a directory. *)
Lemma resolve_snoc (e : env) (a : bool) (ps : list (list N)) (c : list N)
    (fs : gmap (list (list N)) node) (d : list (list N)) :
  dir_of e {| anchored := a; parts := ps |} fs d ->
  path_error e {| anchored := a; parts := ps ++ [c] |} = None ->
  resolve e {| anchored := a; parts := ps ++ [c] |} fs = Return (step d c).
Proof.
  rewrite dir_of_iff. intros (_ & H2 & H3) Hp. apply resolve_return.
  split; [exact Hp|]. split; [exact H2|].
  apply (namei_snoc fs ps c _ d H3).
Qed.

Lemma step_name (cur : list (list N)) (c : list N) : c <> lit ".." -> step cur c = cur ++ [c].
Proof. intros H. unfold step. rewrite bool_decide_eq_false_2; [reflexivity|exact H]. Qed.

Lemma resolve_child (e : env) (p : Path) (c : list N)
    (fs : gmap (list (list N)) node) (T : list (list N)) :
  entry_name c = true ->
  dir_of e p fs T ->
  resolve e {| anchored := anchored p; parts := parts p ++ [c] |} fs
  = Return (T ++ [c]).
Proof.
  intros Hc Hd. pose proof (entry_name_inv c Hc) as (_ & _ & Hn).
  rewrite <- (step_name T c Hn). apply resolve_snoc.
  - destruct p. exact Hd.
  - apply (path_error_child e p c Hc). apply dir_of_iff in Hd. apply Hd.
Qed.

(** ** The file operations *)

Lemma os_mkdir_inv (e : env) (p : Path) (fs : gmap (list (list N)) node) r fs' :
  os_mkdir e p fs = (r, fs') ->
  (exists l, r = Return tt /\ resolve e p fs = Return l /\
             node_at fs l = None /\ fs' = <[l := Dir]> fs)
  \/ (exists x, r = Raise x /\ fs' = fs).
Proof.
  unfold os_mkdir. destruct (resolve e p fs) as [l|x] eqn:En.
  - destruct (node_at fs l) as [n|] eqn:El; intros [= <- <-].
    + right. eexists; split; reflexivity.
    + left. exists l. repeat split; assumption.
  - intros [= <- <-]. right. eexists; split; reflexivity.
Qed.

Lemma dir_of_made (e : env) (p : Path) (fs : gmap (list (list N)) node) l :
  resolve e p fs = Return l -> node_at fs l = None ->
  dir_of e p (<[l := Dir]> fs) l.
Proof.
  intros Hn Hl.
  assert (K : forall l', node_at fs l' = Some Dir ->
                         node_at (<[l := Dir]> fs) l' = Some Dir).
  { intros l'. apply extends_node. apply extends_insert_dir, Hl. }
  apply resolve_return in Hn. destruct Hn as (H1 & H2 & H3).
  apply dir_of_iff. split; [exact H1|]. split; [apply K, H2|]. split.
  - apply (namei_mono fs _ K _ _ _ H3).
  - destruct l as [|c r]; [reflexivity|]. simpl. apply lookup_insert_eq.
Qed.

Lemma is_dir_dir_of (e : env) (p : Path) (fs : gmap (list (list N)) node) :
  is_dir e p fs = true -> exists T, dir_of e p fs T.
Proof.
  unfold is_dir, dir_of.
  destruct (resolve e p fs) as [l|x]; [|discriminate].
  destruct (node_at fs l) as [[|f]|] eqn:E; try discriminate.
  intros _. exists l. split; [reflexivity|exact E].
Qed.

(** [p.mkdir(exist_ok=True)] adds at most one directory, and where it
    returns the path names a directory. *)
Lemma path_mkdir_spec (e : env) (p : Path) (fs : gmap (list (list N)) node) r fs' :
  path_mkdir e p fs = (r, fs') ->
  extends fs fs' /\ (r = Return tt -> exists T, dir_of e p fs' T).
Proof.
  unfold path_mkdir. destruct (os_mkdir e p fs) as [[u|x] fs1] eqn:E.
  - intros [= <- <-]. apply os_mkdir_inv in E.
    destruct E as [(l & _ & Hn & Hl & ->)|(x & Hx & _)]; [|discriminate].
    split; [apply extends_insert_dir, Hl|].
    intros _. exists l. apply dir_of_made; assumption.
  - destruct x; try (intros [= <- <-]; split; [apply extends_refl|discriminate]);
      destruct (is_dir e p fs) eqn:D; intros [= <- <-];
      (split; [apply extends_refl|]); try discriminate;
      intros _; apply is_dir_dir_of, D.
Qed.

(** [p.mkdir(parents=True, exist_ok=True)] adds directories only, whether it
    returns or raises, and where it returns the path names a directory. *)
Lemma mkdir_parents_spec (e : env) (a : bool) (rp : list (list N)) :
  forall (fs : gmap (list (list N)) node) r fs',
    mkdir_parents e a rp fs = (r, fs') ->
    extends fs fs' /\
    (r = Return tt -> exists T, dir_of e {| anchored := a; parts := rev rp |} fs' T).
Proof.
  induction rp as [|c rp' IH]; intros fs r fs'; cbn [mkdir_parents];
    set (p := {| anchored := a; parts := _ |});
    destruct (os_mkdir e p fs) as [[u|x] fs1] eqn:E.
  - intros [= <- <-]. apply os_mkdir_inv in E.
    destruct E as [(l & _ & Hn & Hl & ->)|(x & Hx & _)]; [|discriminate].
    split; [apply extends_insert_dir, Hl|].
    intros _. exists l. apply dir_of_made; assumption.
  - destruct x; try (intros [= <- <-]; split; [apply extends_refl|discriminate]);
      destruct (is_dir e p fs) eqn:D; intros [= <- <-];
      (split; [apply extends_refl|]); try discriminate;
      intros _; apply (is_dir_dir_of e p), D.
  - intros [= <- <-]. apply os_mkdir_inv in E.
    destruct E as [(l & _ & Hn & Hl & ->)|(x & Hx & _)]; [|discriminate].
    split; [apply extends_insert_dir, Hl|].
    intros _. exists l. apply dir_of_made; assumption.
  - destruct x.
    + intros [= <- <-]. split; [apply extends_refl|discriminate].
    + destruct (mkdir_parents e a rp' fs) as [[u|x] fs2] eqn:E2.
      * intros H. apply IH in E2. destruct E2 as [X1 _].
        apply path_mkdir_spec in H. destruct H as [X2 HT].
        split; [eapply extends_trans; eassumption|exact HT].
      * intros [= <- <-]. apply IH in E2. destruct E2 as [X1 _].
        split; [exact X1|discriminate].
    + destruct (is_dir e p fs) eqn:D; intros [= <- <-];
        (split; [apply extends_refl|]); try discriminate.
      intros _. apply (is_dir_dir_of e p), D.
    + destruct (is_dir e p fs) eqn:D; intros [= <- <-];
        (split; [apply extends_refl|]); try discriminate.
      intros _. apply (is_dir_dir_of e p), D.
    + destruct (is_dir e p fs) eqn:D; intros [= <- <-];
        (split; [apply extends_refl|]); try discriminate.
      intros _. apply (is_dir_dir_of e p), D.
Qed.

Lemma node_at_snoc (fs : gmap (list (list N)) node) (T : list (list N)) (c : list N) :
  node_at fs (T ++ [c]) = fs !! (T ++ [c]).
Proof. destruct T; reflexivity. Qed.

Lemma node_at_app (fs : gmap (list (list N)) node) (T l : list (list N)) :
  l <> [] -> node_at fs (T ++ l) = fs !! (T ++ l).
Proof. intros H. destruct T; [destruct l; [contradiction|]|]; reflexivity. Qed.


(** An entry [c] of a directory: [mkdir(exist_ok=True)] and [write_text]. *)
Lemma path_mkdir_child (e : env) (p : Path) (c : list N)
    (fs : gmap (list (list N)) node) (T : list (list N)) :
  entry_name c = true ->
  dir_of e p fs T ->
  path_mkdir e {| anchored := anchored p; parts := parts p ++ [c] |} fs =
    if is_file fs (T ++ [c]) then (Raise FileExistsError, fs)
    else (Return tt, ensure_dir fs (T ++ [c])).
Proof.
  intros Hc Hd. unfold path_mkdir, os_mkdir, is_dir, is_file, ensure_dir.
  rewrite (resolve_child e p c fs T Hc Hd).
  destruct (node_at fs (T ++ [c])) as [[|f]|]; reflexivity.
Qed.

Lemma write_text_child (e : env) (p : Path) (c data : list N)
    (fs : gmap (list (list N)) node) (T : list (list N)) :
  entry_name c = true ->
  dir_of e p fs T ->
  write_text e {| anchored := anchored p; parts := parts p ++ [c] |} data fs =
    if dir_here fs (T ++ [c]) then (Raise IsADirectoryError, fs)
    else if encodes (file_codec e) data
    then (Return tt, <[T ++ [c] := File data]> fs)
    else (Raise (ValueError (refusal (file_codec e) data)),
          <[T ++ [c] := File []]> fs).
Proof.
  intros Hc Hd. unfold write_text, dir_here.
  rewrite (resolve_child e p c fs T Hc Hd).
  destruct (node_at fs (T ++ [c])) as [[|f]|]; reflexivity.
Qed.

(** A directory that is there is made again without a change. *)
Lemma mkdir_parents_again (e : env) (a : bool) (rp : list (list N))
    (fs : gmap (list (list N)) node) (T : list (list N)) :
  dir_of e {| anchored := a; parts := rev rp |} fs T ->
  mkdir_parents e a rp fs = (Return tt, fs).
Proof.
  intros [Hn Hd].
  assert (Ho : os_mkdir e {| anchored := a; parts := rev rp |} fs
               = (Raise FileExistsError, fs)).
  { unfold os_mkdir. rewrite Hn, Hd. reflexivity. }
  assert (Hi : is_dir e {| anchored := a; parts := rev rp |} fs = true).
  { unfold is_dir. rewrite Hn, Hd. reflexivity. }
  destruct rp; cbn [mkdir_parents]; rewrite Ho, Hi; reflexivity.
Qed.

(** What is printed: the first text the encoder does not take raises. *)
Lemma print_lines_eq (e : env) (texts : list (list N))
    (fs : gmap (list (list N)) node) :
  print_lines e texts fs
  = match print_error (stdout_codec e) texts with
    | Some x => (Raise x, fs)
    | None => (Return tt, fs)
    end.
Proof.
  induction texts as [|t rest IH]; [reflexivity|].
  cbn [print_lines print_error]. unfold bind, print.
  destruct (encodes (stdout_codec e) t); [exact IH|reflexivity].
Qed.

Lemma print_error_none (k : codec) (texts : list (list N)) :
  print_error k texts = None <-> forallb (encodes k) texts = true.
Proof.
  induction texts as [|t rest IH]; [split; reflexivity|].
  cbn [print_error forallb]. destruct (encodes k t); cbn [andb].
  - exact IH.
  - split; discriminate.
Qed.

Lemma print_error_value (k : codec) (texts : list (list N)) x :
  print_error k texts = Some x -> exists msg, x = ValueError msg.
Proof.
  induction texts as [|t rest IH]; [discriminate|].
  cbn [print_error]. destruct (encodes k t); [exact IH|].
  intros [= <-]. eexists. reflexivity.
Qed.

(** ** The entries of the target directory *)

(** The names the source joins to the target directory. *)
Lemma path_join_resources (p : Path) :
  path_join p (lit "resources") = {| anchored := anchored p; parts := parts p ++ [lit "resources"] |}.
Proof. reflexivity. Qed.

Lemma path_join_scripts (p : Path) :
  path_join p (lit "scripts") = {| anchored := anchored p; parts := parts p ++ [lit "scripts"] |}.
Proof. reflexivity. Qed.

Lemma path_join_skill_md (p : Path) :
  path_join p (lit "SKILL.md") = {| anchored := anchored p; parts := parts p ++ [lit "SKILL.md"] |}.
Proof. reflexivity. Qed.

Lemma path_join_reference_md (p : Path) :
  path_join p (lit "REFERENCE.md") = {| anchored := anchored p; parts := parts p ++ [lit "REFERENCE.md"] |}.
Proof. reflexivity. Qed.

Lemma path_join_gitignore (p : Path) :
  path_join p (lit ".gitignore") = {| anchored := anchored p; parts := parts p ++ [lit ".gitignore"] |}.
Proof. reflexivity. Qed.

Lemma path_join_readme (p : Path) :
  path_join p (lit "README.md") = {| anchored := anchored p; parts := parts p ++ [lit "README.md"] |}.
Proof. reflexivity. Qed.

(** ** Locations of a skill *)

Ltac loc_neq :=
  let H := fresh in
  unfold loc_skill_md, loc_reference_md, loc_gitignore, loc_resources,
    loc_scripts, loc_resources_readme, loc_scripts_readme;
  intros H; apply app_inv_head in H; vm_compute in H; discriminate H.

Lemma is_file_ensure_dir (fs : gmap (list (list N)) node) (l l' : list (list N)) :
  is_file (ensure_dir fs l) l' = is_file fs l'.
Proof.
  unfold is_file, ensure_dir. destruct (node_at fs l) as [n|] eqn:E; [reflexivity|].
  apply node_at_lookup in E. destruct E as [E Hl].
  destruct l' as [|c r]; [reflexivity|]. simpl.
  destruct (decide (l = c :: r)) as [->|Hne].
  - rewrite lookup_insert_eq, E. reflexivity.
  - rewrite lookup_insert_ne by exact Hne. reflexivity.
Qed.

Lemma dir_here_ensure_dir (fs : gmap (list (list N)) node) (l l' : list (list N)) :
  l <> l' -> dir_here (ensure_dir fs l) l' = dir_here fs l'.
Proof.
  intros Hne. unfold dir_here, ensure_dir.
  destruct (node_at fs l) as [n|] eqn:E; [reflexivity|].
  destruct l' as [|c r]; [reflexivity|]. simpl.
  rewrite lookup_insert_ne by exact Hne. reflexivity.
Qed.

Lemma dir_here_ensure_dir_same (fs : gmap (list (list N)) node) (l : list (list N)) :
  is_file fs l = false -> dir_here (ensure_dir fs l) l = true.
Proof.
  unfold is_file, dir_here, ensure_dir.
  destruct (node_at fs l) as [[|f]|] eqn:E; try discriminate; intros _.
  - rewrite E. reflexivity.
  - destruct l as [|c r]; [reflexivity|]. simpl. rewrite lookup_insert_eq. reflexivity.
Qed.

Lemma dir_here_insert_file (fs : gmap (list (list N)) node) (l l' : list (list N)) d :
  dir_here fs l = false -> dir_here (<[l := File d]> fs) l' = dir_here fs l'.
Proof.
  unfold dir_here. intros H. destruct l' as [|c r]; [reflexivity|]. simpl.
  destruct (decide (l = c :: r)) as [->|Hne].
  - rewrite lookup_insert_eq. simpl in H. destruct (fs !! (c :: r)) as [[|f]|];
      [discriminate|reflexivity|reflexivity].
  - rewrite lookup_insert_ne by exact Hne. reflexivity.
Qed.

Lemma dir_here_node (fs : gmap (list (list N)) node) (l : list (list N)) :
  dir_here fs l = true <-> node_at fs l = Some Dir.
Proof.
  unfold dir_here. destruct (node_at fs l) as [[|f]|]; split; congruence.
Qed.

Lemma dir_of_ensure_dir (e : env) (p : Path) (fs : gmap (list (list N)) node)
    (T l : list (list N)) :
  dir_of e p fs T -> dir_of e p (ensure_dir fs l) T.
Proof.
  intros H. unfold ensure_dir. destruct (node_at fs l) eqn:E; [exact H|].
  eapply dir_of_extends; [|exact H]. apply extends_insert_dir, E.
Qed.

Lemma dir_of_insert_file (e : env) (p : Path) (fs : gmap (list (list N)) node)
    (T l : list (list N)) d :
  dir_here fs l = false -> dir_of e p fs T -> dir_of e p (<[l := File d]> fs) T.
Proof.
  intros H. apply dir_of_mono. apply insert_keeps_dirs.
  intros E. apply dir_here_node in E. congruence.
Qed.

Lemma dir_of_child (e : env) (p : Path) (fs : gmap (list (list N)) node)
    (T : list (list N)) (c : list N) :
  entry_name c = true -> dir_of e p fs T -> dir_here fs (T ++ [c]) = true ->
  dir_of e {| anchored := anchored p; parts := parts p ++ [c] |} fs (T ++ [c]).
Proof.
  intros Hc Hd H. split.
  - apply (resolve_child e p c fs T Hc Hd).
  - apply dir_here_node, H.
Qed.

Ltac name_ok := vm_compute; reflexivity.

(** ** The steps of the materializer, one by one *)

(** [write_tree] comes to [tree_outcome]: each step is decided by what the
    file system held before the first step, and by the encoders. *)
Lemma write_tree_eq (e : env) (p : Path) (c1 c2 c3 c4 c5 : list N)
    (report : list (list N)) (fs : gmap (list (list N)) node) (T : list (list N)) :
  dir_of e p fs T ->
  write_tree e p c1 c2 c3 c4 c5 report fs
  = tree_outcome e p T c1 c2 c3 c4 c5 report fs.
Proof.
  intros Hd.
  unfold write_tree, bind, tree_outcome, skill_dirs.
  rewrite path_join_resources, path_join_scripts, path_join_skill_md,
    path_join_reference_md, path_join_gitignore, !path_join_readme.
  cbn [anchored parts]. cbv zeta.
  (* resources/ *)
  rewrite (path_mkdir_child e p (lit "resources") fs T ltac:(name_ok) Hd).
  fold (loc_resources T).
  destruct (is_file fs (loc_resources T)) eqn:E1.
  { reflexivity. }
  set (S1 := ensure_dir fs (loc_resources T)).
  assert (Hd1 : dir_of e p S1 T) by apply dir_of_ensure_dir, Hd.
  (* scripts/ *)
  rewrite (path_mkdir_child e p (lit "scripts") S1 T ltac:(name_ok) Hd1).
  fold (loc_scripts T).
  assert (F2 : is_file S1 (loc_scripts T) = is_file fs (loc_scripts T))
    by apply is_file_ensure_dir.
  rewrite F2. destruct (is_file fs (loc_scripts T)) eqn:E2.
  { reflexivity. }
  set (S2 := ensure_dir S1 (loc_scripts T)).
  assert (Hd2 : dir_of e p S2 T) by apply dir_of_ensure_dir, Hd1.
  assert (D2 : forall l, l <> loc_resources T -> l <> loc_scripts T ->
                         dir_here S2 l = dir_here fs l).
  { intros l N1 N2. unfold S2, S1.
    rewrite !dir_here_ensure_dir by congruence. reflexivity. }
  assert (R2 : dir_here S2 (loc_resources T) = true).
  { unfold S2. rewrite dir_here_ensure_dir by loc_neq.
    apply dir_here_ensure_dir_same, E1. }
  assert (C2 : dir_here S2 (loc_scripts T) = true).
  { apply dir_here_ensure_dir_same. exact F2. }
  (* SKILL.md *)
  rewrite (write_text_child e p (lit "SKILL.md") c1 S2 T ltac:(name_ok) Hd2).
  fold (loc_skill_md T).
  rewrite (D2 (loc_skill_md T)) by loc_neq.
  destruct (dir_here fs (loc_skill_md T)) eqn:E3.
  { reflexivity. }
  destruct (encodes (file_codec e) c1); cbn [negb]; [|reflexivity].
  assert (E3' : dir_here S2 (loc_skill_md T) = false)
    by (rewrite D2 by loc_neq; exact E3).
  set (S3 := <[loc_skill_md T := File c1]> S2).
  assert (Hd3 : dir_of e p S3 T)
    by (apply dir_of_insert_file; assumption).
  assert (D3 : forall l, dir_here S3 l = dir_here S2 l)
    by (intros l; apply dir_here_insert_file, E3').
  (* REFERENCE.md *)
  rewrite (write_text_child e p (lit "REFERENCE.md") c2 S3 T ltac:(name_ok) Hd3).
  fold (loc_reference_md T).
  rewrite D3, (D2 (loc_reference_md T)) by loc_neq.
  destruct (dir_here fs (loc_reference_md T)) eqn:E4.
  { reflexivity. }
  destruct (encodes (file_codec e) c2); cbn [negb]; [|reflexivity].
  assert (E4' : dir_here S3 (loc_reference_md T) = false)
    by (rewrite D3, D2 by loc_neq; exact E4).
  set (S4 := <[loc_reference_md T := File c2]> S3).
  assert (Hd4 : dir_of e p S4 T)
    by (apply dir_of_insert_file; assumption).
  assert (D4 : forall l, dir_here S4 l = dir_here S2 l)
    by (intros l; unfold S4; rewrite dir_here_insert_file by exact E4'; apply D3).
  (* resources/README.md *)
  assert (Hr4 : dir_of e {| anchored := anchored p; parts := parts p ++ [lit "resources"] |}
                  S4 (T ++ [lit "resources"])).
  { apply dir_of_child; [name_ok|exact Hd4|]. fold (loc_resources T).
    rewrite D4. exact R2. }
  pose proof (write_text_child e
             {| anchored := anchored p; parts := parts p ++ [lit "resources"] |}
             (lit "README.md") c3 S4 _ ltac:(name_ok) Hr4) as W5.
  cbn [anchored parts] in W5. rewrite W5. clear W5.
  replace ((T ++ [lit "resources"]) ++ [lit "README.md"])
    with (loc_resources_readme T)
    by (unfold loc_resources_readme; rewrite <- app_assoc; reflexivity).
  rewrite D4, (D2 (loc_resources_readme T)) by loc_neq.
  destruct (dir_here fs (loc_resources_readme T)) eqn:E5.
  { reflexivity. }
  destruct (encodes (file_codec e) c3); cbn [negb]; [|reflexivity].
  assert (E5' : dir_here S4 (loc_resources_readme T) = false)
    by (rewrite D4, D2 by loc_neq; exact E5).
  set (S5 := <[loc_resources_readme T := File c3]> S4).
  assert (Hd5 : dir_of e p S5 T)
    by (apply dir_of_insert_file; assumption).
  assert (D5 : forall l, dir_here S5 l = dir_here S2 l)
    by (intros l; unfold S5; rewrite dir_here_insert_file by exact E5'; apply D4).
  (* scripts/README.md *)
  assert (Hs5 : dir_of e {| anchored := anchored p; parts := parts p ++ [lit "scripts"] |}
                  S5 (T ++ [lit "scripts"])).
  { apply dir_of_child; [name_ok|exact Hd5|]. fold (loc_scripts T).
    rewrite D5. exact C2. }
  pose proof (write_text_child e
             {| anchored := anchored p; parts := parts p ++ [lit "scripts"] |}
             (lit "README.md") c4 S5 _ ltac:(name_ok) Hs5) as W6.
  cbn [anchored parts] in W6. rewrite W6. clear W6.
  replace ((T ++ [lit "scripts"]) ++ [lit "README.md"])
    with (loc_scripts_readme T)
    by (unfold loc_scripts_readme; rewrite <- app_assoc; reflexivity).
  rewrite D5, (D2 (loc_scripts_readme T)) by loc_neq.
  destruct (dir_here fs (loc_scripts_readme T)) eqn:E6.
  { reflexivity. }
  destruct (encodes (file_codec e) c4); cbn [negb]; [|reflexivity].
  assert (E6' : dir_here S5 (loc_scripts_readme T) = false)
    by (rewrite D5, D2 by loc_neq; exact E6).
  set (S6 := <[loc_scripts_readme T := File c4]> S5).
  assert (Hd6 : dir_of e p S6 T)
    by (apply dir_of_insert_file; assumption).
  assert (D6 : forall l, dir_here S6 l = dir_here S2 l)
    by (intros l; unfold S6; rewrite dir_here_insert_file by exact E6'; apply D5).
  (* .gitignore *)
  rewrite (write_text_child e p (lit ".gitignore") c5 S6 T ltac:(name_ok) Hd6).
  fold (loc_gitignore T).
  rewrite D6, (D2 (loc_gitignore T)) by loc_neq.
  destruct (dir_here fs (loc_gitignore T)) eqn:E7.
  { reflexivity. }
  destruct (encodes (file_codec e) c5); cbn [negb]; [|reflexivity].
  (* the report *)
  rewrite print_lines_eq.
  destruct (print_error (stdout_codec e) report); reflexivity.
Qed.

Lemma can_write_inv (fs : gmap (list (list N)) node) (T : list (list N)) :
  can_write fs T = true ->
  is_file fs (loc_resources T) = false /\ is_file fs (loc_scripts T) = false /\
  dir_here fs (loc_skill_md T) = false /\ dir_here fs (loc_reference_md T) = false /\
  dir_here fs (loc_resources_readme T) = false /\
  dir_here fs (loc_scripts_readme T) = false /\
  dir_here fs (loc_gitignore T) = false.
Proof.
  unfold can_write, skill_file_locs. cbn [forallb]. intros H.
  rewrite !andb_true_iff, !negb_true_iff in H.
  destruct H as [[H1 H2] (H3 & H4 & H5 & H6 & H7 & _)].
  repeat split; assumption.
Qed.

(** The steps all go through exactly when nothing of the wrong kind is in
    their way and the encoders take the five texts and the report. *)
Lemma tree_outcome_return (e : env) (p : Path) (T : list (list N))
    (c1 c2 c3 c4 c5 : list N) (report : list (list N))
    (fs : gmap (list (list N)) node) :
  can_write fs T = true ->
  forallb (encodes (file_codec e)) [c1; c2; c3; c4; c5] = true ->
  print_error (stdout_codec e) report = None ->
  tree_outcome e p T c1 c2 c3 c4 c5 report fs
  = (Return p, skill_written T c1 c2 c3 c4 c5 (skill_dirs T fs)).
Proof.
  intros Hc He Hp. apply can_write_inv in Hc.
  destruct Hc as (H1 & H2 & H3 & H4 & H5 & H6 & H7).
  cbn [forallb] in He. rewrite !andb_true_iff in He.
  destruct He as (G1 & G2 & G3 & G4 & G5 & _).
  unfold tree_outcome. cbv zeta.
  rewrite H1, H2, H3, H4, H5, H6, H7, G1, G2, G3, G4, G5, Hp. reflexivity.
Qed.

Lemma tree_outcome_inv (e : env) (p p' : Path) (T : list (list N))
    (c1 c2 c3 c4 c5 : list N) (report : list (list N))
    (fs fs' : gmap (list (list N)) node) :
  tree_outcome e p T c1 c2 c3 c4 c5 report fs = (Return p', fs') ->
  p' = p /\ can_write fs T = true /\
  forallb (encodes (file_codec e)) [c1; c2; c3; c4; c5] = true /\
  print_error (stdout_codec e) report = None /\
  fs' = skill_written T c1 c2 c3 c4 c5 (skill_dirs T fs).
Proof.
  unfold tree_outcome, can_write, skill_file_locs. cbv zeta. cbn [forallb].
  destruct (is_file fs (loc_resources T)); [discriminate|].
  destruct (is_file fs (loc_scripts T)); [discriminate|].
  destruct (dir_here fs (loc_skill_md T)); [discriminate|].
  destruct (encodes (file_codec e) c1); [|discriminate].
  destruct (dir_here fs (loc_reference_md T)); [discriminate|].
  destruct (encodes (file_codec e) c2); [|discriminate].
  destruct (dir_here fs (loc_resources_readme T)); [discriminate|].
  destruct (encodes (file_codec e) c3); [|discriminate].
  destruct (dir_here fs (loc_scripts_readme T)); [discriminate|].
  destruct (encodes (file_codec e) c4); [|discriminate].
  destruct (dir_here fs (loc_gitignore T)); [discriminate|].
  destruct (encodes (file_codec e) c5); [|discriminate].
  destruct (print_error (stdout_codec e) report); [discriminate|].
  intros [= <- <-]. repeat split.
Qed.

(** What [tree_outcome] raises: an error of the file system, or the
    [ValueError] of an encoder. *)
Lemma tree_outcome_raise (e : env) (p : Path) (T : list (list N))
    (c1 c2 c3 c4 c5 : list N) (report : list (list N))
    (fs fs' : gmap (list (list N)) node) x :
  tree_outcome e p T c1 c2 c3 c4 c5 report fs = (Raise x, fs') ->
  is_os_error x = true /\ can_write fs T = false
  \/ (exists msg, x = ValueError msg) /\
     (forallb (encodes (file_codec e)) [c1; c2; c3; c4; c5] = false
      \/ print_error (stdout_codec e) report = Some x).
Proof.
  unfold tree_outcome, can_write, skill_file_locs. cbv zeta. cbn [forallb].
  destruct (is_file fs (loc_resources T)); [intros [= <- <-]; left; split; reflexivity|].
  destruct (is_file fs (loc_scripts T)); [intros [= <- <-]; left; split; reflexivity|].
  cbn [negb andb].
  destruct (dir_here fs (loc_skill_md T));
    [intros [= <- <-]; left; split; reflexivity|].
  destruct (encodes (file_codec e) c1); cbn [negb andb];
    [|intros [= <- <-]; right; split; [eexists; reflexivity|left; reflexivity]].
  destruct (dir_here fs (loc_reference_md T));
    [intros [= <- <-]; left; split; reflexivity|].
  destruct (encodes (file_codec e) c2); cbn [negb andb];
    [|intros [= <- <-]; right; split; [eexists; reflexivity|left; reflexivity]].
  destruct (dir_here fs (loc_resources_readme T));
    [intros [= <- <-]; left; split; reflexivity|].
  destruct (encodes (file_codec e) c3); cbn [negb andb];
    [|intros [= <- <-]; right; split; [eexists; reflexivity|left; reflexivity]].
  destruct (dir_here fs (loc_scripts_readme T));
    [intros [= <- <-]; left; split; reflexivity|].
  destruct (encodes (file_codec e) c4); cbn [negb andb];
    [|intros [= <- <-]; right; split; [eexists; reflexivity|left; reflexivity]].
  destruct (dir_here fs (loc_gitignore T));
    [intros [= <- <-]; left; split; reflexivity|].
  destruct (encodes (file_codec e) c5); cbn [negb andb];
    [|intros [= <- <-]; right; split; [eexists; reflexivity|left; reflexivity]].
  destruct (print_error (stdout_codec e) report) as [y|] eqn:P; [|discriminate].
  intros [= <- <-]. right. split; [|right; reflexivity].
  apply (print_error_value _ _ _ P).
Qed.

Lemma dir_here_differs (fs : gmap (list (list N)) node) (k l : list (list N)) :
  dir_here fs k = false -> node_at fs l = Some Dir -> k <> l.
Proof. intros H1 H2 ->. apply dir_here_node in H2. congruence. Qed.

Lemma lookup_ensure_dir_some (fs : gmap (list (list N)) node) (k l : list (list N)) n :
  fs !! l = Some n -> ensure_dir fs k !! l = Some n.
Proof.
  intros H. unfold ensure_dir. destruct (node_at fs k) eqn:E; [exact H|].
  apply node_at_lookup in E. destruct E as [E _].
  rewrite lookup_insert_ne; [exact H|]. intros ->. congruence.
Qed.

(** The directories stay when a skill is written. *)
Lemma skill_written_dir_of (e : env) (p : Path) (T : list (list N))
    (c1 c2 c3 c4 c5 : list N) (fs : gmap (list (list N)) node) :
  can_write fs T = true ->
  dir_of e p fs T ->
  dir_of e p (skill_written T c1 c2 c3 c4 c5 (skill_dirs T fs)) T.
Proof.
  intros Hc. apply can_write_inv in Hc.
  destruct Hc as (_ & _ & H3 & H4 & H5 & H6 & H7).
  apply dir_of_mono. intros l Hl.
  pose proof (dir_here_differs fs _ l H3 Hl).
  pose proof (dir_here_differs fs _ l H4 Hl).
  pose proof (dir_here_differs fs _ l H5 Hl).
  pose proof (dir_here_differs fs _ l H6 Hl).
  pose proof (dir_here_differs fs _ l H7 Hl).
  destruct l as [|c r]; [reflexivity|]. simpl in *.
  unfold skill_written, skill_dirs.
  rewrite !lookup_insert_ne by assumption.
  do 2 apply lookup_ensure_dir_some. exact Hl.
Qed.

(** ** The materializer: validation *)

Lemma pair_of_fst {A B : Type} (r : A * B) (a : A) : fst r = a -> r = (a, snd r).
Proof. intros <-. destruct r; reflexivity. Qed.

Lemma create_skill_eq (ul : lower_table) (e : env) (skill_name description purpose instructions
    examples dependencies : list N) (install_path : option (list N))
    (fs : gmap (list (list N)) node) :
  create_skill ul e skill_name description purpose instructions examples
    dependencies install_path fs =
  match sanitize_name ul skill_name with
  | Raise x => (Raise x, fs)
  | Return safe_name =>
      if (1024 <? length description)%nat
      then (Raise (ValueError msg_description_length), fs)
      else if is_empty (str_strip description)
      then (Raise (ValueError msg_description_empty), fs)
      else
        bind (path_mkdir_parents e (target_dir install_path safe_name))
          (fun _ =>
             write_tree e (target_dir install_path safe_name)
               (skill_content safe_name skill_name description purpose
                  instructions examples dependencies (now_skill e))
               (reference_content skill_name (now_reference e))
               (resources_readme skill_name) (scripts_readme skill_name)
               gitignore_content
               (report_lines (absolute_str e (target_dir install_path safe_name))
                  safe_name)) fs
  end.
Proof. reflexivity. Qed.

Lemma sanitize_name_raise ul name x :
  sanitize_name ul name = Raise x -> exists msg, x = ValueError msg.
Proof.
  unfold sanitize_name. cbv zeta.
  destruct (_ || _); [intros [= <-]; eexists; reflexivity|].
  destruct (_ <? _)%nat; [intros [= <-]; eexists; reflexivity|discriminate].
Qed.

Lemma lstrip_space_all s : forallb is_space s = true -> lstrip_space s = [].
Proof.
  induction s as [|c r IH]; [reflexivity|]. intros H.
  apply forallb_cons_true in H. destruct H as [Hc Hr].
  cbn [lstrip_space]. rewrite Hc. apply IH, Hr.
Qed.

Lemma str_strip_all s : forallb is_space s = true -> str_strip s = [].
Proof. intros H. unfold str_strip. rewrite (lstrip_space_all s H). reflexivity. Qed.

(** C4: a description that is empty (also once the white space around it is
    stripped) or longer than 1024 makes [create_skill] raise [ValueError] and
    leave the file system as it was: no directory is made and no file is
    written.  When the name passes [sanitize_name], the error is the one of
    the description. *)
Theorem create_skill_rejects_description (ul : lower_table) (e : env) (skill_name description
    purpose instructions examples dependencies : list N)
    (install_path : option (list N)) (fs : gmap (list (list N)) node) :
  is_empty (str_strip description) = true \/ (1024 < length description)%nat ->
  (exists msg,
      create_skill ul e skill_name description purpose instructions examples
        dependencies install_path fs = (Raise (ValueError msg), fs)) /\
  (forall safe_name,
      sanitize_name ul skill_name = Return safe_name ->
      create_skill ul e skill_name description purpose instructions examples
        dependencies install_path fs
      = (Raise (ValueError (if (1024 <? length description)%nat
                            then msg_description_length
                            else msg_description_empty)), fs)).
Proof.
  intros H. rewrite create_skill_eq.
  assert (Hd : forall safe_name : list N,
             (if (1024 <? length description)%nat
              then (Raise (ValueError msg_description_length), fs)
              else if is_empty (str_strip description)
                   then (Raise (ValueError msg_description_empty), fs)
                   else
                     bind (path_mkdir_parents e (target_dir install_path safe_name))
                       (fun _ =>
                          write_tree e (target_dir install_path safe_name)
                            (skill_content safe_name skill_name description purpose
                               instructions examples dependencies (now_skill e))
                            (reference_content skill_name (now_reference e))
                            (resources_readme skill_name) (scripts_readme skill_name)
                            gitignore_content
                            (report_lines
                               (absolute_str e (target_dir install_path safe_name))
                               safe_name)) fs)
             = (Raise (ValueError (if (1024 <? length description)%nat
                                   then msg_description_length
                                   else msg_description_empty)) : result Path, fs)).
  { intros safe_name. destruct (1024 <? length description)%nat eqn:L; [reflexivity|].
    destruct H as [H|H]; [rewrite H; reflexivity|].
    apply Nat.ltb_lt in H. congruence. }
  split.
  - destruct (sanitize_name ul skill_name) as [safe_name|x] eqn:S.
    + rewrite Hd. eexists. reflexivity.
    + destruct (sanitize_name_raise ul skill_name x S) as [msg ->].
      eexists. reflexivity.
  - intros safe_name ->. apply Hd.
Qed.

Lemma create_skill_rejects_description_witness :
  (exists msg,
      create_skill sample_lower env0 (lit "My Cool Skill!!") (List.repeat 120 1025)
        (lit "P") (lit "I") (lit "E") [] None fs0 = (Raise (ValueError msg), fs0)) /\
  create_skill sample_lower env0 (lit "My Cool Skill!!") [] (lit "P") (lit "I")
    (lit "E") [] None fs0 = (Raise (ValueError msg_description_empty), fs0).
Proof.
  split.
  - apply (create_skill_rejects_description sample_lower env0 (lit "My Cool Skill!!")
             (List.repeat 120 1025) (lit "P") (lit "I") (lit "E") [] None fs0).
    right. vm_compute. lia.
  - apply (proj2 (create_skill_rejects_description sample_lower env0
                    (lit "My Cool Skill!!") [] (lit "P") (lit "I") (lit "E") []
                    None fs0 (or_introl eq_refl)) (lit "my-cool-skill")).
    vm_compute. reflexivity.
Defined.

Lemma create_skill_whitespace_1025 :
  fst (create_skill sample_lower env0 (lit "My Cool Skill!!")
         (List.repeat space 1025) (lit "P") (lit "I") (lit "E") [] None fs0)
  = Raise (ValueError msg_description_length).
Proof. vm_compute. reflexivity. Qed.

(** C10, as stated, fails: 1025 spaces are a description of white space
    only, and the error is the one of the length, not the one of the empty
    description. *)
Lemma create_skill_whitespace_counterexample :
  forallb is_space (List.repeat space 1025) = true /\
  List.repeat space 1025 <> [] /\
  fst (create_skill sample_lower env0 (lit "My Cool Skill!!")
         (List.repeat space 1025) (lit "P") (lit "I") (lit "E") [] None fs0)
  <> Raise (ValueError msg_description_empty).
Proof.
  split; [vm_compute; reflexivity|]. split; [discriminate|].
  rewrite create_skill_whitespace_1025.
  intros H. vm_compute in H. discriminate H.
Qed.

(** C10, amended: a description of at most 1024 code points that is not
    empty and holds white space only is rejected with the error of the empty
    description, the file system untouched, when the name passes
    [sanitize_name]: the test is on the stripped description. *)
Theorem create_skill_whitespace_description (ul : lower_table) (e : env)
    (skill_name description purpose instructions examples dependencies : list N)
    (install_path : option (list N)) (fs : gmap (list (list N)) node)
    (safe_name : list N) :
  sanitize_name ul skill_name = Return safe_name ->
  description <> [] ->
  forallb is_space description = true ->
  (length description <= 1024)%nat ->
  create_skill ul e skill_name description purpose instructions examples
    dependencies install_path fs
  = (Raise (ValueError msg_description_empty), fs).
Proof.
  intros Hs _ Hw Hl. rewrite create_skill_eq, Hs.
  apply Nat.ltb_ge in Hl. rewrite Hl, (str_strip_all description Hw). reflexivity.
Qed.

Lemma create_skill_whitespace_description_witness :
  create_skill sample_lower env0 (lit "My Cool Skill!!") [space; 9; 10; 160; 8195]
    (lit "P") (lit "I") (lit "E") [] None fs0
  = (Raise (ValueError msg_description_empty), fs0).
Proof.
  apply (create_skill_whitespace_description sample_lower env0
           (lit "My Cool Skill!!") [space; 9; 10; 160; 8195] (lit "P") (lit "I")
           (lit "E") [] None fs0 (lit "my-cool-skill")).
  - vm_compute. reflexivity.
  - discriminate.
  - vm_compute. reflexivity.
  - vm_compute. lia.
Defined.

(** ** The materializer: the path it returns *)

Lemma in_class_not_slash safe_name :
  forallb in_class safe_name = true -> starts_with [slash] safe_name = false.
Proof.
  destruct safe_name as [|c r]; [reflexivity|]. intros H.
  apply forallb_cons_true in H. destruct H as [Hc _].
  rewrite starts_with_cons, andb_true_r. apply N.eqb_neq. intros <-.
  vm_compute in Hc. discriminate Hc.
Qed.

Lemma target_dir_absolute (install_path : option (list N)) (safe_name : list N) :
  forallb in_class safe_name = true ->
  is_absolute (target_dir install_path safe_name)
  = match install_path with
    | Some ip => starts_with [slash] ip
    | None => false
    end.
Proof.
  intros H. unfold target_dir, is_absolute.
  destruct install_path as [[|c ip]|]; try reflexivity.
  cbn [is_empty]. unfold path_join.
  change (anchored (path_of_str safe_name)) with (starts_with [slash] safe_name).
  rewrite (in_class_not_slash safe_name H). reflexivity.
Qed.

Lemma create_skill_return (ul : lower_table) (e : env)
    (skill_name description purpose instructions examples dependencies : list N)
    (install_path : option (list N)) (fs fs' : gmap (list (list N)) node)
    (p : Path) :
  create_skill ul e skill_name description purpose instructions examples
    dependencies install_path fs = (Return p, fs') ->
  exists safe_name fs1 T,
    sanitize_name ul skill_name = Return safe_name /\
    (length description <= 1024)%nat /\
    is_empty (str_strip description) = false /\
    p = target_dir install_path safe_name /\
    path_mkdir_parents e p fs = (Return tt, fs1) /\
    dir_of e p fs1 T /\
    can_write fs1 T = true /\
    forallb (encodes (file_codec e))
      [skill_content safe_name skill_name description purpose instructions
         examples dependencies (now_skill e);
       reference_content skill_name (now_reference e);
       resources_readme skill_name; scripts_readme skill_name;
       gitignore_content] = true /\
    print_error (stdout_codec e) (report_lines (absolute_str e p) safe_name) = None /\
    fs' = skill_written T
            (skill_content safe_name skill_name description purpose
               instructions examples dependencies (now_skill e))
            (reference_content skill_name (now_reference e))
            (resources_readme skill_name) (scripts_readme skill_name)
            gitignore_content (skill_dirs T fs1) /\
    dir_of e p fs' T.
Proof.
  rewrite create_skill_eq.
  destruct (sanitize_name ul skill_name) as [safe_name|x] eqn:S; [|discriminate].
  destruct (1024 <? length description)%nat eqn:L; [discriminate|].
  destruct (is_empty (str_strip description)) eqn:D; [discriminate|].
  unfold bind at 1.
  destruct (path_mkdir_parents e (target_dir install_path safe_name) fs)
    as [[[]|x] fs1] eqn:M; [|discriminate].
  pose proof M as M'. unfold path_mkdir_parents in M'.
  apply mkdir_parents_spec in M'. destruct M' as [_ HT].
  destruct (HT eq_refl) as [T HdT]. rewrite rev_involutive in HdT.
  assert (HdT' : dir_of e (target_dir install_path safe_name) fs1 T)
    by (destruct (target_dir install_path safe_name); exact HdT).
  rewrite (write_tree_eq e _ _ _ _ _ _ _ fs1 T HdT').
  intros H. apply tree_outcome_inv in H.
  destruct H as (-> & C & He & Hp & ->).
  exists safe_name, fs1, T. apply Nat.ltb_ge in L.
  split; [reflexivity|]. split; [exact L|]. split; [reflexivity|].
  split; [reflexivity|]. split; [exact M|]. split; [exact HdT'|].
  split; [exact C|]. split; [exact He|]. split; [exact Hp|].
  split; [reflexivity|]. apply skill_written_dir_of; assumption.
Qed.

(** C3, as stated, fails: without an install path the path returned is
    relative. *)
Lemma create_skill_returns_relative :
  fst (create_skill sample_lower env0 (lit "My Cool Skill!!") (lit "Does things")
         (lit "P") (lit "I") (lit "E") [] None fs0)
  = Return {| anchored := false; parts := [lit "my-cool-skill"] |} /\
  is_absolute {| anchored := false; parts := [lit "my-cool-skill"] |} = false.
Proof. split; vm_compute; reflexivity. Qed.

(** C3, amended: when [create_skill] returns, it returns the target path as
    it was built, [Path(install_path) / safe_name] or [Path("./" + safe_name)];
    that path is absolute exactly when an install path is given and starts
    at the root. *)
Theorem create_skill_returns_target (ul : lower_table) (e : env)
    (skill_name description purpose instructions examples dependencies : list N)
    (install_path : option (list N)) (fs fs' : gmap (list (list N)) node)
    (p : Path) :
  create_skill ul e skill_name description purpose instructions examples
    dependencies install_path fs = (Return p, fs') ->
  exists safe_name,
    sanitize_name ul skill_name = Return safe_name /\
    p = target_dir install_path safe_name /\
    is_absolute p = match install_path with
                    | Some ip => starts_with [slash] ip
                    | None => false
                    end.
Proof.
  intros H. apply create_skill_return in H.
  destruct H as (safe_name & fs1 & T & Hs & _ & _ & -> & _).
  exists safe_name. split; [exact Hs|]. split; [reflexivity|].
  apply target_dir_absolute.
  apply (sanitize_name_shape ul skill_name safe_name Hs).
Qed.

Lemma create_skill_returns_target_witness :
  exists safe_name,
    sanitize_name sample_lower (lit "My Cool Skill!!") = Return safe_name /\
    {| anchored := true; parts := [lit "opt"; lit "skills"; lit "my-cool-skill"] |}
    = target_dir (Some (lit "/opt/skills")) safe_name /\
    is_absolute {| anchored := true;
                   parts := [lit "opt"; lit "skills"; lit "my-cool-skill"] |}
    = starts_with [slash] (lit "/opt/skills").
Proof.
  apply (create_skill_returns_target sample_lower env0 (lit "My Cool Skill!!")
           (lit "Does things") (lit "P") (lit "I") (lit "E") []
           (Some (lit "/opt/skills")) fs0
           (snd (create_skill sample_lower env0 (lit "My Cool Skill!!")
                   (lit "Does things") (lit "P") (lit "I") (lit "E") []
                   (Some (lit "/opt/skills")) fs0))).
  apply pair_of_fst. vm_compute. reflexivity.
Defined.

(** ** The way to a path *)

Lemma namei_loc (fs : gmap (list (list N)) node) ps :
  forall cur l, namei fs cur ps = Return l -> l = fold_left step ps cur.
Proof.
  induction ps as [|c rest IH]; intros cur l.
  - intros [= <-]. reflexivity.
  - cbn [namei fold_left]. destruct rest as [|d rest'].
    + intros [= <-]. reflexivity.
    + destruct (node_at fs (step cur c)) as [[|f]|]; try discriminate. apply IH.
Qed.

Lemma dir_of_loc (e : env) (p : Path) (fs : gmap (list (list N)) node) T :
  dir_of e p fs T -> T = target_loc e p.
Proof.
  intros H. apply dir_of_iff in H. destruct H as (_ & _ & [H _]).
  apply (namei_loc fs _ _ _ H).
Qed.



Lemma walk_snoc (ps : list (list N)) (c : list N) :
  forall cur, walk cur (ps ++ [c]) = walk cur ps ++ [step (fold_left step ps cur) c].
Proof.
  induction ps as [|x rest IH]; intros cur; [reflexivity|].
  rewrite <- app_comm_cons. cbn [walk fold_left]. rewrite IH. reflexivity.
Qed.

(** Without [..] the way goes down only. *)
Lemma walk_plain (ps : list (list N)) :
  ~ In (lit "..") ps ->
  forall cur, walk cur ps = prefixes cur ps /\ fold_left step ps cur = cur ++ ps.
Proof.
  induction ps as [|c rest IH]; intros Hn cur.
  - split; [reflexivity|]. symmetry. apply app_nil_r.
  - assert (Hc : c <> lit "..") by (intros ->; apply Hn; left; reflexivity).
    assert (Hr : ~ In (lit "..") rest) by (intros X; apply Hn; right; exact X).
    cbn [walk prefixes fold_left]. rewrite (step_name cur c Hc).
    destruct (IH Hr (cur ++ [c])) as [E1 E2]. rewrite E1, E2, <- app_assoc.
    split; reflexivity.
Qed.


Lemma ensure_dir_there (fs : gmap (list (list N)) node) (l : list (list N)) n :
  node_at fs l = Some n -> ensure_dir fs l = fs.
Proof. intros H. unfold ensure_dir. rewrite H. reflexivity. Qed.





(** ** Looking up the file system a skill was written to *)

Lemma lookup_ensure_dir_ne (fs : gmap (list (list N)) node) (k l : list (list N)) :
  k <> l -> ensure_dir fs k !! l = fs !! l.
Proof.
  intros H. unfold ensure_dir. destruct (node_at fs k); [reflexivity|].
  apply lookup_insert_ne, H.
Qed.

Lemma lookup_ensure_dir_eq (fs : gmap (list (list N)) node) (T : list (list N))
    (c : list N) :
  is_file fs (T ++ [c]) = false -> ensure_dir fs (T ++ [c]) !! (T ++ [c]) = Some Dir.
Proof.
  intros H. apply dir_here_ensure_dir_same in H. apply dir_here_node in H.
  rewrite node_at_snoc in H. exact H.
Qed.


Ltac rel_neq :=
  let H := fresh in
  unfold loc_skill_md, loc_reference_md, loc_gitignore, loc_resources,
    loc_scripts, loc_resources_readme, loc_scripts_readme;
  intros H; apply app_inv_head in H;
  first [ congruence | vm_compute in H; discriminate H ].

(** Below the directory of the skill, the seven entries are as the skill has
    them and every other location is as it was. *)
Lemma skill_final_lookup (T : list (list N)) (c1 c2 c3 c4 c5 : list N)
    (fs : gmap (list (list N)) node) (rel : list (list N)) :
  can_write fs T = true ->
  skill_written T c1 c2 c3 c4 c5 (skill_dirs T fs) !! (T ++ rel)
  = match skill_tree c1 c2 c3 c4 c5 rel with
    | Some n => Some n
    | None => fs !! (T ++ rel)
    end.
Proof.
  intros H. apply can_write_inv in H.
  destruct H as (Hr & Hs & _).
  unfold skill_tree, skill_written, skill_dirs.
  destruct (decide (rel = [lit "resources"])) as [->|N1].
  { rewrite bool_decide_eq_true_2 by reflexivity.
    rewrite !lookup_insert_ne by loc_neq.
    rewrite lookup_ensure_dir_ne by loc_neq.
    apply lookup_ensure_dir_eq, Hr. }
  rewrite (bool_decide_eq_false_2 _ N1).
  destruct (decide (rel = [lit "scripts"])) as [->|N2].
  { rewrite bool_decide_eq_true_2 by reflexivity.
    rewrite !lookup_insert_ne by loc_neq.
    apply lookup_ensure_dir_eq. rewrite is_file_ensure_dir. exact Hs. }
  rewrite (bool_decide_eq_false_2 _ N2).
  destruct (decide (rel = [lit "SKILL.md"])) as [->|N3].
  { rewrite bool_decide_eq_true_2 by reflexivity.
    rewrite !lookup_insert_ne by loc_neq. apply lookup_insert_eq. }
  rewrite (bool_decide_eq_false_2 _ N3).
  destruct (decide (rel = [lit "REFERENCE.md"])) as [->|N4].
  { rewrite bool_decide_eq_true_2 by reflexivity.
    rewrite !lookup_insert_ne by loc_neq. apply lookup_insert_eq. }
  rewrite (bool_decide_eq_false_2 _ N4).
  destruct (decide (rel = [lit "resources"; lit "README.md"])) as [->|N5].
  { rewrite bool_decide_eq_true_2 by reflexivity.
    rewrite !lookup_insert_ne by loc_neq. apply lookup_insert_eq. }
  rewrite (bool_decide_eq_false_2 _ N5).
  destruct (decide (rel = [lit "scripts"; lit "README.md"])) as [->|N6].
  { rewrite bool_decide_eq_true_2 by reflexivity.
    rewrite !lookup_insert_ne by loc_neq. apply lookup_insert_eq. }
  rewrite (bool_decide_eq_false_2 _ N6).
  destruct (decide (rel = [lit ".gitignore"])) as [->|N7].
  { rewrite bool_decide_eq_true_2 by reflexivity. apply lookup_insert_eq. }
  rewrite (bool_decide_eq_false_2 _ N7).
  rewrite !lookup_insert_ne by rel_neq.
  rewrite !lookup_ensure_dir_ne by rel_neq. reflexivity.
Qed.


(** Once a skill is written its directory can be written to again. *)
Lemma can_write_after (T : list (list N)) (c1 c2 c3 c4 c5 : list N)
    (fs : gmap (list (list N)) node) :
  can_write fs T = true ->
  can_write (skill_written T c1 c2 c3 c4 c5 (skill_dirs T fs)) T = true /\
  skill_dirs T (skill_written T c1 c2 c3 c4 c5 (skill_dirs T fs))
  = skill_written T c1 c2 c3 c4 c5 (skill_dirs T fs).
Proof.
  intros H. set (F := skill_written T c1 c2 c3 c4 c5 (skill_dirs T fs)).
  assert (L : forall rel n, skill_tree c1 c2 c3 c4 c5 rel = Some n ->
                            node_at F (T ++ rel) = Some n).
  { intros rel n Hn. rewrite node_at_app by (intros ->; discriminate Hn).
    unfold F. rewrite (skill_final_lookup T c1 c2 c3 c4 c5 fs rel H), Hn.
    reflexivity. }
  split.
  - unfold can_write, skill_file_locs, is_file, dir_here, loc_resources,
      loc_scripts, loc_skill_md, loc_reference_md, loc_resources_readme,
      loc_scripts_readme, loc_gitignore. cbn [forallb].
    rewrite (L [lit "resources"] Dir eq_refl), (L [lit "scripts"] Dir eq_refl),
      (L [lit "SKILL.md"] (File c1) eq_refl),
      (L [lit "REFERENCE.md"] (File c2) eq_refl),
      (L [lit "resources"; lit "README.md"] (File c3) eq_refl),
      (L [lit "scripts"; lit "README.md"] (File c4) eq_refl),
      (L [lit ".gitignore"] (File c5) eq_refl).
    reflexivity.
  - unfold skill_dirs at 1. unfold loc_resources, loc_scripts.
    rewrite (ensure_dir_there F _ Dir (L [lit "resources"] Dir eq_refl)).
    apply (ensure_dir_there F _ Dir (L [lit "scripts"] Dir eq_refl)).
Qed.


(** ** The text of [SKILL.md] *)

Lemma starts_with_refl p : starts_with p p = true.
Proof.
  induction p as [|a p IH]; [reflexivity|].
  rewrite starts_with_cons, N.eqb_refl. exact IH.
Qed.




Lemma uint_chars_digits u c : In c (uint_chars u) -> 48 <= c <= 57.
Proof.
  induction u as [|u IH|u IH|u IH|u IH|u IH|u IH|u IH|u IH|u IH|u IH];
    cbn [uint_chars In]; intros H; try contradiction;
    destruct H as [<-|H]; try (apply IH, H); lia.
Qed.

Lemma zero_pad_digits w n c : In c (zero_pad w n) -> 48 <= c <= 57.
Proof.
  unfold zero_pad. cbv zeta. intros H. apply in_app_or in H. destruct H as [H|H].
  - apply repeat_spec in H. lia.
  - apply (uint_chars_digits _ _ H).
Qed.

Lemma strftime_ymd_chars now c :
  In c (strftime_ymd now) -> 48 <= c <= 57 \/ c = hyphen.
Proof.
  unfold strftime_ymd. intros H.
  apply in_app_or in H. destruct H as [H|H];
    [left; apply (zero_pad_digits _ _ _ H)|].
  apply in_app_or in H. destruct H as [[<-|[]]|H]; [right; reflexivity|].
  apply in_app_or in H. destruct H as [H|H];
    [left; apply (zero_pad_digits _ _ _ H)|].
  apply in_app_or in H. destruct H as [[<-|[]]|H]; [right; reflexivity|].
  left. apply (zero_pad_digits _ _ _ H).
Qed.



Lemma ends_with_app p s : ends_with s (p ++ s) = true.
Proof.
  unfold ends_with. rewrite rev_app_distr.
  apply starts_with_app, starts_with_refl.
Qed.

Lemma skill_footer_last_line now dependencies :
  dependencies <> [] ->
  ends_with (lit "*Dependencies: " ++ dependencies ++ lit "*" ++ nl)
    (skill_footer now dependencies) = true.
Proof.
  intros H. unfold skill_footer, dependencies_line. cbn [concat].
  destruct dependencies as [|d ds]; [contradiction|]. cbn [is_empty].
  rewrite !app_nil_r.
  replace (line "---" ++ (lit "*Created: " ++ strftime_ymd now ++ lit "*" ++ nl)
             ++ line "*Version: 1.0.0*"
             ++ (lit "*Dependencies: " ++ (d :: ds) ++ lit "*") ++ nl)
    with ((line "---" ++ (lit "*Created: " ++ strftime_ymd now ++ lit "*" ++ nl)
             ++ line "*Version: 1.0.0*")
            ++ (lit "*Dependencies: " ++ (d :: ds) ++ lit "*" ++ nl))
    by (rewrite <- !app_assoc; reflexivity).
  apply ends_with_app.
Qed.



(** ** The encoders and the texts *)

Lemma encodes_concat (k : codec) (l : list (list N)) :
  encodes k (concat l) = forallb (encodes k) l.
Proof.
  induction l as [|a l IH]; [reflexivity|].
  cbn [concat forallb]. rewrite encodes_app, IH. reflexivity.
Qed.

Lemma in_class_ascii (c : N) : in_class c = true -> is_ascii c = true.
Proof.
  unfold in_class, is_ascii, hyphen.
  rewrite !orb_true_iff, !andb_true_iff, !N.leb_le, N.eqb_eq, N.ltb_lt. lia.
Qed.

Lemma safe_name_encodes (k : codec) (ul : lower_table) (name safe_name : list N) :
  sanitize_name ul name = Return safe_name -> encodes k safe_name = true.
Proof.
  intros H. destruct (sanitize_name_shape ul _ _ H) as (Hc & _).
  apply encodes_ascii. apply forallb_forall. intros c Hin.
  apply in_class_ascii. revert c Hin. apply forallb_forall. exact Hc.
Qed.

Lemma strftime_ymd_encodes (k : codec) (now : datetime) :
  encodes k (strftime_ymd now) = true.
Proof.
  apply encodes_ascii. apply forallb_forall. intros c H.
  apply strftime_ymd_chars in H. unfold is_ascii. apply N.ltb_lt.
  unfold hyphen in H. lia.
Qed.

Lemma dependencies_line_encodes (k : codec) (dependencies : list N) :
  encodes k (dependencies_line dependencies) = encodes k dependencies.
Proof.
  unfold dependencies_line. destruct dependencies as [|d ds]; [reflexivity|].
  cbn [is_empty]. rewrite !encodes_app.
  rewrite (encodes_ascii k (lit "*Dependencies: ")) by (vm_compute; reflexivity).
  rewrite (encodes_ascii k (lit "*")) by (vm_compute; reflexivity).
  rewrite andb_true_r. reflexivity.
Qed.

Ltac encodes_leaf :=
  first [ reflexivity | assumption | apply strftime_ymd_encodes
        | apply encodes_ascii; vm_compute; reflexivity ].

Ltac encodes_all :=
  rewrite ?encodes_app, ?encodes_concat; cbn [forallb];
  rewrite ?encodes_app, ?dependencies_line_encodes;
  repeat (apply andb_true_intro; split); encodes_leaf.

(** The encoder takes the text of a file when it takes the fields the text
    is made of: the rest of the text is ASCII. *)
Lemma skill_content_encodes (k : codec) (safe_name skill_name description purpose
    instructions examples dependencies : list N) (now : datetime) :
  encodes k safe_name = true ->
  forallb (encodes k)
    [skill_name; description; purpose; instructions; examples; dependencies] = true ->
  encodes k (skill_content safe_name skill_name description purpose instructions
               examples dependencies now) = true.
Proof.
  intros Hs H. cbn [forallb] in H. rewrite !andb_true_iff in H.
  destruct H as (H1 & H2 & H3 & H4 & H5 & H6 & _).
  unfold skill_content, skill_header, skill_body, skill_footer. encodes_all.
Qed.

Lemma reference_content_encodes (k : codec) (skill_name : list N) (now : datetime) :
  encodes k skill_name = true ->
  encodes k (reference_content skill_name now) = true.
Proof. intros H. unfold reference_content. encodes_all. Qed.

Lemma resources_readme_encodes (k : codec) (skill_name : list N) :
  encodes k (resources_readme skill_name) = encodes k skill_name.
Proof.
  unfold resources_readme. rewrite encodes_concat. cbn [forallb].
  rewrite !encodes_app.
  repeat match goal with
         | |- context [encodes k (line ?s)] =>
             rewrite (encodes_ascii k (line s)) by (vm_compute; reflexivity)
         | |- context [encodes k (lit ?s)] =>
             rewrite (encodes_ascii k (lit s)) by (vm_compute; reflexivity)
         | |- context [encodes k nl] =>
             rewrite (encodes_ascii k nl) by (vm_compute; reflexivity)
         end.
  cbn [andb]. rewrite !andb_true_r. reflexivity.
Qed.

Lemma scripts_readme_encodes (k : codec) (skill_name : list N) :
  encodes k skill_name = true ->
  encodes k (scripts_readme skill_name) = true.
Proof. intros H. unfold scripts_readme. encodes_all. Qed.

Lemma gitignore_content_encodes (k : codec) : encodes k gitignore_content = true.
Proof. apply encodes_ascii. vm_compute. reflexivity. Qed.

(** The five texts of a skill. *)
Lemma skill_texts_encode (k : codec) (ul : lower_table)
    (safe_name skill_name description purpose instructions examples
       dependencies : list N) (t_skill t_reference : datetime) :
  sanitize_name ul skill_name = Return safe_name ->
  forallb (encodes k)
    [skill_name; description; purpose; instructions; examples; dependencies] = true ->
  forallb (encodes k)
    [skill_content safe_name skill_name description purpose instructions
       examples dependencies t_skill;
     reference_content skill_name t_reference;
     resources_readme skill_name; scripts_readme skill_name;
     gitignore_content] = true.
Proof.
  intros Hs H. pose proof H as H'. cbn [forallb] in H'.
  apply andb_true_iff in H'. destruct H' as [Hn _].
  cbn [forallb].
  rewrite (skill_content_encodes k _ _ _ _ _ _ _ _ (safe_name_encodes k ul _ _ Hs) H).
  rewrite (reference_content_encodes k _ _ Hn), resources_readme_encodes, Hn.
  rewrite (scripts_readme_encodes k _ Hn), gitignore_content_encodes. reflexivity.
Qed.

Lemma path_eta (p : Path) : {| anchored := anchored p; parts := parts p |} = p.
Proof. destruct p. reflexivity. Qed.

(** Conversely, a text the encoder takes is made of fields it takes. *)
Lemma skill_content_fields (k : codec) (safe_name skill_name description purpose
    instructions examples dependencies : list N) (now : datetime) :
  encodes k (skill_content safe_name skill_name description purpose instructions
               examples dependencies now) = true ->
  forallb (encodes k)
    [skill_name; description; purpose; instructions; examples; dependencies] = true.
Proof.
  unfold skill_content, skill_header, skill_body, skill_footer.
  rewrite !encodes_app, !encodes_concat. cbn [forallb].
  rewrite !encodes_app, dependencies_line_encodes, !andb_true_iff.
  intros H.
  repeat match goal with
         | X : _ /\ _ |- _ => destruct X
         end.
  repeat split; assumption.
Qed.

(** ** The materializer run twice *)

(** The fields of a call that has returned are fields the encoder of the
    files takes. *)
Lemma create_skill_return_fields (ul : lower_table) (e : env)
    (skill_name description purpose instructions examples dependencies : list N)
    (install_path : option (list N)) (fs fs' : gmap (list (list N)) node)
    (p : Path) :
  create_skill ul e skill_name description purpose instructions examples
    dependencies install_path fs = (Return p, fs') ->
  forallb (encodes (file_codec e))
    [skill_name; description; purpose; instructions; examples; dependencies] = true.
Proof.
  intros H. apply create_skill_return in H.
  destruct H as (safe_name & fsd & T & _ & _ & _ & _ & _ & _ & _ & He & _).
  cbn [forallb] in He. apply andb_true_iff in He. destruct He as [He _].
  apply (skill_content_fields _ _ _ _ _ _ _ _ _ He).
Qed.

Lemma create_skill_second_call (ul : lower_table) (e : env)
    (t_skill t_reference : datetime)
    (skill_name description purpose instructions examples dependencies : list N)
    (description2 purpose2 instructions2 examples2 dependencies2 : list N)
    (install_path : option (list N)) (fs fs1 : gmap (list (list N)) node)
    (p : Path) :
  create_skill ul e skill_name description purpose instructions examples
    dependencies install_path fs = (Return p, fs1) ->
  (length description2 <= 1024)%nat ->
  is_empty (str_strip description2) = false ->
  forallb (encodes (file_codec e))
    [description2; purpose2; instructions2; examples2; dependencies2] = true ->
  exists safe_name T,
    sanitize_name ul skill_name = Return safe_name /\
    dir_of e p fs1 T /\
    (forall l n, fs !! l = Some n -> ~ In l (skill_file_locs T) -> fs1 !! l = Some n) /\
    let fs2 := skill_written T
                 (skill_content safe_name skill_name description2 purpose2
                    instructions2 examples2 dependencies2 t_skill)
                 (reference_content skill_name t_reference)
                 (resources_readme skill_name) (scripts_readme skill_name)
                 gitignore_content fs1 in
    create_skill ul (at_time e t_skill t_reference) skill_name description2
      purpose2 instructions2 examples2 dependencies2 install_path fs1
    = (Return p, fs2) /\
    fs2 !! loc_skill_md T
    = Some (File (skill_content safe_name skill_name description2 purpose2
                    instructions2 examples2 dependencies2 t_skill)) /\
    fs2 !! loc_reference_md T
    = Some (File (reference_content skill_name t_reference)) /\
    fs2 !! loc_resources_readme T = Some (File (resources_readme skill_name)) /\
    fs2 !! loc_scripts_readme T = Some (File (scripts_readme skill_name)) /\
    fs2 !! loc_gitignore T = Some (File gitignore_content) /\
    (forall l, ~ In l (skill_file_locs T) -> fs2 !! l = fs1 !! l).
Proof.
  intros H Hl2 Hd2 He2. apply create_skill_return in H.
  destruct H as (safe_name & fsd & T & Hs & _ & _ & -> & Hm & HdT & Hc & He
                 & Hp & -> & HdF).
  exists safe_name, T. split; [exact Hs|]. split; [exact HdF|].
  set (p := target_dir install_path safe_name) in *.
  split.
  { intros l n Hl Hnot. unfold path_mkdir_parents in Hm.
    apply mkdir_parents_spec in Hm. destruct Hm as [Hext _].
    assert (Hld : fsd !! l = Some n)
      by (destruct (Hext l) as [E|[E _]]; congruence).
    unfold skill_written, skill_dirs.
    rewrite !lookup_insert_ne;
      [do 2 apply lookup_ensure_dir_some; exact Hld|..];
      intros <-; apply Hnot; unfold skill_file_locs; cbn [In]; tauto. }
  destruct (can_write_after T
              (skill_content safe_name skill_name description purpose
                 instructions examples dependencies (now_skill e))
              (reference_content skill_name (now_reference e))
              (resources_readme skill_name) (scripts_readme skill_name)
              gitignore_content fsd Hc) as [Hc1 Hsd].
  set (fs1 := skill_written T _ _ _ _ _ (skill_dirs T fsd)) in *.
  assert (HdF2 : dir_of (at_time e t_skill t_reference) p fs1 T) by exact HdF.
  assert (Hn : encodes (file_codec e) skill_name = true).
  { cbn [forallb] in He. rewrite !andb_true_iff in He.
    destruct He as (_ & _ & He & _). rewrite resources_readme_encodes in He.
    exact He. }
  cbv zeta. split.
  { rewrite create_skill_eq, Hs. apply Nat.ltb_ge in Hl2. rewrite Hl2, Hd2.
    fold p. unfold bind at 1. unfold path_mkdir_parents.
    rewrite (mkdir_parents_again _ (anchored p) (rev (parts p)) fs1 T)
      by (rewrite rev_involutive, path_eta; exact HdF2).
    rewrite (write_tree_eq _ p _ _ _ _ _ _ fs1 T HdF2).
    rewrite tree_outcome_return; [rewrite Hsd; reflexivity|exact Hc1| |exact Hp].
    change (file_codec (at_time e t_skill t_reference)) with (file_codec e).
    change (now_skill (at_time e t_skill t_reference)) with t_skill.
    change (now_reference (at_time e t_skill t_reference)) with t_reference.
    apply (skill_texts_encode _ ul _ _ _ _ _ _ _ _ _ Hs).
    cbn [forallb]. rewrite Hn. exact He2. }
  unfold skill_written.
  split; [rewrite !lookup_insert_ne by loc_neq; apply lookup_insert_eq|].
  split; [rewrite !lookup_insert_ne by loc_neq; apply lookup_insert_eq|].
  split; [rewrite !lookup_insert_ne by loc_neq; apply lookup_insert_eq|].
  split; [rewrite !lookup_insert_ne by loc_neq; apply lookup_insert_eq|].
  split; [apply lookup_insert_eq|].
  intros l Hnot. rewrite !lookup_insert_ne; [reflexivity|..];
    intros <-; apply Hnot; unfold skill_file_locs; cbn [In]; tauto.
Qed.

(** C7: when [create_skill] has returned, a second call for the same name
    and install path by the same process at any later time (the same working
    directory, the same encoders) returns too, with any valid description
    and any other texts the encoder of the files takes, the texts of the
    first call among them: the directories that exist are not an error.
    The file system after the second call is the one after the first with
    the five files holding the texts of the second call; every other entry
    is as it was.  Nor did the first call remove or change anything but the
    five files. *)
Theorem create_skill_twice (ul : lower_table) (e : env)
    (t_skill t_reference : datetime)
    (skill_name description purpose instructions examples dependencies : list N)
    (description2 purpose2 instructions2 examples2 dependencies2 : list N)
    (install_path : option (list N)) (fs fs1 : gmap (list (list N)) node)
    (p : Path) :
  create_skill ul e skill_name description purpose instructions examples
    dependencies install_path fs = (Return p, fs1) ->
  (length description2 <= 1024)%nat ->
  is_empty (str_strip description2) = false ->
  forallb (encodes (file_codec e))
    [description2; purpose2; instructions2; examples2; dependencies2] = true ->
  exists safe_name T,
    sanitize_name ul skill_name = Return safe_name /\
    dir_of e p fs1 T /\
    (forall l n, fs !! l = Some n -> ~ In l (skill_file_locs T) -> fs1 !! l = Some n) /\
    let fs2 := skill_written T
                 (skill_content safe_name skill_name description2 purpose2
                    instructions2 examples2 dependencies2 t_skill)
                 (reference_content skill_name t_reference)
                 (resources_readme skill_name) (scripts_readme skill_name)
                 gitignore_content fs1 in
    create_skill ul (at_time e t_skill t_reference) skill_name description2
      purpose2 instructions2 examples2 dependencies2 install_path fs1
    = (Return p, fs2) /\
    fs2 !! loc_skill_md T
    = Some (File (skill_content safe_name skill_name description2 purpose2
                    instructions2 examples2 dependencies2 t_skill)) /\
    fs2 !! loc_reference_md T
    = Some (File (reference_content skill_name t_reference)) /\
    fs2 !! loc_resources_readme T = Some (File (resources_readme skill_name)) /\
    fs2 !! loc_scripts_readme T = Some (File (scripts_readme skill_name)) /\
    fs2 !! loc_gitignore T = Some (File gitignore_content) /\
    (forall l, ~ In l (skill_file_locs T) -> fs2 !! l = fs1 !! l).
Proof. apply create_skill_second_call. Qed.


Lemma create_skill_twice_witness :
  exists safe_name T,
    sanitize_name sample_lower (lit "My Cool Skill!!") = Return safe_name /\
    dir_of env0 {| anchored := false; parts := [lit "my-cool-skill"] |} (snd run0) T /\
    create_skill sample_lower env1 (lit "My Cool Skill!!") (lit "Does more")
      (lit "P2") (lit "I2") (lit "E2") [] None (snd run0)
    = (Return {| anchored := false; parts := [lit "my-cool-skill"] |},
       skill_written T
         (skill_content safe_name (lit "My Cool Skill!!") (lit "Does more")
            (lit "P2") (lit "I2") (lit "E2") [] (now_skill env1))
         (reference_content (lit "My Cool Skill!!") (now_reference env1))
         (resources_readme (lit "My Cool Skill!!"))
         (scripts_readme (lit "My Cool Skill!!")) gitignore_content (snd run0)).
Proof.
  destruct (create_skill_twice sample_lower env0
              {| year := 2025; month := 11; day := 30 |}
              {| year := 2025; month := 12; day := 1 |}
              (lit "My Cool Skill!!")
              (lit "Does things") (lit "P") (lit "I") (lit "E") (lit "numpy")
              (lit "Does more") (lit "P2") (lit "I2") (lit "E2") [] None fs0
              (snd run0) {| anchored := false; parts := [lit "my-cool-skill"] |})
    as (safe_name & T & H1 & H2 & _ & H3 & _).
  - apply pair_of_fst. vm_compute. reflexivity.
  - vm_compute. lia.
  - vm_compute. reflexivity.
  - vm_compute. reflexivity.
  - exists safe_name, T. split; [exact H1|]. split; [exact H2|exact H3].
Defined.

(** The same spec a second time: the call returns again, and the five files
    hold the texts of the spec with the dates of the second call. *)
Lemma create_skill_same_spec (ul : lower_table) (e : env)
    (t_skill t_reference : datetime)
    (skill_name description purpose instructions examples dependencies : list N)
    (install_path : option (list N)) (fs fs1 : gmap (list (list N)) node)
    (p : Path) :
  create_skill ul e skill_name description purpose instructions examples
    dependencies install_path fs = (Return p, fs1) ->
  exists fs2,
    create_skill ul (at_time e t_skill t_reference) skill_name description
      purpose instructions examples dependencies install_path fs1
    = (Return p, fs2).
Proof.
  intros H. pose proof (create_skill_return_fields _ _ _ _ _ _ _ _ _ _ _ _ H) as Hf.
  pose proof (create_skill_return _ _ _ _ _ _ _ _ _ _ _ _ H)
    as (sn & fsd & T & _ & Hl & Hd & _).
  cbn [forallb] in Hf. apply andb_true_iff in Hf. destruct Hf as [_ Hf].
  destruct (create_skill_second_call ul e t_skill t_reference skill_name
              description purpose instructions examples dependencies
              description purpose instructions examples dependencies
              install_path fs fs1 p H Hl Hd Hf)
    as (safe_name & T' & _ & _ & _ & H2 & _).
  eexists. exact H2.
Qed.

(** ** A skill written where nothing was *)









(** * Further properties *)

(** ** The sanitizer: accepted names, case, length *)

(** X1: [sanitize_name] returns its argument unchanged exactly when the
    argument is a valid slug already. *)
Theorem sanitize_name_fixed_iff ul s :
  sanitize_name ul s = Return s <-> valid_slug s = true.
Proof.
  unfold valid_slug. rewrite !andb_true_iff, !negb_true_iff, Nat.leb_le.
  split.
  - intros H. destruct (sanitize_name_shape ul s s H) as (H1 & H2 & H3 & H4).
    destruct (sanitize_name_return ul s s H) as (_ & Ha & Hb & Hl).
    repeat split; assumption.
  - intros [[[[[[H1 H2] H3] H4] Hl] Ha] Hb].
    unfold sanitize_name. cbv zeta.
    rewrite (normalize_fixed ul s H1 H2 H3 H4), Ha, Hb. cbn [orb].
    apply Nat.ltb_ge in Hl. rewrite Hl. reflexivity.
Qed.

Lemma lower_from_ascii ul s :
  forallb is_ascii s = true ->
  forall before, lower_from ul before s = List.map ascii_lower s.
Proof.
  induction s as [|c r IH]; intros H before; [reflexivity|].
  apply forallb_cons_true in H. destruct H as [Hc Hr].
  cbn [lower_from List.map]. unfold lower_at. unfold is_ascii in Hc. rewrite Hc.
  cbn [app]. f_equal. apply IH, Hr.
Qed.

Lemma replace_space_lower s :
  replace_space (List.map ascii_lower s) = List.map fold_case_space s.
Proof.
  unfold replace_space. rewrite List.map_map. reflexivity.
Qed.

(** X2: two ASCII names that differ only in the case of their letters, or in
    a space where the other has a hyphen, get the same result from
    [sanitize_name]: the same slug or the same error. *)
Theorem sanitize_name_case_space ul s t :
  forallb is_ascii s = true ->
  forallb is_ascii t = true ->
  List.map fold_case_space s = List.map fold_case_space t ->
  sanitize_name ul s = sanitize_name ul t.
Proof.
  intros Hs Ht H.
  assert (E : normalize ul s = normalize ul t).
  { unfold normalize, str_lower. cbv zeta.
    rewrite (lower_from_ascii ul s Hs), (lower_from_ascii ul t Ht).
    rewrite !replace_space_lower, H. reflexivity. }
  unfold sanitize_name. cbv zeta. rewrite E. reflexivity.
Qed.

Lemma sanitize_name_case_space_witness :
  sanitize_name sample_lower (lit "My Cool-Skill") = sanitize_name sample_lower (lit "my-COOL skill").
Proof.
  apply sanitize_name_case_space; vm_compute; reflexivity.
Defined.

Lemma sub_hyphen_runs_length s :
  forall b, (length (sub_hyphen_runs b s) <= length s)%nat.
Proof.
  induction s as [|c r IH]; intros b; [reflexivity|].
  pose proof (IH true) as IHt. pose proof (IH false) as IHf.
  cbn [sub_hyphen_runs]. destruct (is_hyphen c); [destruct b|]; cbn [length]; lia.
Qed.

Lemma strip_hyphen_length s : (length (strip_hyphen s) <= length s)%nat.
Proof.
  destruct (strip_hyphen_infix s) as (a & b & E).
  rewrite E at 2. rewrite !length_app. lia.
Qed.

Lemma normalize_ascii_length ul s :
  forallb is_ascii s = true -> (length (normalize ul s) <= length s)%nat.
Proof.
  intros H. unfold normalize, str_lower, re_sub_hyphen_runs, re_sub_outside_class.
  cbv zeta. rewrite (lower_from_ascii ul s H).
  etransitivity; [apply strip_hyphen_length|].
  etransitivity; [apply sub_hyphen_runs_length|].
  etransitivity; [apply List.filter_length_le|].
  unfold replace_space. rewrite !length_map. reflexivity.
Qed.

(** X3: on an ASCII name the normalized name is no longer than the name, so
    an ASCII name of at most 64 characters is never rejected for its length:
    [sanitize_name] returns its normalized form or raises the error of the
    reserved words. *)
Theorem sanitize_name_ascii_length ul s :
  forallb is_ascii s = true ->
  (length s <= 64)%nat ->
  (length (normalize ul s) <= length s)%nat /\
  (sanitize_name ul s = Return (normalize ul s)
   \/ sanitize_name ul s = Raise (ValueError msg_reserved)).
Proof.
  intros Ha Hl. pose proof (normalize_ascii_length ul s Ha) as Hn.
  split; [exact Hn|]. unfold sanitize_name. cbv zeta.
  destruct (_ || _); [right; reflexivity|left].
  assert (E : (64 <? length (normalize ul s))%nat = false)
    by (apply Nat.ltb_ge; lia).
  rewrite E. reflexivity.
Qed.

Lemma sanitize_name_ascii_length_witness :
  (length (normalize sample_lower (lit "  My -- Cool   Skill!!  "))
   <= length (lit "  My -- Cool   Skill!!  "))%nat /\
  (sanitize_name sample_lower (lit "  My -- Cool   Skill!!  ")
   = Return (normalize sample_lower (lit "  My -- Cool   Skill!!  "))
   \/ sanitize_name sample_lower (lit "  My -- Cool   Skill!!  ")
      = Raise (ValueError msg_reserved)).
Proof.
  apply sanitize_name_ascii_length; [vm_compute; reflexivity|vm_compute; lia].
Defined.

(** ** The materializer: which errors, and when *)

Ltac name_neq := let H := fresh in intros H; vm_compute in H; discriminate H.

Lemma path_error_not_os (e : env) (p : Path) x :
  path_error e p = Some x -> is_os_error x = false.
Proof. intros H. destruct (path_error_value e p x H) as [msg ->]. reflexivity. Qed.

Lemma os_mkdir_raise (e : env) (p : Path) (fs fs' : gmap (list (list N)) node) x :
  os_mkdir e p fs = (Raise x, fs') ->
  fs' = fs /\
  (is_os_error x = true /\ path_error e p = None \/ path_error e p = Some x).
Proof.
  unfold os_mkdir. destruct (resolve e p fs) as [l|y] eqn:En.
  - apply resolve_return in En. destruct En as (Hp & _).
    destruct (node_at fs l); intros [= <- <-].
    split; [reflexivity|]. left. split; [reflexivity|exact Hp].
  - intros [= <- <-]. split; [reflexivity|].
    destruct (resolve_raise _ _ _ _ En) as [H|[H [->| ->]]].
    + right. exact H.
    + left. split; [reflexivity|exact H].
    + left. split; [reflexivity|exact H].
Qed.

Lemma path_mkdir_raise (e : env) (p : Path) (fs fs' : gmap (list (list N)) node) x :
  path_mkdir e p fs = (Raise x, fs') ->
  is_os_error x = true \/ fs' = fs /\ path_error e p = Some x.
Proof.
  unfold path_mkdir. destruct (os_mkdir e p fs) as [[u|y] fs1] eqn:E; [discriminate|].
  apply os_mkdir_raise in E. destruct E as [-> Hy].
  destruct y.
  - intros [= <- <-]. destruct Hy as [[Hy _]|Hy]; [discriminate Hy|].
    right. split; [reflexivity|exact Hy].
  - intros [= <- <-]. left. reflexivity.
  - destruct (is_dir e p fs); intros [= <- <-]. left. reflexivity.
  - destruct (is_dir e p fs); intros [= <- <-]. left. reflexivity.
  - destruct (is_dir e p fs); intros [= <- <-]. left. reflexivity.
Qed.

(** [mkdir(parents=True, exist_ok=True)] raises an error of the file system,
    or the [ValueError] of a path the system does not accept, and then
    before anything is made. *)
Lemma mkdir_parents_raise (e : env) (a : bool) (rp : list (list N)) :
  forall (fs fs' : gmap (list (list N)) node) x,
    mkdir_parents e a rp fs = (Raise x, fs') ->
    is_os_error x = true
    \/ fs' = fs /\ path_error e {| anchored := a; parts := rev rp |} = Some x.
Proof.
  induction rp as [|c rp' IH]; intros fs fs' x; cbn [mkdir_parents];
    set (p := {| anchored := a; parts := _ |});
    destruct (os_mkdir e p fs) as [[u|y] fs1] eqn:E; try discriminate;
    apply os_mkdir_raise in E; destruct E as [-> Hy].
  - destruct y.
    + intros [= <- <-]. destruct Hy as [[Hy _]|Hy]; [discriminate Hy|].
      right. split; [reflexivity|exact Hy].
    + intros [= <- <-]. left. reflexivity.
    + destruct (is_dir e p fs); intros [= <- <-]. left. reflexivity.
    + destruct (is_dir e p fs); intros [= <- <-]. left. reflexivity.
    + destruct (is_dir e p fs); intros [= <- <-]. left. reflexivity.
  - destruct y.
    + intros [= <- <-]. destruct Hy as [[Hy _]|Hy]; [discriminate Hy|].
      right. split; [reflexivity|exact Hy].
    + assert (Hp : path_error e p = None).
      { destruct Hy as [[_ Hy]|Hy]; [exact Hy|].
        apply path_error_not_os in Hy. discriminate Hy. }
      destruct (mkdir_parents e a rp' fs) as [[u|z] fs2] eqn:E2.
      * intros H. apply path_mkdir_raise in H.
        destruct H as [H|[_ H]]; [left; exact H|congruence].
      * intros [= <- <-]. destruct (IH _ _ _ E2) as [H|[_ H]]; [left; exact H|].
        exfalso. unfold p in Hp. cbn [rev] in Hp.
        apply path_error_snoc in Hp. destruct Hp as [Hp _]. congruence.
    + destruct (is_dir e p fs); intros [= <- <-]. left. reflexivity.
    + destruct (is_dir e p fs); intros [= <- <-]. left. reflexivity.
    + destruct (is_dir e p fs); intros [= <- <-]. left. reflexivity.
Qed.

(** After validation: the target directory, then the tree. *)
Lemma create_skill_valid (ul : lower_table) (e : env)
    (skill_name description purpose instructions examples dependencies : list N)
    (install_path : option (list N)) (fs : gmap (list (list N)) node)
    (safe_name : list N) :
  sanitize_name ul skill_name = Return safe_name ->
  (length description <= 1024)%nat ->
  is_empty (str_strip description) = false ->
  create_skill ul e skill_name description purpose instructions examples
    dependencies install_path fs
  = match path_mkdir_parents e (target_dir install_path safe_name) fs with
    | (Return _, fs1) =>
        write_tree e (target_dir install_path safe_name)
          (skill_content safe_name skill_name description purpose
             instructions examples dependencies (now_skill e))
          (reference_content skill_name (now_reference e))
          (resources_readme skill_name) (scripts_readme skill_name)
          gitignore_content
          (report_lines (absolute_str e (target_dir install_path safe_name))
             safe_name) fs1
    | (Raise x, fs1) => (Raise x, fs1)
    end.
Proof.
  intros Hs Hl Hd. rewrite create_skill_eq, Hs.
  apply Nat.ltb_ge in Hl. rewrite Hl, Hd. reflexivity.
Qed.

Lemma path_mkdir_parents_dir_of (e : env) (p : Path)
    (fs fs1 : gmap (list (list N)) node) :
  path_mkdir_parents e p fs = (Return tt, fs1) ->
  extends fs fs1 /\ exists T, dir_of e p fs1 T.
Proof.
  unfold path_mkdir_parents. intros H. apply mkdir_parents_spec in H.
  destruct H as [Hx HT]. split; [exact Hx|].
  destruct (HT eq_refl) as [T HdT]. rewrite rev_involutive, path_eta in HdT.
  exists T. exact HdT.
Qed.

Lemma encoders_accept_inv (ul : lower_table) (e : env)
    (safe_name skill_name description purpose instructions examples
       dependencies : list N) (install_path : option (list N)) :
  sanitize_name ul skill_name = Return safe_name ->
  encoders_accept e safe_name skill_name description purpose instructions
    examples dependencies install_path = true ->
  path_error e (target_dir install_path safe_name) = None /\
  forallb (encodes (file_codec e))
    [skill_content safe_name skill_name description purpose instructions
       examples dependencies (now_skill e);
     reference_content skill_name (now_reference e);
     resources_readme skill_name; scripts_readme skill_name;
     gitignore_content] = true /\
  print_error (stdout_codec e)
    (report_lines (absolute_str e (target_dir install_path safe_name)) safe_name)
  = None.
Proof.
  intros Hs. unfold encoders_accept. cbv zeta. rewrite !andb_true_iff.
  intros [[H1 H2] H3]. split.
  - destruct (path_error e _); [discriminate H1|reflexivity].
  - split; [apply (skill_texts_encode _ ul _ _ _ _ _ _ _ _ _ Hs H2)|].
    apply print_error_none, H3.
Qed.

Lemma create_skill_valid_outcome (ul : lower_table) (e : env)
    (skill_name description purpose instructions examples dependencies : list N)
    (install_path : option (list N)) (fs : gmap (list (list N)) node)
    (safe_name : list N) :
  sanitize_name ul skill_name = Return safe_name ->
  (length description <= 1024)%nat ->
  is_empty (str_strip description) = false ->
  encoders_accept e safe_name skill_name description purpose instructions
    examples dependencies install_path = true ->
  exists r fs',
    create_skill ul e skill_name description purpose instructions examples
      dependencies install_path fs = (r, fs') /\
    (r = Return (target_dir install_path safe_name)
     \/ exists x, r = Raise x /\ is_os_error x = true).
Proof.
  intros Hs Hl Hd Ha. rewrite (create_skill_valid _ _ _ _ _ _ _ _ _ _ _ Hs Hl Hd).
  destruct (encoders_accept_inv _ _ _ _ _ _ _ _ _ _ Hs Ha) as (Hp & He & Hr).
  destruct (path_mkdir_parents e (target_dir install_path safe_name) fs)
    as [[[]|x] fs1] eqn:M.
  - destruct (path_mkdir_parents_dir_of _ _ _ _ M) as [_ [T HdT]].
    rewrite (write_tree_eq e _ _ _ _ _ _ _ fs1 T HdT).
    destruct (tree_outcome e _ T _ _ _ _ _ _ fs1) as [[p'|x] fs2] eqn:W.
    + apply tree_outcome_inv in W. destruct W as (-> & _).
      eexists _, _. split; [reflexivity|left; reflexivity].
    + apply tree_outcome_raise in W.
      destruct W as [[Hx _]|[_ [W|W]]]; [|congruence|congruence].
      eexists _, _. split; [reflexivity|right].
      exists x. split; [reflexivity|exact Hx].
  - eexists _, _. split; [reflexivity|right]. exists x. split; [reflexivity|].
    unfold path_mkdir_parents in M.
    destruct (mkdir_parents_raise _ _ _ _ _ _ M) as [H|[_ H]]; [exact H|].
    rewrite rev_involutive, path_eta in H. congruence.
Qed.

Lemma create_skill_value_error_inv (ul : lower_table) (e : env)
    (skill_name description purpose instructions examples dependencies : list N)
    (install_path : option (list N)) (fs fs' : gmap (list (list N)) node)
    (msg : list N) :
  create_skill ul e skill_name description purpose instructions examples
    dependencies install_path fs = (Raise (ValueError msg), fs') ->
  fs' = fs /\
  (sanitize_name ul skill_name = Raise (ValueError msg)
   /\ (msg = msg_reserved \/ msg = msg_name_length)
   \/ (exists safe_name, sanitize_name ul skill_name = Return safe_name)
      /\ (msg = msg_description_length /\ (1024 < length description)%nat
          \/ msg = msg_description_empty /\ (length description <= 1024)%nat
             /\ str_strip description = []))
  \/ exists safe_name,
       sanitize_name ul skill_name = Return safe_name /\
       (length description <= 1024)%nat /\
       is_empty (str_strip description) = false /\
       encoders_accept e safe_name skill_name description purpose instructions
         examples dependencies install_path = false.
Proof.
  rewrite create_skill_eq.
  destruct (sanitize_name ul skill_name) as [safe_name|x] eqn:S.
  - destruct (1024 <? length description)%nat eqn:L.
    { intros [= <- <-]. left. split; [reflexivity|right].
      split; [eexists; reflexivity|left]. apply Nat.ltb_lt in L. auto. }
    destruct (is_empty (str_strip description)) eqn:D.
    { intros [= <- <-]. left. split; [reflexivity|right].
      split; [eexists; reflexivity|right]. apply Nat.ltb_ge in L.
      destruct (str_strip description); [auto|discriminate D]. }
    intros H. right. exists safe_name. apply Nat.ltb_ge in L.
    split; [reflexivity|]. split; [exact L|]. split; [reflexivity|].
    destruct (encoders_accept e safe_name skill_name description purpose
                instructions examples dependencies install_path) eqn:A;
      [|reflexivity].
    exfalso.
    destruct (create_skill_valid_outcome ul e skill_name description purpose
                instructions examples dependencies install_path fs safe_name
                S L D A) as (r & fs2 & E & Hr).
    rewrite (create_skill_valid _ _ _ _ _ _ _ _ _ _ _ S L D) in E.
    unfold bind in H. rewrite E in H. injection H as -> _.
    destruct Hr as [Hr|(x & Hr & Hx)]; [discriminate Hr|].
    injection Hr as <-. discriminate Hx.
  - intros [= -> <-]. left. split; [reflexivity|left]. split; [reflexivity|].
    revert S. unfold sanitize_name. cbv zeta.
    destruct (_ || _); [intros [= <-]; left; reflexivity|].
    destruct (_ <? _)%nat; [intros [= <-]; right; reflexivity|discriminate].
Qed.

(** X4: when [create_skill] raises [ValueError], either the file system is
    as it was before the call and the error is one of four, the two of the
    name, raised by [sanitize_name], or, with a name that passed, the one of
    a description longer than 1024 or the one of a blank description; or the
    name and the description are valid and an encoder does not take what the
    call gives it: the target path, a field of the texts, or the report. *)
Theorem create_skill_value_error (ul : lower_table) (e : env)
    (skill_name description purpose instructions examples dependencies : list N)
    (install_path : option (list N)) (fs fs' : gmap (list (list N)) node)
    (msg : list N) :
  create_skill ul e skill_name description purpose instructions examples
    dependencies install_path fs = (Raise (ValueError msg), fs') ->
  fs' = fs /\
  (sanitize_name ul skill_name = Raise (ValueError msg)
   /\ (msg = msg_reserved \/ msg = msg_name_length)
   \/ (exists safe_name, sanitize_name ul skill_name = Return safe_name)
      /\ (msg = msg_description_length /\ (1024 < length description)%nat
          \/ msg = msg_description_empty /\ (length description <= 1024)%nat
             /\ str_strip description = []))
  \/ exists safe_name,
       sanitize_name ul skill_name = Return safe_name /\
       (length description <= 1024)%nat /\
       is_empty (str_strip description) = false /\
       encoders_accept e safe_name skill_name description purpose instructions
         examples dependencies install_path = false.
Proof. apply create_skill_value_error_inv. Qed.

Lemma create_skill_value_error_witness :
  fs0 = fs0 /\
  (sanitize_name sample_lower (lit "Claude Helper") = Raise (ValueError msg_reserved)
   /\ (msg_reserved = msg_reserved \/ msg_reserved = msg_name_length)
   \/ (exists safe_name, sanitize_name sample_lower (lit "Claude Helper") = Return safe_name)
      /\ (msg_reserved = msg_description_length /\ (1024 < length (lit "Does things"))%nat
          \/ msg_reserved = msg_description_empty
             /\ (length (lit "Does things") <= 1024)%nat
             /\ str_strip (lit "Does things") = []))
  \/ exists safe_name,
       sanitize_name sample_lower (lit "Claude Helper") = Return safe_name /\
       (length (lit "Does things") <= 1024)%nat /\
       is_empty (str_strip (lit "Does things")) = false /\
       encoders_accept env0 safe_name (lit "Claude Helper") (lit "Does things")
         (lit "P") (lit "I") (lit "E") [] None = false.
Proof.
  apply (create_skill_value_error sample_lower env0 (lit "Claude Helper")
           (lit "Does things") (lit "P") (lit "I") (lit "E") [] None fs0 fs0
           msg_reserved).
  vm_compute. reflexivity.
Defined.



(** ** The materializer: nothing is removed *)

Lemma keeps_refl (fs : gmap (list (list N)) node) : keeps fs fs.
Proof. intros l n H. left. exact H. Qed.

Lemma keeps_trans (a b c : gmap (list (list N)) node) :
  keeps a b -> keeps b c -> keeps a c.
Proof.
  intros Hab Hbc l n H. destruct (Hab l n H) as [E|(Ho & c1 & c2 & -> & E)].
  - apply (Hbc l n E).
  - destruct (Hbc l _ E) as [E'|(_ & c3 & c4 & _ & E')];
      right; (split; [exact Ho|]); eexists _, _; split; try reflexivity; exact E'.
Qed.

Lemma extends_keeps (fs fs' : gmap (list (list N)) node) :
  extends fs fs' -> keeps fs fs'.
Proof.
  intros H l n Hl. left. destruct (H l) as [E|[E _]]; congruence.
Qed.

Lemma namei_last (fs : gmap (list (list N)) node) ps c :
  forall cur l, namei fs cur (ps ++ [c]) = Return l -> exists d, l = step d c.
Proof.
  induction ps as [|x rest IH]; intros cur l.
  - simpl. intros [= <-]. exists cur. reflexivity.
  - assert (Hx : namei fs cur ((x :: rest) ++ [c])
                 = match node_at fs (step cur x) with
                   | Some Dir => namei fs (step cur x) (rest ++ [c])
                   | Some (File _) => Raise NotADirectoryError
                   | None => Raise FileNotFoundError
                   end) by (destruct rest; reflexivity).
    rewrite Hx. destruct (node_at fs (step cur x)) as [[|f]|]; try discriminate.
    apply IH.
Qed.

(** A file written where no directory is: the other entries stay. *)
Lemma insert_file_keeps (fs : gmap (list (list N)) node) (d : list (list N))
    (c data : list N) :
  In c skill_file_names ->
  fs !! (d ++ [c]) <> Some Dir ->
  keeps fs (<[d ++ [c] := File data]> fs).
Proof.
  intros Hin Hnd l n H. destruct (decide (d ++ [c] = l)) as [<-|Hne].
  - destruct n as [|f]; [contradiction|]. right.
    split; [exists c; split; [apply last_snoc|exact Hin]|].
    exists f, data. split; [reflexivity|apply lookup_insert_eq].
  - left. rewrite lookup_insert_ne by exact Hne. exact H.
Qed.

(** [write_text] on a path that ends in the name [c], whether the encoder
    takes the text or not. *)
Lemma write_text_keeps (e : env) (a : bool) (ps : list (list N)) (c data : list N)
    (fs fs' : gmap (list (list N)) node) r :
  c <> lit ".." -> In c skill_file_names ->
  write_text e {| anchored := a; parts := ps ++ [c] |} data fs = (r, fs') ->
  keeps fs fs'.
Proof.
  intros Hc Hin. unfold write_text.
  destruct (resolve e _ fs) as [l|x] eqn:En;
    [|intros [= <- <-]; apply keeps_refl].
  apply resolve_return in En. destruct En as (_ & _ & En). cbn [parts] in En.
  destruct (namei_last fs ps c _ l En) as [d ->]. rewrite (step_name d c Hc).
  rewrite node_at_snoc.
  pose proof (insert_file_keeps fs d c data Hin) as K1.
  pose proof (insert_file_keeps fs d c [] Hin) as K2.
  destruct (fs !! (d ++ [c])) as [[|f]|].
  - intros [= <- <-]. apply keeps_refl.
  - destruct (encodes (file_codec e) data); intros [= <- <-];
      [apply K1|apply K2]; discriminate.
  - destruct (encodes (file_codec e) data); intros [= <- <-];
      [apply K1|apply K2]; discriminate.
Qed.

Lemma bind_keeps {A B : Type} (m : M A) (k : A -> M B) :
  (forall fs r fs', m fs = (r, fs') -> keeps fs fs') ->
  (forall a fs r fs', k a fs = (r, fs') -> keeps fs fs') ->
  forall fs r fs', bind m k fs = (r, fs') -> keeps fs fs'.
Proof.
  intros Hm Hk fs r fs'. unfold bind.
  destruct (m fs) as [[a|x] fs1] eqn:E.
  - intros H. apply (keeps_trans _ fs1); [apply (Hm _ _ _ E)|apply (Hk _ _ _ _ H)].
  - intros [= <- <-]. apply (Hm _ _ _ E).
Qed.

Lemma path_mkdir_keeps (e : env) (p : Path) (fs fs' : gmap (list (list N)) node) r :
  path_mkdir e p fs = (r, fs') -> keeps fs fs'.
Proof. intros H. apply extends_keeps. apply (path_mkdir_spec e p fs r fs' H). Qed.

Lemma print_lines_keeps (e : env) (texts : list (list N))
    (fs fs' : gmap (list (list N)) node) r :
  print_lines e texts fs = (r, fs') -> keeps fs fs'.
Proof.
  rewrite print_lines_eq. destruct (print_error _ _); intros [= <- <-];
    apply keeps_refl.
Qed.

Lemma write_tree_keeps (e : env) (p : Path) (c1 c2 c3 c4 c5 : list N)
    (report : list (list N)) (fs fs' : gmap (list (list N)) node) r :
  write_tree e p c1 c2 c3 c4 c5 report fs = (r, fs') -> keeps fs fs'.
Proof.
  unfold write_tree.
  rewrite path_join_resources, path_join_scripts, path_join_skill_md,
    path_join_reference_md, path_join_gitignore, !path_join_readme.
  cbn [anchored parts].
  revert fs r fs'.
  apply bind_keeps; [intros fs r fs'; apply path_mkdir_keeps|intros _].
  apply bind_keeps; [intros fs r fs'; apply path_mkdir_keeps|intros _].
  apply bind_keeps;
    [intros fs r fs'; apply write_text_keeps;
       [name_neq|unfold skill_file_names; cbn [In]; tauto]|intros _].
  apply bind_keeps;
    [intros fs r fs'; apply write_text_keeps;
       [name_neq|unfold skill_file_names; cbn [In]; tauto]|intros _].
  apply bind_keeps;
    [intros fs r fs'; apply write_text_keeps;
       [name_neq|unfold skill_file_names; cbn [In]; tauto]|intros _].
  apply bind_keeps;
    [intros fs r fs'; apply write_text_keeps;
       [name_neq|unfold skill_file_names; cbn [In]; tauto]|intros _].
  apply bind_keeps;
    [intros fs r fs'; apply write_text_keeps;
       [name_neq|unfold skill_file_names; cbn [In]; tauto]|intros _].
  apply bind_keeps; [intros fs r fs'; apply print_lines_keeps|intros _].
  intros fs r fs' [= <- <-]. apply keeps_refl.
Qed.

Lemma create_skill_keeps_all (ul : lower_table) (e : env)
    (skill_name description purpose instructions examples dependencies : list N)
    (install_path : option (list N)) (fs fs' : gmap (list (list N)) node)
    (r : result Path) :
  create_skill ul e skill_name description purpose instructions examples
    dependencies install_path fs = (r, fs') ->
  keeps fs fs'.
Proof.
  rewrite create_skill_eq.
  destruct (sanitize_name ul skill_name) as [safe_name|x];
    [|intros [= <- <-]; apply keeps_refl].
  destruct (1024 <? length description)%nat; [intros [= <- <-]; apply keeps_refl|].
  destruct (is_empty (str_strip description)); [intros [= <- <-]; apply keeps_refl|].
  revert fs r fs'. apply bind_keeps.
  - intros fs r fs' H. apply extends_keeps. unfold path_mkdir_parents in H.
    apply (mkdir_parents_spec _ _ _ _ _ _ H).
  - intros _ fs r fs'. apply write_tree_keeps.
Qed.

(** X6: whatever [create_skill] ends with, a return or an exception, it has
    removed nothing: every entry the file system had is still there, a
    directory as a directory and a regular file as a regular file, and the
    only files whose text may have changed are named [SKILL.md],
    [REFERENCE.md], [README.md] or [.gitignore]. *)
Theorem create_skill_keeps (ul : lower_table) (e : env)
    (skill_name description purpose instructions examples dependencies : list N)
    (install_path : option (list N)) (fs fs' : gmap (list (list N)) node)
    (r : result Path) :
  create_skill ul e skill_name description purpose instructions examples
    dependencies install_path fs = (r, fs') ->
  keeps fs fs'.
Proof. apply create_skill_keeps_all. Qed.

Lemma create_skill_keeps_witness :
  keeps fs0 (snd run0).
Proof.
  apply (create_skill_keeps sample_lower env0 (lit "My Cool Skill!!")
           (lit "Does things") (lit "P") (lit "I") (lit "E") (lit "numpy") None
           fs0 (snd run0) (fst run0)).
  exact (surjective_pairing run0).
Defined.

(** ** The materializer: where the target directory is *)

Lemma split_slash_plain s :
  forallb in_class s = true -> split_slash s = [s].
Proof.
  induction s as [|c r IH]; intros H; [reflexivity|].
  apply forallb_cons_true in H. destruct H as [Hc Hr].
  cbn [split_slash]. rewrite (IH Hr).
  assert (E : (c =? slash) = false).
  { apply N.eqb_neq. intros ->. vm_compute in Hc. discriminate Hc. }
  rewrite E. reflexivity.
Qed.

Lemma path_of_str_slug s :
  forallb in_class s = true -> s <> [] ->
  path_of_str s = {| anchored := false; parts := [s] |}.
Proof.
  intros H Hne. unfold path_of_str.
  rewrite (in_class_not_slash s H), (split_slash_plain s H).
  cbn [List.filter]. unfold keep_part.
  rewrite (bool_decide_eq_false_2 _ Hne).
  assert (Hd : s <> lit ".").
  { intros ->. vm_compute in H. discriminate H. }
  rewrite (bool_decide_eq_false_2 _ Hd). reflexivity.
Qed.

Lemma path_of_str_dot_slug s :
  forallb in_class s = true -> s <> [] ->
  path_of_str (lit "./" ++ s) = {| anchored := false; parts := [s] |}.
Proof.
  intros H Hne. unfold path_of_str.
  change (lit "./" ++ s) with (46 :: 47 :: s).
  cbn [starts_with split_slash].
  change (46 =? slash) with false. change (47 =? slash) with true.
  change (slash =? 46) with false. cbn [andb].
  rewrite (split_slash_plain s H). cbn [List.filter]. unfold keep_part.
  rewrite (bool_decide_eq_false_2 _ Hne).
  assert (Hd : s <> lit ".").
  { intros ->. vm_compute in H. discriminate H. }
  rewrite (bool_decide_eq_false_2 _ Hd). reflexivity.
Qed.

(** X7: the target directory is the install directory (the working directory
    when none is given) with one more part, the safe name: a safe name holds
    no separator and is neither [.] nor [..].  When the safe name is empty,
    the target is the install directory itself. *)
Theorem target_dir_child (ul : lower_table) (skill_name safe_name : list N)
    (install_path : option (list N)) :
  sanitize_name ul skill_name = Return safe_name ->
  target_dir install_path safe_name
  = if is_empty safe_name then base_dir install_path
    else {| anchored := anchored (base_dir install_path);
            parts := parts (base_dir install_path) ++ [safe_name] |}.
Proof.
  intros Hs. destruct (sanitize_name_shape ul _ _ Hs) as (Hc & _).
  destruct safe_name as [|x s]; cbn [is_empty].
  - unfold target_dir, base_dir. destruct install_path as [[|c ip]|];
      try reflexivity.
    cbn [is_empty]. unfold path_join.
    change (path_of_str []) with {| anchored := false; parts := [] |}.
    cbn [anchored parts]. rewrite app_nil_r.
    destruct (path_of_str (c :: ip)); reflexivity.
  - assert (Hne : x :: s <> []) by discriminate.
    unfold target_dir, base_dir. destruct install_path as [[|c ip]|].
    + cbn [is_empty]. apply (path_of_str_dot_slug _ Hc Hne).
    + cbn [is_empty]. unfold path_join.
      rewrite (path_of_str_slug _ Hc Hne). reflexivity.
    + apply (path_of_str_dot_slug _ Hc Hne).
Qed.

Lemma target_dir_child_witness :
  target_dir (Some (lit "/opt//skills/./x/")) (lit "my-cool-skill")
  = if is_empty (lit "my-cool-skill") then base_dir (Some (lit "/opt//skills/./x/"))
    else {| anchored := anchored (base_dir (Some (lit "/opt//skills/./x/")));
            parts := parts (base_dir (Some (lit "/opt//skills/./x/")))
                     ++ [lit "my-cool-skill"] |}.
Proof.
  apply (target_dir_child sample_lower (lit "My Cool Skill!!")).
  vm_compute. reflexivity.
Defined.


(** ** The materializer: where it writes *)

Lemma path_mkdir_inv (e : env) (p : Path) (fs fs' : gmap (list (list N)) node) r :
  path_mkdir e p fs = (r, fs') ->
  fs' = fs
  \/ exists l, resolve e p fs = Return l /\ fs' = <[l := Dir]> fs.
Proof.
  unfold path_mkdir. destruct (os_mkdir e p fs) as [[u|x] fs1] eqn:E.
  - intros [= <- <-]. apply os_mkdir_inv in E.
    destruct E as [(l & _ & Hn & _ & ->)|(x & Hx & _)]; [|discriminate].
    right. exists l. split; [exact Hn|reflexivity].
  - destruct x as [msg| | | |];
      [| |destruct (is_dir e p fs)..]; intros [= <- <-]; left; reflexivity.
Qed.

Lemma resolve_loc (e : env) (p : Path) (fs : gmap (list (list N)) node) l :
  resolve e p fs = Return l -> l = target_loc e p.
Proof.
  intros H. apply resolve_return in H. destruct H as (_ & _ & H).
  apply (namei_loc fs _ _ _ H).
Qed.

Lemma walk_last_In (cur : list (list N)) (ps : list (list N)) (c : list N) :
  In (fold_left step (ps ++ [c]) cur) (walk cur (ps ++ [c])).
Proof.
  rewrite walk_snoc, fold_left_app. apply in_or_app. right. left. reflexivity.
Qed.

Lemma walk_snoc_In (cur : list (list N)) (ps : list (list N)) (c : list N) l :
  In l (walk cur ps) -> In l (walk cur (ps ++ [c])).
Proof. intros H. rewrite walk_snoc. apply in_or_app. left. exact H. Qed.

(** [mkdir(parents=True, exist_ok=True)] touches nothing but the locations
    on the way to the path, whether it returns or raises. *)
Lemma mkdir_parents_changes (e : env) (a : bool) (rp : list (list N)) :
  forall (fs fs' : gmap (list (list N)) node) r,
    mkdir_parents e a rp fs = (r, fs') ->
    forall l, fs' !! l = fs !! l
              \/ In l (walk (if a then [] else cwd e) (rev rp)).
Proof.
  set (cur := if a then [] else cwd e).
  induction rp as [|c rp' IH]; intros fs fs' r.
  - cbn [mkdir_parents rev].
    set (p := {| anchored := a; parts := [] |}).
    destruct (os_mkdir e p fs) as [[u|x] fs1] eqn:E.
    + apply os_mkdir_inv in E.
      destruct E as [(l0 & _ & Hl0 & Hnone & ->)|(x & Hx & _)]; [|discriminate].
      apply resolve_return in Hl0. destruct Hl0 as (_ & Hcur & Hl0).
      cbn in Hl0. injection Hl0 as <-. congruence.
    + apply os_mkdir_raise in E. destruct E as [-> _].
      destruct x as [msg| | | |];
        [| |destruct (is_dir e p fs)..]; intros [= <- <-] l; left; reflexivity.
  - cbn [mkdir_parents rev].
    set (p := {| anchored := a; parts := rev rp' ++ [c] |}).
    assert (HT : target_loc e p = fold_left step (rev rp' ++ [c]) cur)
      by reflexivity.
    destruct (os_mkdir e p fs) as [[u|x] fs1] eqn:E.
    + intros [= <- <-] l. apply os_mkdir_inv in E.
      destruct E as [(l0 & _ & Hl0 & _ & ->)|(x & Hx & _)]; [|discriminate].
      apply resolve_loc in Hl0. rewrite HT in Hl0. subst l0.
      destruct (decide (fold_left step (rev rp' ++ [c]) cur = l)) as [<-|Hne].
      * right. apply walk_last_In.
      * left. apply lookup_insert_ne, Hne.
    + apply os_mkdir_raise in E. destruct E as [-> _].
      destruct x as [msg| | | |].
      * intros [= <- <-] l. left. reflexivity.
      * destruct (mkdir_parents e a rp' fs) as [[u|z] fs2] eqn:E2.
        -- intros H l. destruct (IH _ _ _ E2 l) as [E3|E3];
             [|right; apply walk_snoc_In, E3].
           apply path_mkdir_inv in H. destruct H as [->|(l0 & Hl0 & ->)];
             [left; exact E3|].
           apply resolve_loc in Hl0. rewrite HT in Hl0. subst l0.
           destruct (decide (fold_left step (rev rp' ++ [c]) cur = l)) as [<-|Hne].
           ++ right. apply walk_last_In.
           ++ left. rewrite lookup_insert_ne by exact Hne. exact E3.
        -- intros [= <- <-] l. destruct (IH _ _ _ E2 l) as [E3|E3];
             [left; exact E3|right; apply walk_snoc_In, E3].
      * destruct (is_dir e p fs); intros [= <- <-] l; left; reflexivity.
      * destruct (is_dir e p fs); intros [= <- <-] l; left; reflexivity.
      * destruct (is_dir e p fs); intros [= <- <-] l; left; reflexivity.
Qed.

Lemma tree_outcome_other (e : env) (p : Path) (T : list (list N))
    (c1 c2 c3 c4 c5 : list N) (report : list (list N))
    (fs : gmap (list (list N)) node) (l : list (list N)) :
  ~ In l (skill_locs T) ->
  snd (tree_outcome e p T c1 c2 c3 c4 c5 report fs) !! l = fs !! l.
Proof.
  intros Hnot. unfold tree_outcome, skill_dirs. cbv zeta.
  repeat match goal with
         | |- context [if ?b then _ else _] => destruct b
         end;
    try destruct (print_error _ _); cbn [snd];
    rewrite ?lookup_insert_ne, ?lookup_ensure_dir_ne; try reflexivity;
    intros <-; apply Hnot; unfold skill_locs, skill_file_locs; cbn [In]; tauto.
Qed.

(** X8: with a name that passes [sanitize_name], a target path without [..]
    and a starting directory that exists, [create_skill] changes nothing
    outside the locations on the way to the target, the target being the
    last of them, and the seven locations of the skill below it; this holds
    whether it returns or raises. *)
Theorem create_skill_contained (ul : lower_table) (e : env)
    (skill_name description purpose instructions examples dependencies : list N)
    (install_path : option (list N)) (fs fs' : gmap (list (list N)) node)
    (r : result Path) (safe_name : list N) :
  sanitize_name ul skill_name = Return safe_name ->
  let p := target_dir install_path safe_name in
  let T := start e p ++ parts p in
  ~ In (lit "..") (parts p) ->
  node_at fs (start e p) = Some Dir ->
  create_skill ul e skill_name description purpose instructions examples
    dependencies install_path fs = (r, fs') ->
  forall l, fs' !! l = fs !! l
            \/ In l (prefixes (start e p) (parts p))
            \/ In l (skill_locs T).
Proof.
  intros Hs p T Hdd Hcur. rewrite create_skill_eq, Hs.
  destruct (1024 <? length description)%nat;
    [intros [= <- <-] l; left; reflexivity|].
  destruct (is_empty (str_strip description));
    [intros [= <- <-] l; left; reflexivity|].
  fold p. unfold bind at 1.
  destruct (walk_plain (parts p) Hdd (start e p)) as [Ew Et].
  assert (Hway : forall (fsd : gmap (list (list N)) node) rr l,
             path_mkdir_parents e p fs = (rr, fsd) ->
             fsd !! l = fs !! l \/ In l (prefixes (start e p) (parts p))).
  { intros fsd rr l M. unfold path_mkdir_parents in M.
    destruct (mkdir_parents_changes e (anchored p) (rev (parts p)) fs fsd _ M l)
      as [E1|E1]; [left; exact E1|right].
    rewrite rev_involutive in E1. rewrite <- Ew. exact E1. }
  destruct (path_mkdir_parents e p fs) as [[[]|x] fsd] eqn:M.
  - pose proof (path_mkdir_parents_dir_of _ _ _ _ M) as [_ [T' HdT]].
    pose proof (dir_of_loc _ _ _ _ HdT) as ET. unfold target_loc in ET.
    rewrite Et in ET. fold T in ET. subst T'.
    rewrite (write_tree_eq e p _ _ _ _ _ _ fsd T HdT).
    intros H l.
    assert (E : fs' = snd (tree_outcome e p T
                  (skill_content safe_name skill_name description purpose
                     instructions examples dependencies (now_skill e))
                  (reference_content skill_name (now_reference e))
                  (resources_readme skill_name) (scripts_readme skill_name)
                  gitignore_content
                  (report_lines (absolute_str e p) safe_name) fsd))
      by (rewrite H; reflexivity).
    destruct (decide (l ∈ skill_locs T)) as [Hin|Hout].
    + right. right. apply list_elem_of_In, Hin.
    + rewrite E, tree_outcome_other
        by (intros X; apply Hout, list_elem_of_In, X).
      destruct (Hway fsd _ l eq_refl) as [E1|E1]; [left; exact E1|right; left; exact E1].
  - intros [= <- <-] l.
    destruct (Hway fsd _ l eq_refl) as [E1|E1]; [left; exact E1|right; left; exact E1].
Qed.

Lemma create_skill_contained_witness :
  snd run0 !! [lit "home"; lit "user"; lit "notes.txt"]
  = fs0 !! [lit "home"; lit "user"; lit "notes.txt"]
  \/ In [lit "home"; lit "user"; lit "notes.txt"]
        [[lit "home"; lit "user"; lit "my-cool-skill"]]
  \/ In [lit "home"; lit "user"; lit "notes.txt"]
        (skill_locs [lit "home"; lit "user"; lit "my-cool-skill"]).
Proof.
  apply (create_skill_contained sample_lower env0 (lit "My Cool Skill!!")
           (lit "Does things") (lit "P") (lit "I") (lit "E") (lit "numpy") None
           fs0 (snd run0) (fst run0) (lit "my-cool-skill")).
  - vm_compute. reflexivity.
  - intros H. vm_compute in H. destruct H as [H|[]]. discriminate H.
  - vm_compute. reflexivity.
  - exact (surjective_pairing run0).
Defined.

(** ** The materializer: no rollback *)

(** X9: nothing is rolled back.  When the target directory is there, nothing
    is in the way of the two subdirectories and of the first four files, the
    encoder of the files takes the fields of the texts, and a directory sits
    where [.gitignore] goes, [create_skill] raises [IsADirectoryError] at
    the last [write_text] and leaves the two subdirectories and the four
    files it wrote before. *)
Theorem create_skill_no_rollback (ul : lower_table) (e : env)
    (skill_name description purpose instructions examples dependencies : list N)
    (install_path : option (list N)) (fs : gmap (list (list N)) node)
    (safe_name : list N) (T : list (list N)) :
  sanitize_name ul skill_name = Return safe_name ->
  (length description <= 1024)%nat ->
  is_empty (str_strip description) = false ->
  forallb (encodes (file_codec e))
    [skill_name; description; purpose; instructions; examples; dependencies] = true ->
  let p := target_dir install_path safe_name in
  dir_of e p fs T ->
  is_file fs (loc_resources T) = false ->
  is_file fs (loc_scripts T) = false ->
  dir_here fs (loc_skill_md T) = false ->
  dir_here fs (loc_reference_md T) = false ->
  dir_here fs (loc_resources_readme T) = false ->
  dir_here fs (loc_scripts_readme T) = false ->
  dir_here fs (loc_gitignore T) = true ->
  exists fs',
    create_skill ul e skill_name description purpose instructions examples
      dependencies install_path fs = (Raise IsADirectoryError, fs') /\
    fs' !! loc_resources T = Some Dir /\
    fs' !! loc_scripts T = Some Dir /\
    fs' !! loc_skill_md T
    = Some (File (skill_content safe_name skill_name description purpose
                    instructions examples dependencies (now_skill e))) /\
    fs' !! loc_reference_md T
    = Some (File (reference_content skill_name (now_reference e))) /\
    fs' !! loc_resources_readme T = Some (File (resources_readme skill_name)) /\
    fs' !! loc_scripts_readme T = Some (File (scripts_readme skill_name)) /\
    fs' !! loc_gitignore T = Some Dir.
Proof.
  intros Hs Hl Hd He p HdT Hr Hc H1 H2 H3 H4 H5.
  rewrite (create_skill_valid _ _ _ _ _ _ _ _ _ _ _ Hs Hl Hd). fold p.
  unfold path_mkdir_parents.
  rewrite (mkdir_parents_again e (anchored p) (rev (parts p)) fs T)
    by (rewrite rev_involutive, path_eta; exact HdT).
  rewrite (write_tree_eq e p _ _ _ _ _ _ fs T HdT).
  pose proof (skill_texts_encode _ ul _ _ _ _ _ _ _ (now_skill e)
                (now_reference e) Hs He) as Ht.
  cbn [forallb] in Ht. rewrite !andb_true_iff in Ht.
  destruct Ht as (G1 & G2 & G3 & G4 & _).
  unfold tree_outcome. rewrite Hr, Hc, H1, H2, H3, H4, H5, G1, G2, G3, G4. cbv zeta.
  cbn [negb].
  eexists. split; [reflexivity|]. unfold skill_dirs.
  split.
  { rewrite !lookup_insert_ne by loc_neq.
    rewrite lookup_ensure_dir_ne by loc_neq. apply lookup_ensure_dir_eq, Hr. }
  split.
  { rewrite !lookup_insert_ne by loc_neq.
    apply lookup_ensure_dir_eq. rewrite is_file_ensure_dir. exact Hc. }
  split; [rewrite !lookup_insert_ne by loc_neq; apply lookup_insert_eq|].
  split; [rewrite !lookup_insert_ne by loc_neq; apply lookup_insert_eq|].
  split; [rewrite !lookup_insert_ne by loc_neq; apply lookup_insert_eq|].
  split; [apply lookup_insert_eq|].
  rewrite !lookup_insert_ne by loc_neq.
  rewrite !lookup_ensure_dir_ne by loc_neq.
  apply dir_here_node in H5. unfold loc_gitignore in *.
  rewrite node_at_snoc in H5. exact H5.
Qed.

Lemma create_skill_no_rollback_witness :
  exists fs',
    create_skill sample_lower env0 (lit "My Cool Skill!!") (lit "Does things")
      (lit "P") (lit "I") (lit "E") [] None fs_blocked
    = (Raise IsADirectoryError, fs') /\
    fs' !! loc_skill_md [lit "home"; lit "user"; lit "my-cool-skill"]
    = Some (File (skill_content (lit "my-cool-skill") (lit "My Cool Skill!!")
                    (lit "Does things") (lit "P") (lit "I") (lit "E") []
                    (now_skill env0))).
Proof.
  destruct (create_skill_no_rollback sample_lower env0 (lit "My Cool Skill!!")
              (lit "Does things") (lit "P") (lit "I") (lit "E") [] None
              fs_blocked (lit "my-cool-skill")
              [lit "home"; lit "user"; lit "my-cool-skill"])
    as (fs' & H1 & _ & _ & H2 & _).
  - vm_compute. reflexivity.
  - vm_compute. lia.
  - vm_compute. reflexivity.
  - vm_compute. reflexivity.
  - split; vm_compute; reflexivity.
  - vm_compute. reflexivity.
  - vm_compute. reflexivity.
  - vm_compute. reflexivity.
  - vm_compute. reflexivity.
  - vm_compute. reflexivity.
  - vm_compute. reflexivity.
  - vm_compute. reflexivity.
  - exists fs'. split; [exact H1|exact H2].
Defined.

(** ** The materializer: what an encoder does not take *)

Lemma mkdir_parents_refused (e : env) (a : bool) (rp : list (list N))
    (fs : gmap (list (list N)) node) x :
  path_error e {| anchored := a; parts := rev rp |} = Some x ->
  mkdir_parents e a rp fs = (Raise x, fs).
Proof.
  intros H. destruct (path_error_value _ _ _ H) as [msg ->].
  destruct rp; cbn [mkdir_parents]; unfold os_mkdir, resolve; rewrite H;
    reflexivity.
Qed.

(** X15: with a valid spec and a target path the system does not accept, one
    that holds the code point 0 or that the encoding of the file system
    does not take, [create_skill] raises the [ValueError] of the path at the
    first [mkdir] and leaves the file system as it was. *)
Theorem create_skill_path_refused (ul : lower_table) (e : env)
    (skill_name description purpose instructions examples dependencies : list N)
    (install_path : option (list N)) (fs : gmap (list (list N)) node)
    (safe_name : list N) (x : exn) :
  sanitize_name ul skill_name = Return safe_name ->
  (length description <= 1024)%nat ->
  is_empty (str_strip description) = false ->
  path_error e (target_dir install_path safe_name) = Some x ->
  create_skill ul e skill_name description purpose instructions examples
    dependencies install_path fs = (Raise x, fs)
  /\ exists msg, x = ValueError msg.
Proof.
  intros Hs Hl Hd Hp. split; [|apply (path_error_value _ _ _ Hp)].
  rewrite (create_skill_valid _ _ _ _ _ _ _ _ _ _ _ Hs Hl Hd).
  unfold path_mkdir_parents.
  rewrite (mkdir_parents_refused e _ _ fs x); [reflexivity|].
  rewrite rev_involutive, path_eta. exact Hp.
Qed.

Lemma create_skill_path_refused_witness :
  create_skill sample_lower env0 (lit "My Cool Skill!!") (lit "Does things")
    (lit "P") (lit "I") (lit "E") [] (Some [97; 0; 98]) fs0
  = (Raise (ValueError msg_null_byte), fs0)
  /\ exists msg, ValueError msg_null_byte = ValueError msg.
Proof.
  apply (create_skill_path_refused sample_lower env0 (lit "My Cool Skill!!")
           (lit "Does things") (lit "P") (lit "I") (lit "E") []
           (Some [97; 0; 98]) fs0 (lit "my-cool-skill")).
  - vm_compute. reflexivity.
  - vm_compute. lia.
  - vm_compute. reflexivity.
  - vm_compute. reflexivity.
Defined.

(** X16: with a valid spec, a target directory that gets made and nothing in
    the way of the two subdirectories and of [SKILL.md], a text of
    [SKILL.md] the encoder of the files does not take makes [create_skill]
    raise the [ValueError] of the encoder at the first [write_text]: the
    directories made stay, and [SKILL.md] is there and empty. *)
Theorem create_skill_text_refused (ul : lower_table) (e : env)
    (skill_name description purpose instructions examples dependencies : list N)
    (install_path : option (list N)) (fs fs1 : gmap (list (list N)) node)
    (safe_name : list N) :
  sanitize_name ul skill_name = Return safe_name ->
  (length description <= 1024)%nat ->
  is_empty (str_strip description) = false ->
  let p := target_dir install_path safe_name in
  let T := target_loc e p in
  let c_skill := skill_content safe_name skill_name description purpose
                   instructions examples dependencies (now_skill e) in
  path_mkdir_parents e p fs = (Return tt, fs1) ->
  is_file fs1 (loc_resources T) = false ->
  is_file fs1 (loc_scripts T) = false ->
  dir_here fs1 (loc_skill_md T) = false ->
  encodes (file_codec e) c_skill = false ->
  exists fs',
    create_skill ul e skill_name description purpose instructions examples
      dependencies install_path fs
    = (Raise (ValueError (refusal (file_codec e) c_skill)), fs') /\
    node_at fs' T = Some Dir /\
    fs' !! loc_resources T = Some Dir /\
    fs' !! loc_scripts T = Some Dir /\
    fs' !! loc_skill_md T = Some (File []).
Proof.
  intros Hs Hl Hd p T c_skill Hm Hr Hc H1 He.
  rewrite (create_skill_valid _ _ _ _ _ _ _ _ _ _ _ Hs Hl Hd). fold p. rewrite Hm.
  destruct (path_mkdir_parents_dir_of _ _ _ _ Hm) as [_ [T' HdT]].
  rewrite (dir_of_loc _ _ _ _ HdT) in HdT. fold T in HdT.
  rewrite (write_tree_eq e p _ _ _ _ _ _ fs1 T HdT).
  unfold tree_outcome. cbv zeta. fold c_skill. rewrite Hr, Hc, H1, He. cbn [negb].
  eexists. split; [reflexivity|]. unfold skill_dirs.
  split.
  { assert (X : dir_of e p
                  (<[loc_skill_md T := File []]>
                     (ensure_dir (ensure_dir fs1 (loc_resources T)) (loc_scripts T)))
                  T).
    { apply dir_of_insert_file; [|do 2 apply dir_of_ensure_dir; exact HdT].
      rewrite !dir_here_ensure_dir by loc_neq. exact H1. }
    apply X. }
  split.
  { rewrite lookup_insert_ne by loc_neq.
    rewrite lookup_ensure_dir_ne by loc_neq. apply lookup_ensure_dir_eq, Hr. }
  split.
  { rewrite lookup_insert_ne by loc_neq.
    apply lookup_ensure_dir_eq. rewrite is_file_ensure_dir. exact Hc. }
  apply lookup_insert_eq.
Qed.

Lemma create_skill_text_refused_witness :
  exists fs',
    create_skill sample_lower env0 (lit "ab" ++ [55296]) (lit "Does things")
      (lit "P") (lit "I") (lit "E") [] None fs0
    = (Raise (ValueError (lit "surrogates not allowed")), fs') /\
    node_at fs' [lit "home"; lit "user"; lit "ab"] = Some Dir /\
    fs' !! [lit "home"; lit "user"; lit "ab"; lit "SKILL.md"] = Some (File []).
Proof.
  destruct (create_skill_text_refused sample_lower env0 (lit "ab" ++ [55296])
              (lit "Does things") (lit "P") (lit "I") (lit "E") [] None fs0
              (snd (path_mkdir_parents env0
                      {| anchored := false; parts := [lit "ab"] |} fs0))
              (lit "ab"))
    as (fs' & H1 & H2 & _ & _ & H3).
  - vm_compute. reflexivity.
  - vm_compute. lia.
  - vm_compute. reflexivity.
  - apply pair_of_fst. vm_compute. reflexivity.
  - vm_compute. reflexivity.
  - vm_compute. reflexivity.
  - vm_compute. reflexivity.
  - vm_compute. reflexivity.
  - exists fs'. split; [exact H1|]. split; [exact H2|exact H3].
Defined.


(** ** The interactive caller: reading a block *)

Lemma read_lines_some (stdin : list (list N)) :
  forall lines got rest,
    read_lines stdin lines = Some (got, rest) <->
    exists ls, got = lines ++ ls /\ stdin = ls ++ lit "DONE" :: rest
               /\ ~ In (lit "DONE") ls.
Proof.
  induction stdin as [|l r IH]; intros lines got rest; cbn [read_lines].
  - split; [discriminate|]. intros (ls & _ & H & _). destruct ls; discriminate H.
  - destruct (decide (l = lit "DONE")) as [->|Hne].
    + rewrite bool_decide_eq_true_2 by reflexivity. split.
      * intros [= <- <-]. exists []. rewrite app_nil_r. repeat split. intros [].
      * intros (ls & -> & H & Hn). destruct ls as [|x ls].
        -- injection H as <-. rewrite app_nil_r. reflexivity.
        -- injection H as <- _. exfalso. apply Hn. left. reflexivity.
    + rewrite (bool_decide_eq_false_2 _ Hne). rewrite IH. split.
      * intros (ls & -> & -> & Hn). exists (l :: ls).
        rewrite <- app_assoc. repeat split. intros [X|X]; [congruence|exact (Hn X)].
      * intros (ls & -> & H & Hn). destruct ls as [|x ls].
        -- injection H as -> _. contradiction.
        -- injection H as <- ->. exists ls. rewrite <- app_assoc.
           repeat split. intros X. apply Hn. right. exact X.
Qed.

Lemma read_lines_none (stdin : list (list N)) :
  forall lines, read_lines stdin lines = None <-> ~ In (lit "DONE") stdin.
Proof.
  induction stdin as [|l r IH]; intros lines; cbn [read_lines].
  - split; [intros _ []|reflexivity].
  - destruct (decide (l = lit "DONE")) as [->|Hne].
    + rewrite bool_decide_eq_true_2 by reflexivity. split; [discriminate|].
      intros H. exfalso. apply H. left. reflexivity.
    + rewrite (bool_decide_eq_false_2 _ Hne), IH. split.
      * intros H [X|X]; [congruence|exact (H X)].
      * intros H X. apply H. right. exact X.
Qed.

(** X10: the loop that reads a block returns the lines before the first line
    that is exactly [DONE], in their order, and takes that line and nothing
    after it from the input; when no line is [DONE] it comes to the end of
    the input, where [input()] raises [EOFError]. *)
Theorem read_lines_spec (stdin got rest : list (list N)) :
  (read_lines stdin [] = Some (got, rest) <->
   stdin = got ++ lit "DONE" :: rest /\ ~ In (lit "DONE") got) /\
  (read_lines stdin [] = None <-> ~ In (lit "DONE") stdin).
Proof.
  split; [|apply read_lines_none].
  rewrite read_lines_some. split.
  - intros (ls & -> & H & Hn). split; assumption.
  - intros [H Hn]. exists got. repeat split; assumption.
Qed.


(** ** The interactive caller: how it ends *)

Lemma interactive_mode_outcome (ul : lower_table) (pr : process)
    (stdin rest : list (list N)) (fs fs' : gmap (list (list N)) node) (o : outcome) :
  interactive_mode ul pr stdin fs = (o, rest, fs') ->
  keeps fs fs' /\
  match o with
  | SystemExit n => n = 1
  | EOFError => fs' = fs
  | _ => True
  end.
Proof.
  unfold interactive_mode.
  destruct (input stdin) as [[l1 s1]|];
    [|intros [= <- _ <-]; split; [apply keeps_refl|reflexivity]].
  cbv zeta.
  destruct (is_empty (str_strip l1));
    [intros [= <- _ <-]; split; [apply keeps_refl|reflexivity]|].
  destruct (input s1) as [[l2 s2]|];
    [|intros [= <- _ <-]; split; [apply keeps_refl|reflexivity]].
  destruct (is_empty (str_strip l2));
    [intros [= <- _ <-]; split; [apply keeps_refl|reflexivity]|].
  destruct (input s2) as [[l3 s3]|];
    [|intros [= <- _ <-]; split; [apply keeps_refl|reflexivity]].
  destruct (read_lines s3 []) as [[ls4 s4]|];
    [|intros [= <- _ <-]; split; [apply keeps_refl|reflexivity]].
  destruct (read_lines s4 []) as [[ls5 s5]|];
    [|intros [= <- _ <-]; split; [apply keeps_refl|reflexivity]].
  destruct (input s5) as [[l6 s6]|];
    [|intros [= <- _ <-]; split; [apply keeps_refl|reflexivity]].
  destruct (input s6) as [[l7 s7]|];
    [|intros [= <- _ <-]; split; [apply keeps_refl|reflexivity]].
  destruct (create_skill ul (proc_env pr) _ _ _ _ _ _ _ fs) as [[p|x] fs1] eqn:E;
    apply create_skill_keeps_all in E.
  - intros [= <- _ <-]. split; [exact E|exact I].
  - destruct x; intros [= <- _ <-]; (split; [exact E|]); try exact I.
    reflexivity.
Qed.

(** X11: however [main] ends, it has removed nothing from the file system: a
    directory is still a directory, a regular file still a regular file.
    When it ends by [sys.exit], the status is 0 for [--help], where no input
    is read and the file system is untouched, and 1 otherwise.  When the
    input ends too early, the file system is untouched. *)
Theorem main_outcome (ul : lower_table) (pr : process)
    (stdin rest : list (list N)) (fs fs' : gmap (list (list N)) node) (o : outcome) :
  main ul pr stdin fs = (o, rest, fs') ->
  keeps fs fs' /\
  match o with
  | SystemExit n =>
      n = 0 /\ rest = stdin /\ fs' = fs
      /\ proc_argv pr !! 1%nat = Some (lit "--help")
      \/ n = 1 /\ proc_argv pr !! 1%nat <> Some (lit "--help")
  | EOFError => fs' = fs
  | _ => True
  end.
Proof.
  unfold main.
  assert (Hi : proc_argv pr !! 1%nat <> Some (lit "--help") ->
               interactive_mode ul pr stdin fs = (o, rest, fs') ->
               keeps fs fs' /\
               match o with
               | SystemExit n =>
                   n = 0 /\ rest = stdin /\ fs' = fs
                   /\ proc_argv pr !! 1%nat = Some (lit "--help")
                   \/ n = 1 /\ proc_argv pr !! 1%nat <> Some (lit "--help")
               | EOFError => fs' = fs
               | _ => True
               end).
  { intros Hn H. apply interactive_mode_outcome in H. destruct H as [Hk H].
    split; [exact Hk|]. destruct o; try exact H.
    right. split; [exact H|exact Hn]. }
  destruct (proc_argv pr) as [|a0 [|a1 args]].
  - apply Hi. discriminate.
  - apply Hi. discriminate.
  - destruct (decide (a1 = lit "--help")) as [->|Hne].
    + rewrite bool_decide_eq_true_2 by reflexivity.
      intros [= <- <- <-]. split; [apply keeps_refl|]. left. repeat split.
    + rewrite (bool_decide_eq_false_2 _ Hne). apply Hi.
      cbn. intros [= X]. contradiction.
Qed.

Lemma main_outcome_witness :
  keeps fs0 (snd (main sample_lower process0
                    [lit "Claude Helper"; lit "Does things"; lit "P"; lit "DONE";
                     lit "DONE"; lit ""; lit "n"] fs0)) /\
  (1 = 0 /\ [] = [lit "Claude Helper"; lit "Does things"; lit "P"; lit "DONE";
               lit "DONE"; lit ""; lit "n"]
   /\ snd (main sample_lower process0
             [lit "Claude Helper"; lit "Does things"; lit "P"; lit "DONE";
              lit "DONE"; lit ""; lit "n"] fs0) = fs0
   /\ proc_argv process0 !! 1%nat = Some (lit "--help")
   \/ 1 = 1 /\ proc_argv process0 !! 1%nat <> Some (lit "--help")).
Proof.
  apply (main_outcome sample_lower process0
           [lit "Claude Helper"; lit "Does things"; lit "P"; lit "DONE";
            lit "DONE"; lit ""; lit "n"] [] fs0 _ (SystemExit 1)).
  apply pair_of_fst. vm_compute. reflexivity.
Defined.

(** ** The interactive caller: a whole session *)

Lemma read_lines_block (ls rest : list (list N)) :
  ~ In (lit "DONE") ls ->
  read_lines (ls ++ lit "DONE" :: rest) [] = Some (ls, rest).
Proof.
  intros H. apply read_lines_some. exists ls. repeat split. exact H.
Qed.

(** X12: a session that answers every prompt.  The name and the description
    are not blank, the two blocks end with a line [DONE]; then
    [interactive_mode] takes exactly these lines from the input and ends as
    [create_skill] does on the stripped answers, the lines of each block
    joined by newlines: it returns when [create_skill] returns, exits with
    status 1 on a [ValueError], and lets any other exception escape. *)
Theorem interactive_mode_session (ul : lower_table) (pr : process)
    (l1 l2 l3 l6 l7 : list N) (instructions examples rest : list (list N))
    (fs : gmap (list (list N)) node) :
  str_strip l1 <> [] ->
  str_strip l2 <> [] ->
  ~ In (lit "DONE") instructions ->
  ~ In (lit "DONE") examples ->
  interactive_mode ul pr
    (l1 :: l2 :: l3 :: instructions ++ lit "DONE"
        :: examples ++ lit "DONE" :: l6 :: l7 :: rest) fs
  = match create_skill ul (proc_env pr) (str_strip l1) (str_strip l2)
            (str_strip l3) (join_lines instructions) (join_lines examples)
            (str_strip l6) (install_path_of ul (proc_home pr) l7) fs with
    | (Return _, fs') => (Finished, rest, fs')
    | (Raise (ValueError _), fs') => (SystemExit 1, rest, fs')
    | (Raise x, fs') => (Uncaught x, rest, fs')
    end.
Proof.
  intros H1 H2 Hi He. unfold interactive_mode. cbn [input]. cbv zeta.
  destruct (str_strip l1) as [|c1 s1] eqn:E1; [contradiction|]. cbn [is_empty].
  destruct (str_strip l2) as [|c2 s2] eqn:E2; [contradiction|]. cbn [is_empty].
  rewrite (read_lines_block instructions _ Hi).
  rewrite (read_lines_block examples _ He). cbn [input]. reflexivity.
Qed.

Lemma interactive_mode_session_witness :
  interactive_mode sample_lower process0 session0 fs0
  = match create_skill sample_lower env0 (str_strip (lit "  My Cool Skill!! "))
            (str_strip (lit "Does things")) (str_strip (lit "P"))
            (join_lines [lit "step 1"; lit "step 2"]) (join_lines [lit "example"])
            (str_strip (lit "numpy"))
            (install_path_of sample_lower (Some (lit "/home/user/")) (lit " Y ")) fs0 with
    | (Return _, fs') => (Finished, [lit "left over"], fs')
    | (Raise (ValueError _), fs') => (SystemExit 1, [lit "left over"], fs')
    | (Raise x, fs') => (Uncaught x, [lit "left over"], fs')
    end.
Proof.
  apply (interactive_mode_session sample_lower process0 (lit "  My Cool Skill!! ")
           (lit "Does things") (lit "P") (lit "numpy") (lit " Y ")
           [lit "step 1"; lit "step 2"] [lit "example"] [lit "left over"] fs0).
  - vm_compute. discriminate.
  - vm_compute. discriminate.
  - intros H. vm_compute in H. repeat (destruct H as [H|H]; [discriminate H|]).
    contradiction.
  - intros H. vm_compute in H. repeat (destruct H as [H|H]; [discriminate H|]).
    contradiction.
Defined.

(** X13: a name, or after a name a description, that is empty or of white
    space only ends [interactive_mode] with exit status 1 at that prompt: the
    lines after it are not read and the file system is not touched. *)
Theorem interactive_mode_blank (ul : lower_table) (pr : process)
    (l1 l2 : list N) (rest : list (list N)) (fs : gmap (list (list N)) node) :
  (forallb is_space l1 = true ->
   interactive_mode ul pr (l1 :: rest) fs = (SystemExit 1, rest, fs)) /\
  (str_strip l1 <> [] -> forallb is_space l2 = true ->
   interactive_mode ul pr (l1 :: l2 :: rest) fs = (SystemExit 1, rest, fs)).
Proof.
  split.
  - intros H. unfold interactive_mode. cbn [input]. cbv zeta.
    rewrite (str_strip_all l1 H). reflexivity.
  - intros H1 H2. unfold interactive_mode. cbn [input]. cbv zeta.
    destruct (str_strip l1) as [|c1 s1]; [contradiction|]. cbn [is_empty].
    rewrite (str_strip_all l2 H2). reflexivity.
Qed.

Lemma interactive_mode_blank_witness :
  interactive_mode sample_lower process0 [lit "   "; lit "Does things"] fs0
  = (SystemExit 1, [lit "Does things"], fs0) /\
  interactive_mode sample_lower process0 [lit "My Skill"; []; lit "P"] fs0
  = (SystemExit 1, [lit "P"], fs0).
Proof.
  split.
  - apply (proj1 (interactive_mode_blank sample_lower process0 (lit "   ") []
                    [lit "Does things"] fs0)).
    vm_compute. reflexivity.
  - apply (proj2 (interactive_mode_blank sample_lower process0 (lit "My Skill") []
                    [lit "P"] fs0)).
    + vm_compute. discriminate.
    + reflexivity.
Defined.

(** ** The interactive caller: the answer to the install prompt *)

Lemma lstrip_space_ascii s :
  forallb is_ascii s = true -> forallb is_ascii (lstrip_space s) = true.
Proof.
  induction s as [|c r IH]; intros H; [reflexivity|].
  cbn [lstrip_space]. destruct (is_space c); [|exact H].
  apply forallb_cons_true in H. apply IH, H.
Qed.

Lemma str_strip_ascii s :
  forallb is_ascii s = true -> forallb is_ascii (str_strip s) = true.
Proof.
  intros H. unfold str_strip.
  apply forallb_rev, lstrip_space_ascii, forallb_rev, lstrip_space_ascii, H.
Qed.

Lemma ascii_lower_y c : ascii_lower c = 121 <-> c = 121 \/ c = 89.
Proof.
  unfold ascii_lower.
  destruct (65 <=? c) eqn:A; destruct (c <=? 90) eqn:B; cbn [andb];
    try apply N.leb_le in A; try apply N.leb_le in B;
    try apply N.leb_gt in A; try apply N.leb_gt in B; lia.
Qed.

Lemma map_ascii_lower_y s :
  List.map ascii_lower s = lit "y" <-> s = lit "y" \/ s = lit "Y".
Proof.
  change (lit "y") with [121]. change (lit "Y") with [89].
  destruct s as [|c [|d r]]; cbn [List.map].
  - split; [discriminate|intros [H|H]; discriminate H].
  - split.
    + intros [= H]. apply ascii_lower_y in H. destruct H as [->| ->]; auto.
    + intros [[= ->]|[= ->]]; reflexivity.
  - split; [discriminate|intros [H|H]; discriminate H].
Qed.

(** X14: for an ASCII answer to the install prompt, the skill goes to the
    skills directory of the user exactly when the answer is [y] or [Y],
    white space around it aside; any other answer, [yes] too, leaves it in
    the working directory. *)
Theorem install_path_of_ascii (ul : lower_table) (home : option (list N))
    (answer : list N) :
  forallb is_ascii answer = true ->
  install_path_of ul home answer
  = if bool_decide (str_strip answer = lit "y")
       || bool_decide (str_strip answer = lit "Y")
    then Some (expanduser_skills home)
    else None.
Proof.
  intros H. unfold install_path_of, str_lower. cbv zeta.
  rewrite (lower_from_ascii ul _ (str_strip_ascii _ H)).
  destruct (decide (List.map ascii_lower (str_strip answer) = lit "y")) as [E|E].
  - rewrite (bool_decide_eq_true_2 _ E). apply map_ascii_lower_y in E.
    destruct E as [E|E]; rewrite E; reflexivity.
  - rewrite (bool_decide_eq_false_2 _ E).
    assert (E1 : str_strip answer <> lit "y")
      by (intros X; apply E, map_ascii_lower_y; left; exact X).
    assert (E2 : str_strip answer <> lit "Y")
      by (intros X; apply E, map_ascii_lower_y; right; exact X).
    rewrite (bool_decide_eq_false_2 _ E1), (bool_decide_eq_false_2 _ E2).
    reflexivity.
Qed.

Lemma install_path_of_ascii_witness :
  install_path_of sample_lower (Some (lit "/home/user/")) (lit "yes")
  = if bool_decide (str_strip (lit "yes") = lit "y")
       || bool_decide (str_strip (lit "yes") = lit "Y")
    then Some (expanduser_skills (Some (lit "/home/user/")))
    else None.
Proof.
  apply install_path_of_ascii. vm_compute. reflexivity.
Defined.

